(** * Sales dashboard (client/script.js): model and verified properties

    The dashboard script fetches a flat collection of order records, filters
    them by date range and category, aggregates them into key metrics and
    chart series, and fills a category drop-down.  This development embeds
    the script function by function and proves the properties of its
    filtering, aggregation, option-list construction, start-up flow and
    chart-handle discipline.

    Conventions of the embedding:
    - JavaScript numbers are IEEE 754 binary64 values, taken from the
      standard library's executable specification [SpecFloat] (precision 53,
      maximal exponent 1024), so that [NaN], the two zeros and the
      infinities behave as they do in the script;
    - strings are sequences of code units below 256;
    - plain objects used as dictionaries ([{}] with computed keys) are lists
      of own properties in creation order, enumerated in the order of
      OrdinaryOwnPropertyKeys (array indices ascending, then the other keys
      in creation order); keys that collide with members inherited from
      Object.prototype are outside the model;
    - the page, the console and the widget libraries are one explicit
      [World] record threaded through the functions; a thrown exception is
      a result of the computation and leaves the effects made so far in
      place;
    - what the engine's date parser makes of a string, and what the date
      picker makes of its default date, are parameters of the script. *)

From Stdlib Require Import ZArith List Bool Ascii String Lia PeanoNat.
From Stdlib Require Import Permutation Sorted.
From Stdlib Require Import Floats.SpecFloat.
Import ListNotations.

Local Open Scope string_scope.
Local Open Scope Z_scope.

(** ** Numbers *)

Module Number.

Definition prec : Z := 53.
Definition emax : Z := 1024.

Definition number : Type := spec_float.

Definition NaN : number := S754_nan.
Definition zero : number := S754_zero false.
Definition Infinity : number := S754_infinity false.

Definition add : number -> number -> number := SFadd prec emax.
Definition sub : number -> number -> number := SFsub prec emax.
Definition div : number -> number -> number := SFdiv prec emax.

(** [x < y], [x > y] and [x === y] of the language: all false on [NaN]. *)
Definition lt (x y : number) : bool := SFltb x y.
Definition gt (x y : number) : bool := SFltb y x.
Definition strict_eq (x y : number) : bool := SFeqb x y.

Definition isNaN (x : number) : bool :=
  match x with S754_nan => true | _ => false end.

Definition isFinite (x : number) : bool :=
  match x with S754_zero _ | S754_finite _ _ _ => true | _ => false end.

(** ToBoolean on a number: [+0], [-0] and [NaN] are falsy. *)
Definition truthy (x : number) : bool :=
  match x with S754_zero _ | S754_nan => false | _ => true end.

(** The number nearest to the integer [z] (ties to even). *)
Definition of_Z (z : Z) : number := binary_normalize prec emax z 0 false.

Definition of_nat (n : nat) : number := of_Z (Z.of_nat n).

(** The number nearest to the rational [n / d], for [0 < n] and [0 < d],
    with the sign [neg].  The quotient is taken with enough extra bits
    and a sticky bit, so that rounding it rounds the exact rational. *)
Definition of_ratio (neg : bool) (n d : Z) : number :=
  let s := Z.max 0 (56 + Z.log2_up d - Z.log2 n) in
  let q := (n * 2 ^ s) / d in
  let r := (n * 2 ^ s) mod d in
  let m := 2 * q + (if r =? 0 then 0 else 1) in
  binary_normalize prec emax (if neg then - m else m) (- s - 1) false.

(** The number nearest to [m * 10^e], for [0 <= m], with the sign [neg]. *)
Definition of_decimal (neg : bool) (m e : Z) : number :=
  if m =? 0 then S754_zero neg
  else if 0 <=? e then
    binary_normalize prec emax ((if neg then - m else m) * 10 ^ e) 0 false
  else of_ratio neg m (10 ^ (- e)).

End Number.

Import Number.

(** ** Strings and the number/string built-ins *)

Module Text.

Definition is_digit (c : ascii) : bool :=
  let n := nat_of_ascii c in (48 <=? n)%nat && (n <=? 57)%nat.

Definition digit_value (c : ascii) : Z := Z.of_nat (nat_of_ascii c) - 48.

(** StrWhiteSpaceChar, among the code units below 256. *)
Definition is_StrWhiteSpaceChar (c : ascii) : bool :=
  let n := nat_of_ascii c in
  ((9 <=? n)%nat && (n <=? 13)%nat) || (n =? 32)%nat || (n =? 160)%nat.

Fixpoint trim_start (s : string) : string :=
  match s with
  | String c s' => if is_StrWhiteSpaceChar c then trim_start s' else s
  | EmptyString => s
  end.

(** Reads the longest run of decimal digits at the head of [s], on top
    of the value [acc]: the value, the number of digits read, the rest. *)
Fixpoint read_digits (s : string) (acc : Z) (n : nat) : Z * nat * string :=
  match s with
  | String c s' =>
      if is_digit c then read_digits s' (10 * acc + digit_value c) (S n)
      else (acc, n, s)
  | EmptyString => (acc, n, s)
  end.

Definition digit_char (d : Z) : ascii := ascii_of_nat (Z.to_nat (48 + d)).

Fixpoint decimal_digits (fuel : nat) (z : Z) (acc : string) : string :=
  match fuel with
  | O => acc
  | S fuel' =>
      let acc' := String (digit_char (z mod 10)) acc in
      if z <? 10 then acc' else decimal_digits fuel' (z / 10) acc'
  end.

(** The decimal digits of [z], for [0 <= z]; [decimal 0 = "0"]. *)
Definition decimal (z : Z) : string :=
  decimal_digits (S (Z.to_nat (Z.log2 z))) z "".

Definition string_of_nat (n : nat) : string := decimal (Z.of_nat n).

Fixpoint zeros (n : nat) : string :=
  match n with O => "" | S n' => String "0" (zeros n') end.

Definition pad_start (width : nat) (s : string) : string :=
  zeros (width - String.length s) ++ s.

(** [s.split(sep)] for a one-character separator: never empty. *)
Fixpoint split (sep : ascii) (s : string) : list string :=
  match s with
  | EmptyString => [""]
  | String c s' =>
      if Ascii.eqb c sep then "" :: split sep s'
      else match split sep s' with
           | w :: ws => String c w :: ws
           | [] => [String c ""]
           end
  end.

(** [parts.join(sep)]. *)
Fixpoint join (sep : string) (parts : list string) : string :=
  match parts with
  | [] => ""
  | [w] => w
  | w :: ws => w ++ sep ++ join sep ws
  end.

(** [s.slice(0, n)]. *)
Definition slice0 (n : nat) (s : string) : string := String.substring 0 n s.

End Text.

Import Text.

Module Builtins.

(** The exponent part of a decimal literal at the head of [s], if there
    is one: its value and the rest of the string. *)
Definition read_exponent (s : string) : Z * string :=
  match s with
  | String c s1 =>
      if Ascii.eqb c "e" || Ascii.eqb c "E" then
        let '(neg, s2) :=
          match s1 with
          | String "-" s2 => (true, s2)
          | String "+" s2 => (false, s2)
          | _ => (false, s1)
          end in
        let '(v, n, rest) := read_digits s2 0 0 in
        match n with
        | O => (0, s)
        | S _ => (if neg then - v else v, rest)
        end
      else (0, s)
  | EmptyString => (0, s)
  end.

(** [parseFloat(s)]: leading white space is skipped, the longest prefix
    that is a decimal literal is converted, anything after it is ignored,
    and [NaN] is returned when there is no such prefix. *)
Definition parseFloat (s : string) : number :=
  let t := trim_start s in
  let '(neg, u) :=
    match t with
    | String "-" u => (true, u)
    | String "+" u => (false, u)
    | _ => (false, t)
    end in
  if String.prefix "Infinity" u then S754_infinity neg
  else
    let '(ip, ni, r1) := read_digits u 0 0 in
    let '(m, nf, r2) :=
      match r1 with
      | String "." r => read_digits r ip 0
      | _ => (ip, O, r1)
      end in
    match (ni + nf)%nat with
    | O => NaN
    | S _ =>
        let '(ex, _) := read_exponent r2 in
        of_decimal neg m (ex - Z.of_nat nf)
    end.

(** The integer nearest to [m * 2^e * 10^f], the larger one on a tie. *)
Definition scaled_round (m e : Z) (f : nat) : Z :=
  let p := m * 10 ^ Z.of_nat f in
  if 0 <=? e then p * 2 ^ e
  else (2 * p + 2 ^ (- e)) / (2 * 2 ^ (- e)).

(** [m * 2^e >= 10^21]. *)
Definition at_least_1e21 (m e : Z) : bool :=
  if 0 <=? e then 10 ^ 21 <=? m * 2 ^ e else 10 ^ 21 * 2 ^ (- e) <=? m.

(** Number::toString on an integer [v >= 10^21] whose number is [x]: the
    fewest digits that read back as [x], in exponential notation. *)
Fixpoint shortest_digits (x : number) (v n : Z) (tries : nat) (k : Z)
  : Z * Z :=
  match tries with
  | O => (v, n)
  | S tries' =>
      let p := 10 ^ (n - k) in
      let lo := v / p in
      let hi := lo + 1 in
      let ok c := match x, of_decimal false c (n - k) with
                  | S754_finite _ m1 e1, S754_finite _ m2 e2 =>
                      Pos.eqb m1 m2 && (e1 =? e2)
                  | _, _ => false
                  end in
      let closer_lo := v - lo * p <=? hi * p - v in
      if ok lo && (closer_lo || negb (ok hi)) then (lo, k)
      else if ok hi then (hi, k)
      else shortest_digits x v n tries' (k + 1)
  end.

Definition exponential (digits : string) (e : Z) : string :=
  match digits with
  | String d "" => String d "" ++ "e+" ++ decimal e
  | String d ds => String d "" ++ "." ++ ds ++ "e+" ++ decimal e
  | EmptyString => ""
  end.

Definition toString_large (x : number) (m e : Z) : string :=
  let v := m * 2 ^ e in
  let n := Z.of_nat (String.length (decimal v)) in
  let '(s, k) := shortest_digits x v n 17 1 in
  if s =? 10 ^ k then exponential "1" n
  else exponential (decimal s) (n - 1).

(** [x.toFixed(f)]. *)
Definition toFixed (x : number) (f : nat) : string :=
  match x with
  | S754_nan => "NaN"
  | S754_infinity s => if s then "-Infinity" else "Infinity"
  | S754_zero _ =>
      match f with O => "0" | S _ => "0." ++ zeros f end
  | S754_finite s m e =>
      let sign := if s then "-" else "" in
      if at_least_1e21 (Zpos m) e then sign ++ toString_large x (Zpos m) e
      else
        let digits := pad_start (S f) (decimal (scaled_round (Zpos m) e f)) in
        let k := (String.length digits - f)%nat in
        sign ++
        match f with
        | O => digits
        | S _ => String.substring 0 k digits ++ "." ++ String.substring k f digits
        end
  end.

End Builtins.

Import Builtins.

(** ** Dates

    A time value is a number of milliseconds since the epoch, or [None] for
    the [NaN] of an invalid date.  Relational operators on dates compare the
    time values as numbers, so every comparison with [None] is false. *)

Module DateValue.

Definition time_value : Type := option Z.

Definition msPerDay : Z := 86400000.

(** TimeClip. *)
Definition TimeClip (t : Z) : time_value :=
  if Z.abs t <=? 8640000000000000 then Some t else None.

(** [a >= b] and [a <= b] on two dates (or [undefined], read as [NaN]). *)
Definition ge (a b : time_value) : bool :=
  match a, b with Some x, Some y => y <=? x | _, _ => false end.

Definition le (a b : time_value) : bool :=
  match a, b with Some x, Some y => x <=? y | _, _ => false end.

(** Day number of a civil date, and back (proleptic Gregorian calendar). *)
Definition days_from_civil (y m d : Z) : Z :=
  let y' := if m <=? 2 then y - 1 else y in
  let era := y' / 400 in
  let yoe := y' - era * 400 in
  let doy := (153 * (if 2 <? m then m - 3 else m + 9) + 2) / 5 + d - 1 in
  let doe := yoe * 365 + yoe / 4 - yoe / 100 + doy in
  era * 146097 + doe - 719468.

Definition civil_from_days (z : Z) : Z * Z * Z :=
  let z' := z + 719468 in
  let era := z' / 146097 in
  let doe := z' - era * 146097 in
  let yoe := (doe - doe / 1460 + doe / 36524 - doe / 146096) / 365 in
  let doy := doe - (365 * yoe + yoe / 4 - yoe / 100) in
  let mp := (5 * doy + 2) / 153 in
  let d := doy - (153 * mp + 2) / 5 + 1 in
  let m := if mp <? 10 then mp + 3 else mp - 9 in
  (yoe + era * 400 + (if m <=? 2 then 1 else 0), m, d).

Definition is_leap (y : Z) : bool :=
  ((y mod 4 =? 0) && negb (y mod 100 =? 0)) || (y mod 400 =? 0).

Definition days_in_month (y m : Z) : Z :=
  if m =? 2 then (if is_leap y then 29 else 28)
  else if (m =? 4) || (m =? 6) || (m =? 9) || (m =? 11) then 30 else 31.

Definition two (z : Z) : string := pad_start 2 (decimal z).

(** [d.toISOString()] on a valid time value. *)
Definition iso_string (t : Z) : string :=
  let '(y, m, d) := civil_from_days (t / msPerDay) in
  let ms := t mod msPerDay in
  let year :=
    if (0 <=? y) && (y <=? 9999) then pad_start 4 (decimal y)
    else (if y <? 0 then "-" else "+") ++ pad_start 6 (decimal (Z.abs y)) in
  year ++ "-" ++ two m ++ "-" ++ two d ++ "T" ++
  two (ms / 3600000) ++ ":" ++ two (ms / 60000 mod 60) ++ ":" ++
  two (ms / 1000 mod 60) ++ "." ++ pad_start 3 (decimal (ms mod 1000)) ++ "Z".

(** [new Date(Math.min(...dates))] and [new Date(Math.max(...dates))]:
    [NaN] as soon as one date is invalid, and an infinity (an invalid
    date again) on no date at all. *)
Fixpoint all_valid (dates : list time_value) : option (list Z) :=
  match dates with
  | [] => Some []
  | Some t :: rest => option_map (cons t) (all_valid rest)
  | None :: _ => None
  end.

Definition Date_of_min (dates : list time_value) : time_value :=
  match all_valid dates with
  | Some (t :: ts) => TimeClip (fold_left Z.min ts t)
  | _ => None
  end.

Definition Date_of_max (dates : list time_value) : time_value :=
  match all_valid dates with
  | Some (t :: ts) => TimeClip (fold_left Z.max ts t)
  | _ => None
  end.

(** A date parser that accepts the date-only forms of the ECMAScript
    date-time string format ([YYYY], [YYYY-MM], [YYYY-MM-DD], read as
    UTC) and nothing else.  What an engine does with other strings is
    left to it by the language; this one rejects them. *)
Definition fixed_digits (n : nat) (s : string) : option (Z * string) :=
  let '(v, k, rest) := read_digits (String.substring 0 n s) 0 0 in
  if ((k =? n)%nat && (String.length rest =? 0)%nat)%bool
  then Some (v, String.substring n (String.length s - n) s) else None.

Definition dash_field (s : string) : option (Z * string) :=
  match s with
  | String "-" s' => fixed_digits 2 s'
  | _ => None
  end.

Definition Date_parse_strict (s : string) : time_value :=
  match fixed_digits 4 s with
  | None => None
  | Some (y, "") => Some (days_from_civil y 1 1 * msPerDay)
  | Some (y, s1) =>
      match dash_field s1 with
      | None => None
      | Some (m, s2) =>
          if (1 <=? m) && (m <=? 12) then
            match s2 with
            | "" => Some (days_from_civil y m 1 * msPerDay)
            | _ =>
                match dash_field s2 with
                | Some (d, "") =>
                    if (1 <=? d) && (d <=? days_in_month y m)
                    then Some (days_from_civil y m d * msPerDay) else None
                | _ => None
                end
            end
          else None
      end
  end.

End DateValue.

Import DateValue.

(** ** Plain objects used as dictionaries, and sets *)

Module Obj.

(** Own properties in creation order. *)
Definition t (V : Type) : Type := list (string * V).

Definition empty {V : Type} : t V := [].

(** [o[k]]; [None] is [undefined].  Only own properties are looked up: for
    a key that names a member of [Object.prototype] (see [inherited_key]
    below) the script's [{}] yields the inherited member instead, so the
    dictionaries are the script's for the other keys only, and the
    statements about them say so. *)
Fixpoint get {V : Type} (o : t V) (k : string) : option V :=
  match o with
  | [] => None
  | (k', v) :: o' => if String.eqb k' k then Some v else get o' k
  end.

(** [o[k] = v]: an existing property keeps its place, a new one is
    created last.  (The key ["__proto__"], which creates no own property
    in the script, is among the keys of [inherited_key].) *)
Fixpoint set {V : Type} (o : t V) (k : string) (v : V) : t V :=
  match o with
  | [] => [(k, v)]
  | (k', v') :: o' =>
      if String.eqb k' k then (k', v) :: o' else (k', v') :: set o' k v
  end.

Fixpoint all_digits (s : string) : bool :=
  match s with
  | EmptyString => true
  | String c s' => is_digit c && all_digits s'
  end.

(** The array index a property key denotes, if it is one: a canonical
    decimal numeral no larger than [2^32 - 2]. *)
Definition array_index (k : string) : option Z :=
  match k with
  | EmptyString => None
  | String c rest =>
      if all_digits k && (negb (Ascii.eqb c "0") || (String.length rest =? 0)%nat)
      then
        let '(v, _, _) := read_digits k 0 0 in
        if v <=? 4294967294 then Some v else None
      else None
  end.

Fixpoint insert_index {V : Type} (i : Z) (p : string * V)
         (l : list (Z * (string * V))) : list (Z * (string * V)) :=
  match l with
  | [] => [(i, p)]
  | (j, q) :: l' =>
      if i <? j then (i, p) :: l else (j, q) :: insert_index i p l'
  end.

Fixpoint index_properties {V : Type} (o : t V) : list (Z * (string * V)) :=
  match o with
  | [] => []
  | (k, v) :: o' =>
      match array_index k with
      | Some i => insert_index i (k, v) (index_properties o')
      | None => index_properties o'
      end
  end.

Definition named_properties {V : Type} (o : t V) : list (string * V) :=
  filter (fun p => match array_index (fst p) with
                   | Some _ => false | None => true end) o.

(** [Object.entries(o)]: array indices in ascending order, then the other
    keys in creation order. *)
Definition entries {V : Type} (o : t V) : list (string * V) :=
  (map snd (index_properties o) ++ named_properties o)%list.

(** [Object.keys(o)]. *)
Definition keys {V : Type} (o : t V) : list string := map fst (entries o).

End Obj.

Module JsSet.

Section WithEq.
Context {A : Type} (eqb : A -> A -> bool).

Definition has (s : list A) (x : A) : bool := existsb (eqb x) s.

(** [s.add(x)]: a value already present keeps its place. *)
Definition add (s : list A) (x : A) : list A :=
  if has s x then s else (s ++ [x])%list.

(** [new Set(l)], in insertion order. *)
Definition of_list (l : list A) : list A := fold_left add l [].
End WithEq.

End JsSet.

(** [Array.prototype.sort] with a comparison function: a stable insertion
    sort in which an element moves left past the elements it must precede.
    A comparison result of [NaN] counts as zero.  The language fixes the
    result (the stable sorted order) when the comparison function is
    consistent, which [(a, b) => b[1] - a[1]] is as long as no compared
    revenue is [NaN]; otherwise the order is left to the engine, and this
    is one possible order.  The statements about the order of a sorted
    list are made for revenues without [NaN]. *)
Module ArraySort.

Section WithCompare.
Context {A : Type} (comparefn : A -> A -> number).

Definition precedes (x y : A) : bool := Number.lt (comparefn x y) zero.

(** [placed] is the sorted part, last element first. *)
Fixpoint insert (x : A) (placed : list A) : list A :=
  match placed with
  | [] => [x]
  | p :: rest => if precedes x p then p :: insert x rest else x :: placed
  end.

Definition sort (l : list A) : list A :=
  rev (fold_left (fun placed x => insert x placed) l []).
End WithCompare.

End ArraySort.

(** ** Order records *)

(** A record of the response.  The identifiers, the date and the total are
    strings, as the data endpoint sends them; the product names and the
    category may be absent. *)
Record Order : Type := {
  order_id : string;
  order_date : string;
  customer_id : string;
  product_names : option string;   (* [None]: the field is absent *)
  categories : option string;      (* [None]: the field is absent *)
  total : string
}.

(** [v || d] on a string that may be absent: absent and empty are falsy. *)
Definition or_default (v : option string) (d : string) : string :=
  match v with
  | Some s => if (String.length s =? 0)%nat then d else s
  | None => d
  end.

(** [(v || 0)] on a number that may be [undefined]. *)
Definition or_zero (v : option number) : number :=
  match v with
  | Some x => if truthy x then x else zero
  | None => zero
  end.

(** ToNumber on a number that may be [undefined]. *)
Definition to_number (v : option number) : number :=
  match v with Some x => x | None => NaN end.

(** [a === b] on strings that may be [undefined]. *)
Definition option_string_eqb (a b : option string) : bool :=
  match a, b with
  | Some x, Some y => String.eqb x y
  | None, None => true
  | _, _ => false
  end.

(** ** The page *)

Record JsError : Type := { error_name : string; error_message : string }.

Definition TypeError (msg : string) : JsError :=
  {| error_name := "TypeError"; error_message := msg |}.
Definition RangeError (msg : string) : JsError :=
  {| error_name := "RangeError"; error_message := msg |}.

(** An [<option>] element, as [new Option(text, value, defaultSelected,
    selected)] builds it; without a value attribute its value is its text. *)
Record OptionElement : Type := {
  option_text : string;
  option_value_attr : option string;
  option_defaultSelected : bool;
  option_selected : bool
}.

Definition new_Option (text value : option string) (defaultSelected selected : bool)
  : OptionElement :=
  {| option_text := match text with Some s => s | None => "" end;
     option_value_attr := value;
     option_defaultSelected := defaultSelected;
     option_selected := selected |}.

Definition option_value (o : OptionElement) : string :=
  match option_value_attr o with Some v => v | None => option_text o end.

Definition with_selected (b : bool) (o : OptionElement) : OptionElement :=
  {| option_text := option_text o;
     option_value_attr := option_value_attr o;
     option_defaultSelected := option_defaultSelected o;
     option_selected := b |}.

(** A change handler of the script is always [() => filterAndRenderData(data)];
    it is recorded by the collection it closes over. *)
Definition Handler : Type := option (list Order).

Record SelectElement : Type := {
  select_options : list OptionElement;
  select_onchange : Handler
}.

(** [select.appendChild(option)] on a drop-down: a selected newcomer
    unselects the others, and with nothing selected the first option is. *)
Definition appendChild (s : SelectElement) (o : OptionElement) : SelectElement :=
  let opts :=
    if option_selected o
    then (map (with_selected false) (select_options s) ++ [o])%list
    else (select_options s ++ [o])%list in
  let opts' :=
    if existsb option_selected opts then opts
    else match opts with
         | [] => []
         | first :: others => with_selected true first :: others
         end in
  {| select_options := opts'; select_onchange := select_onchange s |}.

(** [select.value]. *)
Definition select_value (s : SelectElement) : string :=
  match find option_selected (select_options s) with
  | Some o => option_value o
  | None => ""
  end.

(** A flatpickr instance attached to a date input. *)
Record Picker : Type := {
  picker_defaultDate : string;
  selectedDates : list Z;
  picker_onChange : Handler
}.

Record Chart : Type := {
  chart_canvas : string;                     (* id of the canvas it draws on *)
  chart_type : string;
  chart_labels : list (option string);
  dataset_label : string;
  dataset_data : list number;
  chart_indexAxis : option string
}.

Definition Row : Type :=
  (string * string * string * option string * option string * string)%type.

(** The part of the browser the script reads and writes.  [#app] and
    [#category-filter] may be missing, as the script itself tests for them;
    the other elements are there. *)
Record World : Type := {
  app_innerHTML : option string;             (* innerHTML of [#app] *)
  console_errors : list (string * JsError);  (* [console.error] calls *)
  chart_type_selector : string;              (* value of the selector *)
  chart_type_onchange : Handler;
  start_date : option Picker;                (* [_flatpickr] of [#start-date] *)
  end_date : option Picker;
  category_filter : option SelectElement;
  total_revenue : string;                    (* textContent of the slots *)
  total_orders : string;
  average_order_value : string;
  top_category : string;
  chartInstance : option nat;                (* the script's global handle *)
  live_charts : list (nat * Chart);    (* charts not yet destroyed *)
  next_chart : nat;
  data_table : option (list Row)
}.

Definition set_app (v : option string) (w : World) : World :=
  {| app_innerHTML := v; console_errors := console_errors w;
     chart_type_selector := chart_type_selector w;
     chart_type_onchange := chart_type_onchange w;
     start_date := start_date w; end_date := end_date w;
     category_filter := category_filter w;
     total_revenue := total_revenue w; total_orders := total_orders w;
     average_order_value := average_order_value w;
     top_category := top_category w;
     chartInstance := chartInstance w; live_charts := live_charts w;
     next_chart := next_chart w; data_table := data_table w |}.

Definition set_console_errors (v : list (string * JsError)) (w : World) : World :=
  {| app_innerHTML := app_innerHTML w; console_errors := v;
     chart_type_selector := chart_type_selector w;
     chart_type_onchange := chart_type_onchange w;
     start_date := start_date w; end_date := end_date w;
     category_filter := category_filter w;
     total_revenue := total_revenue w; total_orders := total_orders w;
     average_order_value := average_order_value w;
     top_category := top_category w;
     chartInstance := chartInstance w; live_charts := live_charts w;
     next_chart := next_chart w; data_table := data_table w |}.

Definition set_chart_type_onchange (v : Handler) (w : World) : World :=
  {| app_innerHTML := app_innerHTML w; console_errors := console_errors w;
     chart_type_selector := chart_type_selector w;
     chart_type_onchange := v;
     start_date := start_date w; end_date := end_date w;
     category_filter := category_filter w;
     total_revenue := total_revenue w; total_orders := total_orders w;
     average_order_value := average_order_value w;
     top_category := top_category w;
     chartInstance := chartInstance w; live_charts := live_charts w;
     next_chart := next_chart w; data_table := data_table w |}.

Definition set_start_date (v : option Picker) (w : World) : World :=
  {| app_innerHTML := app_innerHTML w; console_errors := console_errors w;
     chart_type_selector := chart_type_selector w;
     chart_type_onchange := chart_type_onchange w;
     start_date := v; end_date := end_date w;
     category_filter := category_filter w;
     total_revenue := total_revenue w; total_orders := total_orders w;
     average_order_value := average_order_value w;
     top_category := top_category w;
     chartInstance := chartInstance w; live_charts := live_charts w;
     next_chart := next_chart w; data_table := data_table w |}.

Definition set_end_date (v : option Picker) (w : World) : World :=
  {| app_innerHTML := app_innerHTML w; console_errors := console_errors w;
     chart_type_selector := chart_type_selector w;
     chart_type_onchange := chart_type_onchange w;
     start_date := start_date w; end_date := v;
     category_filter := category_filter w;
     total_revenue := total_revenue w; total_orders := total_orders w;
     average_order_value := average_order_value w;
     top_category := top_category w;
     chartInstance := chartInstance w; live_charts := live_charts w;
     next_chart := next_chart w; data_table := data_table w |}.

Definition set_category_filter (v : option SelectElement) (w : World) : World :=
  {| app_innerHTML := app_innerHTML w; console_errors := console_errors w;
     chart_type_selector := chart_type_selector w;
     chart_type_onchange := chart_type_onchange w;
     start_date := start_date w; end_date := end_date w;
     category_filter := v;
     total_revenue := total_revenue w; total_orders := total_orders w;
     average_order_value := average_order_value w;
     top_category := top_category w;
     chartInstance := chartInstance w; live_charts := live_charts w;
     next_chart := next_chart w; data_table := data_table w |}.

Definition set_metrics (revenue orders average top : string) (w : World) : World :=
  {| app_innerHTML := app_innerHTML w; console_errors := console_errors w;
     chart_type_selector := chart_type_selector w;
     chart_type_onchange := chart_type_onchange w;
     start_date := start_date w; end_date := end_date w;
     category_filter := category_filter w;
     total_revenue := revenue; total_orders := orders;
     average_order_value := average;
     top_category := top;
     chartInstance := chartInstance w; live_charts := live_charts w;
     next_chart := next_chart w; data_table := data_table w |}.

Definition set_charts (handle : option nat) (live : list (nat * Chart))
           (next : nat) (w : World) : World :=
  {| app_innerHTML := app_innerHTML w; console_errors := console_errors w;
     chart_type_selector := chart_type_selector w;
     chart_type_onchange := chart_type_onchange w;
     start_date := start_date w; end_date := end_date w;
     category_filter := category_filter w;
     total_revenue := total_revenue w; total_orders := total_orders w;
     average_order_value := average_order_value w;
     top_category := top_category w;
     chartInstance := handle; live_charts := live;
     next_chart := next; data_table := data_table w |}.

Definition set_data_table (v : option (list Row)) (w : World) : World :=
  {| app_innerHTML := app_innerHTML w; console_errors := console_errors w;
     chart_type_selector := chart_type_selector w;
     chart_type_onchange := chart_type_onchange w;
     start_date := start_date w; end_date := end_date w;
     category_filter := category_filter w;
     total_revenue := total_revenue w; total_orders := total_orders w;
     average_order_value := average_order_value w;
     top_category := top_category w;
     chartInstance := chartInstance w; live_charts := live_charts w;
     next_chart := next_chart w; data_table := v |}.

(** ** Computations that may throw *)

Inductive Completion (A : Type) : Type :=
| Returned (a : A)
| Thrown (e : JsError).
Arguments Returned {A} a.
Arguments Thrown {A} e.

Definition M (A : Type) : Type := World -> Completion A * World.

Definition ret {A : Type} (a : A) : M A := fun w => (Returned a, w).
Definition throw {A : Type} (e : JsError) : M A := fun w => (Thrown e, w).
Definition bind {A B : Type} (c : M A) (k : A -> M B) : M B :=
  fun w => match c w with
           | (Returned a, w') => k a w'
           | (Thrown e, w') => (Thrown e, w')
           end.
Definition modify (f : World -> World) : M unit := fun w => (Returned tt, f w).
Definition gets {A : Type} (f : World -> A) : M A := fun w => (Returned (f w), w).

Notation "x <- c ;; k" := (bind c (fun x => k))
  (at level 61, c at next level, right associativity).
Notation "c ;;; k" := (bind c (fun _ => k))
  (at level 61, right associativity).

(** ** The script *)

Section Dashboard.

(** Two collaborators are left open: the engine's date parser behind
    [new Date(string)], and the date picker's reading of its
    [defaultDate] (a day in the browser's time zone). *)
Variable Date_parse : string -> time_value.
Variable flatpickr_parseDate : string -> option Z.

(** [new Date(item.order_date.split('/').reverse().join('-'))] *)
Definition itemDate (item : Order) : time_value :=
  Date_parse (join "-" (rev (split "/" (order_date item)))).

(** [flatpickr(selector, { defaultDate, ..., onChange })]: the instance the
    date input gets, with the default date selected. *)
Definition flatpickr (defaultDate : string) (onChange : Handler) : Picker :=
  {| picker_defaultDate := defaultDate;
     selectedDates := match flatpickr_parseDate defaultDate with
                      | Some t => [t]
                      | None => []
                      end;
     picker_onChange := onChange |}.

(** [d.toISOString()]: a RangeError on an invalid date. *)
Definition toISOString (d : time_value) : M string :=
  match d with
  | Some t => ret (iso_string t)
  | None => throw (RangeError "Invalid time value")
  end.

(** [setupFilters(data)], lines 36-69. *)
Definition setupFilters (data : list Order) : M unit :=
  let dates := map itemDate data in
  let minDate := Date_of_min dates in
  let maxDate := Date_of_max dates in
  first <- toISOString minDate ;;
  modify (set_start_date (Some (flatpickr (slice0 10 first) (Some data)))) ;;;
  last <- toISOString maxDate ;;
  modify (set_end_date (Some (flatpickr (slice0 10 last) (Some data)))) ;;;
  modify (fun w =>
            match category_filter w with
            | Some categoryFilter =>
                set_category_filter
                  (Some {| select_options := select_options categoryFilter;
                           select_onchange := Some data |}) w
            | None => w
            end).

(** *** Key metrics *)

(** [data.reduce((acc, item) => acc + parseFloat(item.total), 0)] *)
Definition totalRevenue (data : list Order) : number :=
  fold_left (fun acc item => add acc (parseFloat (total item))) data zero.

(** [data.length] *)
Definition totalOrders (data : list Order) : nat := List.length data.

(** [totalOrders > 0 ? totalRevenue / totalOrders : 0] *)
Definition averageOrderValue (data : list Order) : number :=
  if (0 <? totalOrders data)%nat
  then div (totalRevenue data) (of_nat (totalOrders data))
  else zero.

(** [item.categories || "Uncategorized"] *)
Definition category_key (item : Order) : string :=
  or_default (categories item) "Uncategorized".

(** [data.reduce((acc, item) => { const category = ...;
      acc[category] = (acc[category] || 0) + parseFloat(item.total);
      return acc; }, {})] *)
Definition revenueByCategory (data : list Order) : Obj.t number :=
  fold_left
    (fun acc item =>
       let category := category_key item in
       Obj.set acc category
               (add (or_zero (Obj.get acc category)) (parseFloat (total item))))
    data Obj.empty.

(** [Object.keys(revenueByCategory).reduce(
      (a, b) => (revenueByCategory[a] > revenueByCategory[b] ? a : b), "None")] *)
Definition topCategory (data : list Order) : string :=
  let revenue := revenueByCategory data in
  fold_left
    (fun a b =>
       if gt (to_number (Obj.get revenue a)) (to_number (Obj.get revenue b))
       then a else b)
    (Obj.keys revenue) "None".

(** [updateKeyMetrics(data)], lines 100-123: the four [textContent]
    writes, the last one being [topCategory || 'None']. *)
Definition updateKeyMetrics (data : list Order) (w : World) : World :=
  set_metrics
    ("$" ++ toFixed (totalRevenue data) 2)
    (string_of_nat (totalOrders data))
    ("$" ++ toFixed (averageOrderValue data) 2)
    (or_default (Some (topCategory data)) "None")
    w.

(** *** Charts *)

(** [chart.destroy()] *)
Definition destroy (id : nat) (live : list (nat * Chart)) : list (nat * Chart) :=
  filter (fun c => negb (fst c =? id)%nat) live.

(** [if (chartInstance) { chartInstance.destroy(); }]: the handle itself
    is left as it is. *)
Definition destroy_previous (w : World) : World :=
  match chartInstance w with
  | Some id => set_charts (Some id) (destroy id (live_charts w)) (next_chart w) w
  | None => w
  end.

(** [chartInstance = new Chart(ctx, config)] *)
Definition new_Chart (c : Chart) (w : World) : World :=
  set_charts (Some (next_chart w))
             (live_charts w ++ [(next_chart w, c)])%list
             (S (next_chart w)) w.

(** The three chart configurations of the [switch], lines 134-220. *)
Definition revenueOverTime (elementId : string) (data : list Order) : Chart :=
  {| chart_canvas := elementId;
     chart_type := "line";
     chart_labels := map (fun item => Some (order_date item)) data;
     dataset_label := "Revenue Over Time";
     dataset_data := map (fun item => parseFloat (total item)) data;
     chart_indexAxis := None |}.

(** [[...new Set(data.map((item) => item.categories))]] *)
Definition chart_categories (data : list Order) : list (option string) :=
  JsSet.of_list option_string_eqb (map categories data).

(** [data.filter((item) => item.categories === category)
         .reduce((acc, item) => acc + parseFloat(item.total), 0)] *)
Definition chart_category_revenue (data : list Order) (category : option string)
  : number :=
  fold_left (fun acc item => add acc (parseFloat (total item)))
            (filter (fun item => option_string_eqb (categories item) category) data)
            zero.

Definition revenueByCategoryChart (elementId : string) (data : list Order) : Chart :=
  let revenue :=
    map (fun category => (category, chart_category_revenue data category))
        (chart_categories data) in
  {| chart_canvas := elementId;
     chart_type := "bar";
     chart_labels := map fst revenue;
     dataset_label := "Revenue by Category";
     dataset_data := map snd revenue;
     chart_indexAxis := None |}.

(** [item.product_names || 'Unknown Product'] *)
Definition product_key (item : Order) : string :=
  or_default (product_names item) "Unknown Product".

(** [data.reduce((acc, item) => { const productName = ...;
      acc[productName] = (acc[productName] || 0) + parseFloat(item.total);
      return acc; }, {})] *)
Definition productRevenue (data : list Order) : Obj.t number :=
  fold_left
    (fun acc item =>
       let productName := product_key item in
       Obj.set acc productName
               (add (or_zero (Obj.get acc productName)) (parseFloat (total item))))
    data Obj.empty.

(** [(a, b) => b[1] - a[1]] *)
Definition by_revenue_descending (a b : string * number) : number :=
  sub (snd b) (snd a).

(** [Object.entries(productRevenue).sort((a, b) => b[1] - a[1]).slice(0, 10)] *)
Definition topProducts (data : list Order) : list (string * number) :=
  firstn 10 (ArraySort.sort by_revenue_descending
                            (Obj.entries (productRevenue data))).

Definition topProductsChart (elementId : string) (data : list Order) : Chart :=
  {| chart_canvas := elementId;
     chart_type := "bar";
     chart_labels := map (fun item => Some (fst item)) (topProducts data);
     dataset_label := "Top Products by Revenue";
     dataset_data := map snd (topProducts data);
     chart_indexAxis := Some "y" |}.

(** [drawChart(data, elementId, chartType)], lines 126-221: a mode without
    a case constructs nothing. *)
Definition drawChart (data : list Order) (elementId chartType : string)
           (w : World) : World :=
  let w1 := destroy_previous w in
  if String.eqb chartType "revenueOverTime"
  then new_Chart (revenueOverTime elementId data) w1
  else if String.eqb chartType "revenueByCategory"
  then new_Chart (revenueByCategoryChart elementId data) w1
  else if String.eqb chartType "topProducts"
  then new_Chart (topProductsChart elementId data) w1
  else w1.

(** *** Table *)

(** [populateDataTable(data)], lines 224-251: an existing table is
    destroyed and a new one is built from the rows. *)
Definition populateDataTable (data : list Order) (w : World) : World :=
  set_data_table
    (Some (map (fun item =>
                  (order_id item, order_date item, customer_id item,
                   product_names item, categories item,
                   "$" ++ toFixed (parseFloat (total item)) 2))
               data))
    w.

(** *** Category drop-down *)

Definition all_categories_option : OptionElement :=
  new_Option (Some "All Categories") (Some "all") true true.

(** [populateCategoryFilter(data)], lines 254-264. *)
Definition populateCategoryFilter (data : list Order) : M unit :=
  fun w =>
    match category_filter w with
    | None =>
        (Thrown (TypeError "Cannot set properties of null (setting 'innerHTML')"), w)
    | Some categoryFilter =>
        let cleared := {| select_options := [];
                          select_onchange := select_onchange categoryFilter |} in
        let started := appendChild cleared all_categories_option in
        let categories := JsSet.of_list option_string_eqb (map categories data) in
        let filled :=
          fold_left
            (fun s category => appendChild s (new_Option category category false false))
            categories started in
        (Returned tt, set_category_filter (Some filled) w)
    end.

(** *** Filtering and rendering *)

(** The [data.filter(...)] of [filterAndRenderData], lines 85-92. *)
Definition filteredData (startDate endDate : time_value)
           (selectedCategory : string) (data : list Order) : list Order :=
  filter
    (fun item =>
       ge (itemDate item) startDate &&
       le (itemDate item) endDate &&
       (String.eqb selectedCategory "all" ||
        option_string_eqb (categories item) (Some selectedCategory)))
    data.

(** [element._flatpickr.selectedDates[0]] *)
Definition first_selected (p : option Picker) : M time_value :=
  match p with
  | Some picker => ret (hd_error (selectedDates picker))
  | None =>
      throw (TypeError "Cannot read properties of undefined (reading 'selectedDates')")
  end.

(** [filterAndRenderData(data)], lines 78-97. *)
Definition filterAndRenderData (data : list Order) : M unit :=
  chartType <- gets chart_type_selector ;;
  startPicker <- gets start_date ;;
  startDate <- first_selected startPicker ;;
  endPicker <- gets end_date ;;
  endDate <- first_selected endPicker ;;
  categoryFilter <- gets category_filter ;;
  selectedCategory <-
    match categoryFilter with
    | Some s => ret (select_value s)
    | None => throw (TypeError "Cannot read properties of null (reading 'value')")
    end ;;
  let filtered := filteredData startDate endDate selectedCategory data in
  modify (updateKeyMetrics filtered) ;;;
  modify (drawChart filtered "chart-canvas" chartType) ;;;
  modify (populateDataTable filtered).

(** [initializeDashboard(data)], lines 72-75. *)
Definition initializeDashboard (data : list Order) : M unit :=
  populateCategoryFilter data ;;;
  filterAndRenderData data.

(** *** Start-up *)

(** The body of the response, as far as the script tells values apart. *)
Inductive ResponseData : Type :=
| JsonFalsy                            (* [null], [false], [0] or [""] *)
| JsonArray (records : list Order)
| JsonOther.                           (* any other value: no [map] method *)

(** How the promise chain settles before the script's own handlers. *)
Inductive FetchResult : Type :=
| Rejected (error : JsError)           (* transport or JSON parsing failed *)
| Resolved (data : ResponseData).

(** [const app = document.getElementById('app');
     if (app) { app.innerHTML = html; }] *)
Definition show_message (html : string) (w : World) : World :=
  match app_innerHTML w with
  | Some _ => set_app (Some html) w
  | None => w
  end.

(** The [then] handler on the parsed body, lines 8-24. *)
Definition on_response (data : ResponseData) : M unit :=
  match data with
  | JsonFalsy | JsonArray [] =>
      modify (show_message "<p>No data available.</p>")
  | JsonOther => throw (TypeError "data.map is not a function")
  | JsonArray records =>
      setupFilters records ;;;
      initializeDashboard records ;;;
      modify (set_chart_type_onchange (Some records))
  end.

(** The [catch] handler, lines 25-32. *)
Definition on_failure (error : JsError) (w : World) : World :=
  show_message "<p>Failed to fetch data.</p>"
    (set_console_errors
       (console_errors w ++ [("Error fetching data:", error)])%list w).

(** The listener of lines 4-33, once the promise chain has settled: an
    exception thrown by the [then] handler is caught by the [catch] handler
    as a rejection is. *)
Definition DOMContentLoaded (result : FetchResult) (w : World) : World :=
  match result with
  | Rejected error => on_failure error w
  | Resolved data =>
      match on_response data w with
      | (Returned _, w') => w'
      | (Thrown error, w') => on_failure error w'
      end
  end.

End Dashboard.

(** ** Specification-side notions *)

(** [Kept P l out]: [out] is [l] with exactly the elements satisfying [P]
    kept, in their original order. *)
Inductive Kept {A : Type} (P : A -> Prop) : list A -> list A -> Prop :=
| Kept_nil : Kept P [] []
| Kept_keep (x : A) (l out : list A) :
    P x -> Kept P l out -> Kept P (x :: l) (x :: out)
| Kept_drop (x : A) (l out : list A) :
    ~ P x -> Kept P l out -> Kept P (x :: l) out.

(** A date lies in the closed range between two dates: all three are valid
    and the time values are ordered. *)
Definition in_date_range (d startDate endDate : time_value) : Prop :=
  exists t s e,
    d = Some t /\ startDate = Some s /\ endDate = Some e /\ s <= t /\ t <= e.

Definition category_selected (selectedCategory : string) (item : Order) : Prop :=
  selectedCategory = "all" \/ categories item = Some selectedCategory.

(** The condition of inclusion in the filtered subset, as the
    specification words it. *)
Definition included (Date_parse : string -> time_value)
           (startDate endDate : time_value)
           (selectedCategory : string) (item : Order) : Prop :=
  in_date_range (itemDate Date_parse item) startDate endDate /\
  category_selected selectedCategory item.

(** The sum of a list of numbers, from the left, starting at [+0]. *)
Definition sum_numbers (l : list number) : number := fold_left add l zero.

(** The values of a list in first-seen order, duplicates removed. *)
Fixpoint first_seen (l : list (option string)) : list (option string) :=
  match l with
  | [] => []
  | x :: l' =>
      x :: filter (fun y => negb (option_string_eqb x y)) (first_seen l')
  end.

(** A call of [drawChart]: the collection, the canvas and the chart mode. *)
Definition DrawCall : Type := (list Order * string * string)%type.

(** A sequence of [drawChart] calls, one after the other. *)
Definition draw_calls (calls : list DrawCall) (w : World) : World :=
  fold_left
    (fun w call =>
       let '(data, elementId, chartType) := call in
       drawChart data elementId chartType w)
    calls w.

(** The chart modes the [switch] of [drawChart] has a case for. *)
Definition recognized (chartType : string) : bool :=
  String.eqb chartType "revenueOverTime" ||
  String.eqb chartType "revenueByCategory" ||
  String.eqb chartType "topProducts".

(** The discipline of the chart handle: no chart is live, or exactly one
    is and the global handle refers to it. *)
Definition chart_discipline (w : World) : Prop :=
  live_charts w = [] \/
  exists id c, live_charts w = [(id, c)] /\ chartInstance w = Some id.

(** What filter setup and rendering write: the handlers, the pickers, the
    drop-down, the metric slots, the charts and the table. *)
Definition dashboard_state (w : World) :=
  (chart_type_onchange w, start_date w, end_date w, category_filter w,
   (total_revenue w, total_orders w, average_order_value w, top_category w),
   (chartInstance w, live_charts w, next_chart w), data_table w).

(** The option list the drop-down ends with. *)
Definition category_options (data : list Order) : list OptionElement :=
  new_Option (Some "All Categories") (Some "all") true true ::
  map (fun c => new_Option c c false false) (first_seen (map categories data)).

(** *** Revenue per key

    The two per-key aggregations of the script ([revenueByCategory] in the
    metrics, [productRevenue] in the chart) are one fold, up to the key. *)

Definition parsed_total (item : Order) : number := parseFloat (total item).

Definition aggregate (key : Order -> string) (data : list Order) : Obj.t number :=
  fold_left
    (fun acc item =>
       Obj.set acc (key item)
               (add (or_zero (Obj.get acc (key item))) (parsed_total item)))
    data Obj.empty.

(** The summed revenue of a key: the sum of the parsed totals of the
    records with that key, in collection order. *)
Definition revenue_of (key : Order -> string) (data : list Order) (k : string)
  : number :=
  sum_numbers
    (map parsed_total (filter (fun item => String.eqb (key item) k) data)).

(** The invariant of the record model: every total parses to a finite
    number. *)
Definition finite_totals (data : list Order) : Prop :=
  Forall (fun item => isFinite (parsed_total item) = true) data.

(** What one record does to the property of key [k]. *)
Definition step_for (key : Order -> string) (k : string)
           (v : option number) (item : Order) : option number :=
  if String.eqb (key item) k
  then Some (add (or_zero v) (parsed_total item)) else v.

(** A property value follows a running sum: an absent property goes with
    the empty sum, and a present one is the sum itself, which is then a
    binary64 value other than [NaN] and [-0]. *)
Definition tracks (v : option number) (s : number) : Prop :=
  match v with
  | None => s = zero
  | Some x =>
      x = s /\ valid_binary prec emax x = true /\ isNaN x = false /\
      x <> S754_zero true
  end.

(** *** Order of the numbers *)

Definition rank (x : number) : Z * Z * Z :=
  match x with
  | S754_zero _ => (0, 0, 0)
  | S754_infinity s => (if s then -2 else 2, 0, 0)
  | S754_nan => (0, 0, 0)
  | S754_finite s m e => if s then (-1, - e, Zneg m) else (1, e, Zpos m)
  end.

Definition rank_lt (a b : Z * Z * Z) : Prop :=
  let '(a1, a2, a3) := a in
  let '(b1, b2, b3) := b in
  a1 < b1 \/ (a1 = b1 /\ (a2 < b2 \/ (a2 = b2 /\ a3 < b3))).

Definition signed_as (s : bool) (r : number) : Prop :=
  match r with
  | S754_nan => True
  | S754_zero s' | S754_infinity s' | S754_finite s' _ _ => s' = s
  end.

Definition nonzero_signed (s : bool) (r : number) : Prop :=
  match r with
  | S754_infinity s' | S754_finite s' _ _ => s' = s
  | _ => False
  end.

(** The exponent a binary64 mantissa is given, by the number of digits of
    the value: 53 digits of mantissa, smallest exponent -1074. *)
Definition fexp64 (e : Z) : Z := Z.max (e - 53) (-1074).

(** A mantissa and exponent in canonical position. *)
Definition canonical (m e : Z) : Prop := fexp64 (Zdigits2 m + e) = e.

(** A number that is a binary64 value: zero, infinite, [NaN], or finite
    with a canonical mantissa and an exponent in range. *)
Definition valid (x : number) : bool := valid_binary prec emax x.

(** The reducer of [topCategory], over any valuation of the keys. *)
Definition pick (g : string -> number) (a b : string) : string :=
  if gt (g a) (g b) then a else b.

(** The top category as the specification words it: the category of
    maximal summed revenue, the first one in iteration order on a tie,
    "None" without records. *)
Definition spec_topCategory (data : list Order) : string :=
  match Obj.keys (revenueByCategory data) with
  | [] => "None"
  | first :: others =>
      fold_left
        (fun best k =>
           if gt (revenue_of category_key data k)
                 (revenue_of category_key data best)
           then k else best)
        others first
  end.

(** *** Sorted lists *)

(** Entries in descending order of revenue: no entry has a revenue greater
    than the revenue of an entry placed before it. *)
Definition Descending (l : list (string * number)) : Prop :=
  StronglySorted (fun x y => gt (snd y) (snd x) = false) l.

(** *** Dates as the records write them *)

(** Whether a string holds a given character. *)
Fixpoint contains (c : ascii) (s : string) : bool :=
  match s with
  | EmptyString => false
  | String c' s' => Ascii.eqb c' c || contains c s'
  end.

(** The largest magnitude of a time value, 8.64e15 milliseconds. *)
Definition maxTime : Z := 8640000000000000.

(** *** Records with a category *)

(** Every record carries a non-empty category. *)
Definition labelled (data : list Order) : Prop :=
  Forall (fun item => exists c, categories item = Some c /\ c <> "") data.

(** *** What a render pass writes *)

(** The metric slots, the charts and the table. *)
Definition rendered_state (w : World) :=
  ((total_revenue w, total_orders w, average_order_value w, top_category w),
   (chartInstance w, live_charts w, next_chart w), data_table w).

(** Two pages with the same chart handle and the same charts. *)
Definition same_charts (w w' : World) : Prop :=
  chartInstance w' = chartInstance w /\
  live_charts w' = live_charts w /\
  next_chart w' = next_chart w.

(** The pages a browsing session goes through: the script is loaded on a
    page without charts and its listener runs once the fetch has settled;
    afterwards the user changes inputs (which leaves the charts alone), and
    each change handler runs a render pass on some collection. *)
Inductive Session (Date_parse : string -> time_value)
          (flatpickr_parseDate : string -> option Z) : World -> Prop :=
| Session_start (w0 : World) (result : FetchResult) :
    chartInstance w0 = None -> live_charts w0 = [] ->
    Session Date_parse flatpickr_parseDate
            (DOMContentLoaded Date_parse flatpickr_parseDate result w0)
| Session_input (w w' : World) :
    Session Date_parse flatpickr_parseDate w -> same_charts w w' ->
    Session Date_parse flatpickr_parseDate w'
| Session_render (w : World) (data : list Order) :
    Session Date_parse flatpickr_parseDate w ->
    Session Date_parse flatpickr_parseDate (snd (filterAndRenderData Date_parse data w)).

(** *** Keys inherited from Object.prototype *)

(** The names of the members every plain object inherits. *)
Definition Object_prototype_keys : list string :=
  ["constructor"; "__defineGetter__"; "__defineSetter__"; "hasOwnProperty";
   "__lookupGetter__"; "__lookupSetter__"; "isPrototypeOf";
   "propertyIsEnumerable"; "toString"; "valueOf"; "__proto__";
   "toLocaleString"].

Definition inherited_key (k : string) : bool :=
  existsb (String.eqb k) Object_prototype_keys.

(** *** Names of categories and products *)

(** The category a record counts under in the metrics: its category
    field, and "Uncategorized" when the field is absent or empty. *)
Definition category_name (item : Order) : string :=
  match categories item with
  | Some (String c s) => String c s
  | Some EmptyString | None => "Uncategorized"
  end.

(** The product a record counts under in the top-products chart: its
    product field, and "Unknown Product" when the field is absent or
    empty. *)
Definition product_name (item : Order) : string :=
  match product_names item with
  | Some (String c s) => String c s
  | Some EmptyString | None => "Unknown Product"
  end.

(** No record's name is the name of a member of [Object.prototype]. *)
Definition plain_names (name : Order -> string) (data : list Order) : Prop :=
  Forall (fun item => inherited_key (name item) = false) data.

(** *** Order dates written day/month/year *)

(** [s] is [d/m/y], three fields without a slash. *)
Definition day_month_year (s d m y : string) : Prop :=
  s = d ++ "/" ++ m ++ "/" ++ y /\
  contains "/" d = false /\ contains "/" m = false /\ contains "/" y = false.

(** The condition of inclusion with the order date spelled out: the date
    is written day/month/year and is parsed in the form year-month-day. *)
Definition spec_included (Date_parse : string -> time_value)
           (startDate endDate : time_value)
           (selectedCategory : string) (item : Order) : Prop :=
  exists d m y,
    day_month_year (order_date item) d m y /\
    in_date_range (Date_parse (y ++ "-" ++ m ++ "-" ++ d)) startDate endDate /\
    category_selected selectedCategory item.

(** *** The ways the start-up ends *)

(** The failure message, one more error on the console, nothing rendered
    and no chart-mode handler set. *)
Definition startup_failed (w w' : World) : Prop :=
  app_innerHTML w' = Some "<p>Failed to fetch data.</p>" /\
  (exists error,
      console_errors w' = (console_errors w ++ [("Error fetching data:", error)])%list) /\
  rendered_state w' = rendered_state w /\
  chart_type_onchange w' = chart_type_onchange w.

(** The no-data message and nothing else. *)
Definition startup_no_data (w w' : World) : Prop :=
  w' = set_app (Some "<p>No data available.</p>") w.

(** Container and console untouched, a table rendered from a non-empty
    collection, which the chart-mode handler re-renders. *)
Definition startup_started (result : FetchResult) (w w' : World) : Prop :=
  app_innerHTML w' = app_innerHTML w /\
  console_errors w' = console_errors w /\
  exists records rows,
    result = Resolved (JsonArray records) /\ records <> [] /\
    data_table w' = Some rows /\
    chart_type_onchange w' = Some records.

(** *** Sample page and collections *)

(** A browser in the UTC time zone: the picker reads its default date as
    the engine reads a date-only string. *)
Definition flatpickr_parseDate_utc (s : string) : option Z := Date_parse_strict s.

Definition order (date amount : string) (category product : option string) : Order :=
  {| order_id := "1"; order_date := date; customer_id := "C1";
     product_names := product; categories := category; total := amount |}.

(** The page as it is served: every element present, nothing filled in. *)
Definition blank_page : World :=
  {| app_innerHTML := Some "";
     console_errors := [];
     chart_type_selector := "revenueOverTime";
     chart_type_onchange := None;
     start_date := None;
     end_date := None;
     category_filter := Some {| select_options := []; select_onchange := None |};
     total_revenue := "";
     total_orders := "";
     average_order_value := "";
     top_category := "";
     chartInstance := None;
     live_charts := [];
     next_chart := O;
     data_table := None |}.

(** The two-record scenario of the specification. *)
Definition two_orders : list Order :=
  [order "01/01/2024" "50" (Some "A") (Some "Widget");
   order "15/01/2024" "150" (Some "B") (Some "Gadget")].

(** Two categories with exactly the same summed revenue. *)
Definition tie_orders : list Order :=
  [order "01/01/2024" "100" (Some "A") (Some "Widget");
   order "02/01/2024" "100" (Some "B") (Some "Gadget")].

(** A product ordered twice, for 30 and for 70, and another one for 50. *)
Definition repeat_orders : list Order :=
  [order "01/01/2024" "30" (Some "A") (Some "Widget");
   order "02/01/2024" "50" (Some "A") (Some "Gadget");
   order "03/01/2024" "70" (Some "B") (Some "Widget")].

(** A total that is not a number, between two that are. *)
Definition unparsable_orders : list Order :=
  [order "01/01/2024" "100" (Some "A") (Some "Widget");
   order "02/01/2024" "n/a" (Some "B") (Some "Gadget");
   order "03/01/2024" "50" (Some "C") (Some "Gizmo")].

(** A record without a category, next to one filed under "Uncategorized". *)
Definition no_category : Order :=
  order "01/01/2024" "80" None (Some "Widget").

Definition filed_uncategorized : Order :=
  order "01/01/2024" "20" (Some "Uncategorized") (Some "Gadget").

(** A record whose date is not a date. *)
Definition misdated : Order := order "31/02/2024" "10" (Some "A") (Some "Widget").

(** A browser five hours behind UTC: the picker reads its default date as
    local midnight, which is 05:00 UTC. *)
Definition flatpickr_parseDate_west (s : string) : option Z :=
  option_map (fun t => t + 5 * 3600000) (Date_parse_strict s).

(** The blank page once the two-record collection has been loaded. *)
Definition loaded_page : World :=
  DOMContentLoaded Date_parse_strict flatpickr_parseDate_utc
                   (Resolved (JsonArray two_orders)) blank_page.

(** The loaded page after the range has been moved to February 2024. *)
Definition february_page : World :=
  set_end_date
    (Some (flatpickr flatpickr_parseDate_utc "2024-02-29" (Some two_orders)))
    (set_start_date
       (Some (flatpickr flatpickr_parseDate_utc "2024-02-01" (Some two_orders)))
       loaded_page).

(** The blank page without its category drop-down. *)
Definition page_without_filter : World := set_category_filter None blank_page.

(** One category, with an unparsable total before the last record. *)
Definition reset_orders : list Order :=
  [order "01/01/2024" "100" (Some "A") (Some "Widget");
   order "02/01/2024" "n/a" (Some "A") (Some "Gadget");
   order "03/01/2024" "50" (Some "A") (Some "Gizmo")].

(** One product, with an unparsable total between two that parse. *)
Definition repeated_product : list Order :=
  [order "01/01/2024" "100" (Some "A") (Some "P");
   order "02/01/2024" "n/a" (Some "A") (Some "P");
   order "03/01/2024" "50" (Some "A") (Some "P")].

(** ** Basic facts *)

Lemma option_string_eqb_eq (a b : option string) :
  option_string_eqb a b = true <-> a = b.
Proof.
  destruct a as [x|], b as [y|]; simpl; try (split; congruence).
  rewrite String.eqb_eq. split; congruence.
Qed.

Lemma option_string_eqb_refl (a : option string) : option_string_eqb a a = true.
Proof. now apply option_string_eqb_eq. Qed.

Lemma option_string_eqb_sym (a b : option string) :
  option_string_eqb a b = option_string_eqb b a.
Proof.
  destruct (option_string_eqb a b) eqn:E.
  - apply option_string_eqb_eq in E. subst. now rewrite option_string_eqb_refl.
  - destruct (option_string_eqb b a) eqn:E'; [|reflexivity].
    apply option_string_eqb_eq in E'. subst.
    now rewrite option_string_eqb_refl in E.
Qed.

Lemma ge_spec (a b : time_value) :
  DateValue.ge a b = true <-> exists x y, a = Some x /\ b = Some y /\ y <= x.
Proof.
  destruct a as [x|], b as [y|]; simpl.
  - rewrite Z.leb_le. split.
    + intros H. now exists x, y.
    + intros (x' & y' & Hx & Hy & H). congruence.
  - split; [discriminate | intros (? & ? & _ & H & _); discriminate].
  - split; [discriminate | intros (? & ? & H & _); discriminate].
  - split; [discriminate | intros (? & ? & H & _); discriminate].
Qed.

Lemma le_spec (a b : time_value) :
  DateValue.le a b = true <-> exists x y, a = Some x /\ b = Some y /\ x <= y.
Proof.
  destruct a as [x|], b as [y|]; simpl.
  - rewrite Z.leb_le. split.
    + intros H. now exists x, y.
    + intros (x' & y' & Hx & Hy & H). congruence.
  - split; [discriminate | intros (? & ? & _ & H & _); discriminate].
  - split; [discriminate | intros (? & ? & H & _); discriminate].
  - split; [discriminate | intros (? & ? & H & _); discriminate].
Qed.

Lemma filter_Kept {A : Type} (f : A -> bool) (P : A -> Prop) (l : list A) :
  (forall x, f x = true <-> P x) -> Kept P l (filter f l).
Proof.
  intros Hf. induction l as [|x l IH]; simpl.
  - constructor.
  - destruct (f x) eqn:E.
    + apply Kept_keep; [now apply Hf | exact IH].
    + apply Kept_drop; [|exact IH].
      intros HP. apply Hf in HP. congruence.
Qed.

Lemma split_without (sep : ascii) (s : string) :
  contains sep s = false -> split sep s = [s].
Proof.
  induction s as [|c s IH]; simpl; [reflexivity|].
  intros H. apply orb_false_iff in H. destruct H as [Hc Hs].
  rewrite Hc, (IH Hs). reflexivity.
Qed.

Lemma split_first (sep : ascii) (a b : string) :
  contains sep a = false ->
  split sep (a ++ String sep b) = a :: split sep b.
Proof.
  induction a as [|c a IH]; simpl; intros H.
  - now rewrite Ascii.eqb_refl.
  - apply orb_false_iff in H. destruct H as [Hc Ha].
    rewrite Hc, (IH Ha). reflexivity.
Qed.

(** Splitting [d/m/y] at the slashes, reversing and joining with dashes. *)
Lemma reversed_fields (s d m y : string) :
  day_month_year s d m y ->
  join "-" (rev (split "/" s)) = y ++ "-" ++ m ++ "-" ++ d.
Proof.
  intros (-> & Hd & Hm & Hy).
  change (d ++ "/" ++ m ++ "/" ++ y)
    with (d ++ String "/" (m ++ String "/" y)).
  rewrite (split_first _ _ _ Hd), (split_first _ _ _ Hm), (split_without _ _ Hy).
  simpl. destruct m, d; reflexivity.
Qed.

Lemma filter_Kept_in {A : Type} (f : A -> bool) (P : A -> Prop) (l : list A) :
  (forall x, In x l -> (f x = true <-> P x)) -> Kept P l (filter f l).
Proof.
  induction l as [|x l IH]; simpl; intros Hf.
  - constructor.
  - assert (IH' : Kept P l (filter f l))
      by (apply IH; intros y Hy; apply Hf; now right).
    destruct (f x) eqn:E.
    + apply Kept_keep; [now apply (Hf x); [left|] | exact IH'].
    + apply Kept_drop; [|exact IH'].
      intros HP. apply (Hf x) in HP; [congruence | now left].
Qed.

Section FilterProperties.

Variable Date_parse : string -> time_value.

Lemma filter_condition_spec startDate endDate selectedCategory item :
  DateValue.ge (itemDate Date_parse item) startDate &&
  DateValue.le (itemDate Date_parse item) endDate &&
  (String.eqb selectedCategory "all" ||
   option_string_eqb (categories item) (Some selectedCategory)) = true
  <-> included Date_parse startDate endDate selectedCategory item.
Proof.
  unfold included, in_date_range, category_selected.
  rewrite !andb_true_iff, orb_true_iff, ge_spec, le_spec,
    String.eqb_eq, option_string_eqb_eq.
  split.
  - intros [[(t & s & Ht & Hs & Hst) (t' & e & Ht' & He & Hte)] Hc].
    split; [|exact Hc].
    exists t, s, e. rewrite Ht in Ht'. injection Ht' as <-. auto.
  - intros [(t & s & e & Ht & Hs & He & Hst & Hte) Hc].
    repeat split; [exists t, s | exists t, e | exact Hc]; auto.
Qed.

Lemma filterAndRenderData_run (data : list Order) (w : World)
      (startPicker endPicker : Picker) (categoryFilter : SelectElement) :
  start_date w = Some startPicker ->
  end_date w = Some endPicker ->
  category_filter w = Some categoryFilter ->
  filterAndRenderData Date_parse data w =
  (Returned tt,
   let filtered :=
     filteredData Date_parse (hd_error (selectedDates startPicker))
                  (hd_error (selectedDates endPicker))
                  (select_value categoryFilter) data in
   populateDataTable filtered
     (drawChart filtered "chart-canvas" (chart_type_selector w)
        (updateKeyMetrics filtered w))).
Proof.
  intros Hs He Hc.
  unfold filterAndRenderData, bind, gets, first_selected, ret, modify.
  rewrite Hs, He, Hc. reflexivity.
Qed.

Lemma spec_included_iff startDate endDate selectedCategory item :
  (exists d m y, day_month_year (order_date item) d m y) ->
  (included Date_parse startDate endDate selectedCategory item <->
   spec_included Date_parse startDate endDate selectedCategory item).
Proof.
  intros (d & m & y & Hdmy). unfold included, spec_included, itemDate. split.
  - intros [Hrange Hcat]. exists d, m, y.
    rewrite (reversed_fields _ d m y Hdmy) in Hrange. auto.
  - intros (d' & m' & y' & Hdmy' & Hrange & Hcat).
    rewrite (reversed_fields _ d' m' y' Hdmy'). auto.
Qed.

(** C1: whatever the collection and the filter state, the filtered subset
    holds a record exactly when the record is in the collection, its
    parsed order date lies between the start and the end date (bounds
    included) and the category filter is "all" or equals the record's
    category field; the kept records stay in the collection's order; and
    this subset is what the render pass hands to the metrics, the chart
    and the table.  The parsed order date is the order date read
    day/month/year and handed to the date parser as year-month-day: for a
    record whose order date is [d/m/y], inclusion is decided by the parse
    of [y-m-d], and on a collection of such records the subset keeps, in
    order, exactly the records whose [y-m-d] date is in the range and
    whose category is selected. *)
Theorem filteredData_spec
        (startDate endDate : time_value) (selectedCategory : string)
        (data : list Order) :
  (forall item,
      In item (filteredData Date_parse startDate endDate selectedCategory data)
      <-> In item data /\ included Date_parse startDate endDate selectedCategory item) /\
  Kept (included Date_parse startDate endDate selectedCategory) data
       (filteredData Date_parse startDate endDate selectedCategory data) /\
  (forall w startPicker endPicker categoryFilter,
      start_date w = Some startPicker ->
      end_date w = Some endPicker ->
      category_filter w = Some categoryFilter ->
      startDate = hd_error (selectedDates startPicker) ->
      endDate = hd_error (selectedDates endPicker) ->
      selectedCategory = select_value categoryFilter ->
      let filtered :=
        filteredData Date_parse startDate endDate selectedCategory data in
      filterAndRenderData Date_parse data w =
      (Returned tt,
       populateDataTable filtered
         (drawChart filtered "chart-canvas" (chart_type_selector w)
            (updateKeyMetrics filtered w)))) /\
  (forall item d m y,
      day_month_year (order_date item) d m y ->
      (In item (filteredData Date_parse startDate endDate selectedCategory data)
       <-> In item data /\
           in_date_range (Date_parse (y ++ "-" ++ m ++ "-" ++ d)) startDate endDate /\
           category_selected selectedCategory item)) /\
  ((forall item, In item data ->
                 exists d m y, day_month_year (order_date item) d m y) ->
   Kept (spec_included Date_parse startDate endDate selectedCategory) data
        (filteredData Date_parse startDate endDate selectedCategory data)).
Proof.
  assert (Hin : forall item,
             In item (filteredData Date_parse startDate endDate selectedCategory data)
             <-> In item data /\
                 included Date_parse startDate endDate selectedCategory item).
  { intros item. unfold filteredData. rewrite filter_In.
    now rewrite filter_condition_spec. }
  split; [exact Hin|]. split; [|split; [|split]].
  - unfold filteredData. apply filter_Kept.
    intros item. apply filter_condition_spec.
  - intros w sp ep cf Hs He Hc -> -> -> filtered.
    now apply filterAndRenderData_run.
  - intros item d m y Hdmy. rewrite Hin. unfold included, itemDate.
    now rewrite (reversed_fields _ d m y Hdmy).
  - intros Hall. unfold filteredData. apply filter_Kept_in.
    intros item Hitem. rewrite filter_condition_spec.
    apply spec_included_iff. now apply Hall.
Qed.

(** C10: a record whose order date, once reversed into ISO form, is not
    a valid date is in no filtered subset, whatever the bounds and the
    category, because both date comparisons are false on it. *)
Theorem invalid_date_excluded (item : Order) :
  itemDate Date_parse item = None ->
  forall startDate endDate selectedCategory data,
    DateValue.ge (itemDate Date_parse item) startDate = false /\
    DateValue.le (itemDate Date_parse item) endDate = false /\
    ~ In item (filteredData Date_parse startDate endDate selectedCategory data).
Proof.
  intros Hnone startDate endDate selectedCategory data.
  rewrite Hnone. simpl. repeat split.
  intros Hin. unfold filteredData in Hin. apply filter_In in Hin.
  destruct Hin as [_ Hcond]. rewrite Hnone in Hcond. discriminate.
Qed.

End FilterProperties.

(** ** Numbers: [NaN] and the sums *)

Lemma add_NaN_r (x : number) : add x NaN = NaN.
Proof. now destruct x. Qed.

Lemma isNaN_eq (x : number) : isNaN x = true <-> x = NaN.
Proof. unfold NaN. destruct x; simpl; split; congruence. Qed.

Lemma sum_from_NaN (l : list number) : fold_left add l NaN = NaN.
Proof. induction l as [|x l IH]; simpl; [reflexivity | exact IH]. Qed.

Lemma sum_with_NaN (l : list number) (acc : number) :
  In NaN l -> fold_left add l acc = NaN.
Proof.
  revert acc. induction l as [|x l IH]; intros acc Hin; simpl in *.
  - contradiction.
  - destruct Hin as [-> | Hin].
    + rewrite add_NaN_r. apply sum_from_NaN.
    + now apply IH.
Qed.

Lemma totalRevenue_sum (data : list Order) :
  totalRevenue data = sum_numbers (map (fun item => parseFloat (total item)) data).
Proof.
  unfold totalRevenue, sum_numbers. generalize zero.
  induction data as [|item data IH]; intros acc; simpl; [reflexivity | apply IH].
Qed.

(** C2: for every collection handed to it, the metrics update writes the
    sum of the parsed totals formatted to two decimals after a dollar sign
    as the revenue, the length of the collection as the order count, and as
    the average the revenue divided by the count formatted the same way when
    there is at least one record, and exactly "$0.00" when there is none. *)
Theorem updateKeyMetrics_spec (data : list Order) (w : World) :
  let parsed := map (fun item => parseFloat (total item)) data in
  let count := List.length data in
  total_revenue (updateKeyMetrics data w) = "$" ++ toFixed (sum_numbers parsed) 2 /\
  total_orders (updateKeyMetrics data w) = string_of_nat count /\
  ((0 < count)%nat ->
   average_order_value (updateKeyMetrics data w) =
   "$" ++ toFixed (div (sum_numbers parsed) (of_nat count)) 2) /\
  (count = 0%nat ->
   average_order_value (updateKeyMetrics data w) = "$0.00").
Proof.
  simpl. rewrite <- totalRevenue_sum. repeat split.
  - intros Hpos. unfold averageOrderValue, totalOrders.
    apply Nat.ltb_lt in Hpos. now rewrite Hpos.
  - intros Hzero. unfold averageOrderValue, totalOrders.
    rewrite Hzero. reflexivity.
Qed.

(** C9: when some record of the collection has a total that does not parse
    as a number, the metrics update still completes, the revenue sum and
    the average order value are both not-a-number (and are displayed as
    such), and neither the message container nor the console is touched. *)
Theorem unparsable_total_propagates (data : list Order) (w : World) :
  (exists item, In item data /\ isNaN (parseFloat (total item)) = true) ->
  totalRevenue data = NaN /\
  averageOrderValue data = NaN /\
  total_revenue (updateKeyMetrics data w) = "$NaN" /\
  average_order_value (updateKeyMetrics data w) = "$NaN" /\
  total_orders (updateKeyMetrics data w) = string_of_nat (List.length data) /\
  app_innerHTML (updateKeyMetrics data w) = app_innerHTML w /\
  console_errors (updateKeyMetrics data w) = console_errors w.
Proof.
  intros (item & Hin & Hnan).
  assert (Hrev : totalRevenue data = NaN).
  { rewrite totalRevenue_sum. apply sum_with_NaN.
    apply isNaN_eq in Hnan. rewrite <- Hnan.
    now apply (in_map (fun item => parseFloat (total item))). }
  assert (Havg : averageOrderValue data = NaN).
  { unfold averageOrderValue, totalOrders. rewrite Hrev.
    destruct data as [|first rest]; [contradiction | reflexivity]. }
  simpl. rewrite Hrev, Havg. repeat split.
Qed.

(** ** The category drop-down *)

Lemma filter_twice {A : Type} (f g : A -> bool) (l : list A) :
  filter f (filter g l) = filter (fun y => g y && f y) l.
Proof.
  induction l as [|x l IH]; simpl; [reflexivity|].
  destruct (g x); simpl; [destruct (f x)|]; now rewrite IH.
Qed.

Lemma has_app (s : list (option string)) (x y : option string) :
  JsSet.has option_string_eqb (s ++ [x]) y =
  JsSet.has option_string_eqb s y || option_string_eqb y x.
Proof.
  unfold JsSet.has. rewrite existsb_app. simpl. now rewrite orb_false_r.
Qed.

(** Building a set element by element yields the first-seen order. *)
Lemma of_list_from (l s : list (option string)) :
  fold_left (JsSet.add option_string_eqb) l s =
  (s ++ filter (fun y => negb (JsSet.has option_string_eqb s y)) (first_seen l))%list.
Proof.
  revert s. induction l as [|x l IH]; intros s; simpl.
  - now rewrite app_nil_r.
  - rewrite IH. unfold JsSet.add.
    destruct (JsSet.has option_string_eqb s x) eqn:Hx; simpl.
    + f_equal. rewrite filter_twice. apply filter_ext. intros y.
      destruct (JsSet.has option_string_eqb s y) eqn:Hy; simpl.
      * now rewrite andb_false_r.
      * rewrite andb_true_r.
        destruct (option_string_eqb x y) eqn:Exy; [|reflexivity].
        apply option_string_eqb_eq in Exy. subst. congruence.
    + rewrite <- app_assoc. simpl. do 2 f_equal.
      rewrite filter_twice. apply filter_ext. intros y.
      rewrite has_app, negb_orb, (option_string_eqb_sym y x).
      apply andb_comm.
Qed.

Lemma of_list_first_seen (l : list (option string)) :
  JsSet.of_list option_string_eqb l = first_seen l.
Proof.
  unfold JsSet.of_list. rewrite of_list_from. simpl.
  induction (first_seen l) as [|x fs IH]; simpl; [reflexivity | now rewrite IH].
Qed.

Lemma first_seen_In (l : list (option string)) (c : option string) :
  In c (first_seen l) <-> In c l.
Proof.
  induction l as [|x l IH]; simpl; [tauto|].
  rewrite filter_In, IH, negb_true_iff.
  split.
  - intros [H | [H _]]; auto.
  - intros [H | H]; [now left|].
    destruct (option_string_eqb x c) eqn:E.
    + left. now apply option_string_eqb_eq.
    + right. now split.
Qed.

Lemma first_seen_NoDup (l : list (option string)) : NoDup (first_seen l).
Proof.
  induction l as [|x l IH]; simpl; constructor.
  - rewrite filter_In, negb_true_iff, option_string_eqb_refl.
    intros [_ H]. discriminate.
  - now apply NoDup_filter.
Qed.

Lemma appendChild_unselected (s : SelectElement) (o : OptionElement) :
  existsb option_selected (select_options s) = true ->
  option_selected o = false ->
  appendChild s o =
  {| select_options := (select_options s ++ [o])%list;
     select_onchange := select_onchange s |}.
Proof.
  intros Hsel Ho. unfold appendChild. rewrite Ho.
  now rewrite existsb_app, Hsel.
Qed.

Lemma append_categories (cs : list (option string)) (s : SelectElement) :
  existsb option_selected (select_options s) = true ->
  fold_left (fun s c => appendChild s (new_Option c c false false)) cs s =
  {| select_options :=
       (select_options s ++ map (fun c => new_Option c c false false) cs)%list;
     select_onchange := select_onchange s |}.
Proof.
  revert s. induction cs as [|c cs IH]; intros s Hsel; simpl.
  - rewrite app_nil_r. now destruct s.
  - rewrite appendChild_unselected by (exact Hsel || reflexivity).
    rewrite IH; simpl.
    + now rewrite <- app_assoc.
    + now rewrite existsb_app, Hsel.
Qed.

Lemma populateCategoryFilter_run (data : list Order) (w : World)
      (categoryFilter : SelectElement) :
  category_filter w = Some categoryFilter ->
  populateCategoryFilter data w =
  (Returned tt,
   set_category_filter
     (Some {| select_options := category_options data;
              select_onchange := select_onchange categoryFilter |}) w).
Proof.
  intros Hs. unfold populateCategoryFilter. rewrite Hs.
  rewrite of_list_first_seen, append_categories by reflexivity.
  reflexivity.
Qed.

(** C5: on a page that has the category drop-down, populating it from a
    collection leaves exactly the entry "All Categories" (value "all",
    selected by default and selected) followed by one entry per distinct
    category field of the collection, in first-seen order and without
    duplicates; the drop-down then reads "all"; and populating it once more
    from the same collection changes nothing. *)
Theorem populateCategoryFilter_spec
        (data : list Order) (w : World) (categoryFilter : SelectElement) :
  category_filter w = Some categoryFilter ->
  let labels := first_seen (map categories data) in
  exists filled,
    populateCategoryFilter data w =
    (Returned tt, set_category_filter (Some filled) w) /\
    select_options filled =
    new_Option (Some "All Categories") (Some "all") true true ::
    map (fun c => new_Option c c false false) labels /\
    select_value filled = "all" /\
    NoDup labels /\
    (forall c, In c labels <-> exists item, In item data /\ categories item = c) /\
    populateCategoryFilter data (set_category_filter (Some filled) w) =
    (Returned tt, set_category_filter (Some filled) w).
Proof.
  intros Hcf labels.
  exists {| select_options := category_options data;
            select_onchange := select_onchange categoryFilter |}.
  repeat split.
  - now apply populateCategoryFilter_run.
  - apply first_seen_NoDup.
  - unfold labels. rewrite first_seen_In, in_map_iff.
    intros (item & Heq & Hin). now exists item.
  - unfold labels. rewrite first_seen_In, in_map_iff.
    intros (item & Hin & Heq). now exists item.
  - etransitivity; [apply populateCategoryFilter_run; reflexivity | reflexivity].
Qed.

(** ** The chart handle *)

Lemma destroy_previous_clears (w : World) :
  chart_discipline w -> live_charts (destroy_previous w) = [].
Proof.
  intros [Hnil | (id & c & Hlive & Hhandle)]; unfold destroy_previous.
  - destruct (chartInstance w); simpl; [|exact Hnil].
    now rewrite Hnil.
  - rewrite Hhandle. simpl. rewrite Hlive. simpl.
    now rewrite Nat.eqb_refl.
Qed.

Lemma destroy_previous_next (w : World) :
  next_chart (destroy_previous w) = next_chart w.
Proof. unfold destroy_previous. now destruct (chartInstance w). Qed.

Lemma drawChart_cases (data : list Order) (elementId chartType : string) (w : World) :
  (recognized chartType = true /\
   exists c, drawChart data elementId chartType w = new_Chart c (destroy_previous w)) \/
  (recognized chartType = false /\
   drawChart data elementId chartType w = destroy_previous w).
Proof.
  unfold drawChart, recognized.
  destruct (String.eqb chartType "revenueOverTime"); simpl.
  { left. split; [reflexivity | eauto]. }
  destruct (String.eqb chartType "revenueByCategory"); simpl.
  { left. split; [reflexivity | eauto]. }
  destruct (String.eqb chartType "topProducts"); simpl.
  { left. split; [reflexivity | eauto]. }
  right. split; reflexivity.
Qed.

Lemma drawChart_discipline (data : list Order) (elementId chartType : string) (w : World) :
  chart_discipline w -> chart_discipline (drawChart data elementId chartType w).
Proof.
  intros Hw. pose proof (destroy_previous_clears w Hw) as Hclear.
  destruct (drawChart_cases data elementId chartType w)
    as [[_ (c & ->)] | [_ ->]].
  - right. exists (next_chart (destroy_previous w)), c.
    unfold new_Chart. simpl. rewrite Hclear. split; reflexivity.
  - now left.
Qed.

Lemma draw_calls_discipline (calls : list DrawCall) (w : World) :
  chart_discipline w -> chart_discipline (draw_calls calls w).
Proof.
  unfold draw_calls. revert w.
  induction calls as [|[[data elementId] chartType] calls IH]; intros w Hw; simpl.
  - exact Hw.
  - apply IH. now apply drawChart_discipline.
Qed.

Lemma discipline_at_most_one (w : World) :
  chart_discipline w -> (List.length (live_charts w) <= 1)%nat.
Proof.
  intros [-> | (id & c & -> & _)]; simpl; lia.
Qed.

(** C7: start from the script's initial state (the handle is null and no
    chart exists) and run any sequence of [drawChart] calls, recognized
    modes or not.  Then at most one chart is live, and at the next call the
    previous chart is destroyed before anything is constructed (no chart is
    live after the destroy step), at most one chart is live after the call,
    exactly one (the one the handle refers to) when the mode is recognized,
    and none when it is not. *)
Theorem single_live_chart (w0 : World) (calls : list DrawCall) :
  chartInstance w0 = None ->
  live_charts w0 = [] ->
  let w := draw_calls calls w0 in
  (List.length (live_charts w) <= 1)%nat /\
  forall data elementId chartType,
    let w' := drawChart data elementId chartType w in
    live_charts (destroy_previous w) = [] /\
    (List.length (live_charts w') <= 1)%nat /\
    (recognized chartType = true ->
     exists c, w' = new_Chart c (destroy_previous w) /\
               live_charts w' = [(next_chart w, c)] /\
               chartInstance w' = Some (next_chart w)) /\
    (recognized chartType = false ->
     w' = destroy_previous w /\ live_charts w' = []).
Proof.
  intros Hhandle Hlive w.
  assert (Hw : chart_discipline w).
  { apply draw_calls_discipline. now left. }
  split; [now apply discipline_at_most_one|].
  intros data elementId chartType w'.
  pose proof (destroy_previous_clears w Hw) as Hclear.
  split; [exact Hclear|].
  split; [apply discipline_at_most_one; now apply drawChart_discipline|].
  unfold w'.
  destruct (drawChart_cases data elementId chartType w)
    as [[Hrec (c & ->)] | [Hrec ->]]; rewrite Hrec.
  - split; [|discriminate]. intros _. exists c.
    split; [reflexivity|]. unfold new_Chart. simpl.
    rewrite Hclear, destroy_previous_next. split; reflexivity.
  - split; [discriminate|]. intros _. split; [reflexivity | exact Hclear].
Qed.

(** ** Start-up *)

Section StartupProperties.

Variable Date_parse : string -> time_value.
Variable flatpickr_parseDate : string -> option Z.

Lemma show_message_dashboard (html : string) (w : World) :
  dashboard_state (show_message html w) = dashboard_state w.
Proof. unfold show_message. now destruct (app_innerHTML w). Qed.

Lemma on_failure_dashboard (error : JsError) (w : World) :
  dashboard_state (on_failure error w) = dashboard_state w.
Proof. unfold on_failure. now rewrite show_message_dashboard. Qed.

Lemma setupFilters_run (data : list Order) (w : World) (tmin tmax : Z) :
  Date_of_min (map (itemDate Date_parse) data) = Some tmin ->
  Date_of_max (map (itemDate Date_parse) data) = Some tmax ->
  setupFilters Date_parse flatpickr_parseDate data w =
  (Returned tt,
   let w2 :=
     set_end_date
       (Some (flatpickr flatpickr_parseDate (slice0 10 (iso_string tmax)) (Some data)))
       (set_start_date
          (Some (flatpickr flatpickr_parseDate (slice0 10 (iso_string tmin)) (Some data)))
          w) in
   match category_filter w with
   | Some categoryFilter =>
       set_category_filter
         (Some {| select_options := select_options categoryFilter;
                  select_onchange := Some data |}) w2
   | None => w2
   end).
Proof.
  intros Hmin Hmax. unfold setupFilters, bind, toISOString.
  rewrite Hmin, Hmax. reflexivity.
Qed.

(** C6: on a page that has the message container, start-up has three
    outcomes.  A response that is empty or missing puts the "no data"
    message in the container and writes nothing else (no picker, no
    handler, no option, no metric, no chart, no table).  A failed
    transport or parse logs the error on the console and puts the "failed
    to fetch" message in the container.  Filter setup and rendering leave
    a trace only when the response was a non-empty collection; and such a
    collection, when its dates are valid and the drop-down is there, gets
    both pickers, the three change handlers, the option list and one
    render pass over the records selected by the initial filter state. *)
Theorem startup_three_way (w : World) (html : string) :
  app_innerHTML w = Some html ->
  let start := DOMContentLoaded Date_parse flatpickr_parseDate in
  (forall data,
      data = JsonFalsy \/ data = JsonArray [] ->
      start (Resolved data) w = set_app (Some "<p>No data available.</p>") w) /\
  (forall error,
      start (Rejected error) w =
      set_app (Some "<p>Failed to fetch data.</p>")
              (set_console_errors
                 (console_errors w ++ [("Error fetching data:", error)])%list w)) /\
  (forall result,
      dashboard_state (start result w) <> dashboard_state w ->
      exists first rest, result = Resolved (JsonArray (first :: rest))) /\
  (forall first rest tmin tmax categoryFilter,
      let records := first :: rest in
      Date_of_min (map (itemDate Date_parse) records) = Some tmin ->
      Date_of_max (map (itemDate Date_parse) records) = Some tmax ->
      category_filter w = Some categoryFilter ->
      let startPicker :=
        flatpickr flatpickr_parseDate (slice0 10 (iso_string tmin)) (Some records) in
      let endPicker :=
        flatpickr flatpickr_parseDate (slice0 10 (iso_string tmax)) (Some records) in
      let filtered :=
        filteredData Date_parse (hd_error (selectedDates startPicker))
                     (hd_error (selectedDates endPicker)) "all" records in
      start (Resolved (JsonArray records)) w =
      set_chart_type_onchange (Some records)
        (populateDataTable filtered
           (drawChart filtered "chart-canvas" (chart_type_selector w)
              (updateKeyMetrics filtered
                 (set_category_filter
                    (Some {| select_options := category_options records;
                             select_onchange := Some records |})
                    (set_end_date (Some endPicker)
                       (set_start_date (Some startPicker) w))))))).
Proof.
  intros Happ start. unfold start. split; [|split; [|split]].
  - intros data [-> | ->]; simpl; unfold modify, show_message;
      now rewrite Happ.
  - intros error. simpl. unfold on_failure, show_message. simpl.
    now rewrite Happ.
  - intros [error | [ | [|first rest] | ]] Hchanged.
    + exfalso. apply Hchanged. simpl. apply on_failure_dashboard.
    + exfalso. apply Hchanged. simpl. apply show_message_dashboard.
    + exfalso. apply Hchanged. simpl. apply show_message_dashboard.
    + now exists first, rest.
    + exfalso. apply Hchanged. simpl. apply on_failure_dashboard.
  - intros first rest tmin tmax categoryFilter. cbv zeta.
    intros Hmin Hmax Hcf.
    unfold DOMContentLoaded, on_response.
    unfold bind at 1.
    rewrite (setupFilters_run (first :: rest) w tmin tmax Hmin Hmax), Hcf.
    cbv zeta. unfold initializeDashboard, bind.
    erewrite populateCategoryFilter_run by reflexivity.
    erewrite filterAndRenderData_run by reflexivity.
    reflexivity.
Qed.

End StartupProperties.

(** ** Dictionary objects *)

Section ObjFacts.
Context {V : Type}.

Lemma get_set (o : Obj.t V) (k k' : string) (v : V) :
  Obj.get (Obj.set o k v) k' = if String.eqb k k' then Some v else Obj.get o k'.
Proof.
  induction o as [|[k0 v0] o IH]; simpl; [reflexivity|].
  destruct (String.eqb k0 k) eqn:E0; simpl.
  - apply String.eqb_eq in E0. subst k0. now destruct (String.eqb k k').
  - rewrite IH. destruct (String.eqb k0 k') eqn:E1; [|reflexivity].
    apply String.eqb_eq in E1. subst k'.
    rewrite String.eqb_sym. now rewrite E0.
Qed.

Lemma get_In (o : Obj.t V) (k : string) (v : V) :
  Obj.get o k = Some v -> In (k, v) o.
Proof.
  induction o as [|[k0 v0] o IH]; simpl; [discriminate|].
  destruct (String.eqb k0 k) eqn:E.
  - apply String.eqb_eq in E. intros [= ->]. left. now subst.
  - intros H. right. now apply IH.
Qed.

Lemma In_get (o : Obj.t V) (k : string) (v : V) :
  NoDup (map fst o) -> In (k, v) o -> Obj.get o k = Some v.
Proof.
  induction o as [|[k0 v0] o IH]; simpl; [contradiction|].
  intros Hnd [Heq | Hin].
  - injection Heq as -> ->. now rewrite String.eqb_refl.
  - inversion Hnd as [|? ? Hnotin Hnd']; subst.
    destruct (String.eqb k0 k) eqn:E.
    + apply String.eqb_eq in E. subst k0. exfalso. apply Hnotin.
      now apply (in_map fst) in Hin.
    + now apply IH.
Qed.

Lemma set_keys (o : Obj.t V) (k k' : string) (v : V) :
  In k' (map fst (Obj.set o k v)) <-> k' = k \/ In k' (map fst o).
Proof.
  induction o as [|[k0 v0] o IH]; simpl.
  - intuition congruence.
  - destruct (String.eqb k0 k) eqn:E; simpl.
    + apply String.eqb_eq in E. subst k0. intuition congruence.
    + rewrite IH. tauto.
Qed.

Lemma set_NoDup (o : Obj.t V) (k : string) (v : V) :
  NoDup (map fst o) -> NoDup (map fst (Obj.set o k v)).
Proof.
  induction o as [|[k0 v0] o IH]; simpl; intros Hnd.
  - constructor; [tauto | constructor].
  - inversion Hnd as [|? ? Hnotin Hnd']; subst.
    destruct (String.eqb k0 k) eqn:E; simpl.
    + now constructor.
    + constructor; [|now apply IH].
      rewrite set_keys. intros [-> | H]; [|contradiction].
      now rewrite String.eqb_refl in E.
Qed.

Lemma insert_index_In (i : Z) (p q : string * V) (l : list (Z * (string * V))) :
  In q (map snd (Obj.insert_index i p l)) <-> q = p \/ In q (map snd l).
Proof.
  induction l as [|[j r] l IH]; simpl.
  - intuition congruence.
  - destruct (Z.ltb i j); simpl; [intuition congruence|].
    rewrite IH. intuition congruence.
Qed.

Lemma index_properties_In (o : Obj.t V) (q : string * V) :
  In q (map snd (Obj.index_properties o)) <->
  In q o /\ Obj.array_index (fst q) <> None.
Proof.
  induction o as [|[k v] o IH]; simpl; [tauto|].
  destruct (Obj.array_index k) eqn:E.
  - rewrite insert_index_In, IH. split.
    + intros [-> | [H1 H2]]; [|tauto]. simpl. rewrite E. split; [now left | discriminate].
    + intros [[<- | H1] H2]; [now left | tauto].
  - rewrite IH. split; [tauto|].
    intros [[<- | H1] H2]; [|tauto]. simpl in H2. congruence.
Qed.

Lemma insert_index_perm (i : Z) (p : string * V) (l : list (Z * (string * V))) :
  Permutation (map snd (Obj.insert_index i p l)) (p :: map snd l).
Proof.
  induction l as [|[j r] l IH]; simpl; [reflexivity|].
  destruct (Z.ltb i j); simpl; [reflexivity|].
  rewrite IH. apply perm_swap.
Qed.

(** Enumeration reorders the properties and drops none. *)
Lemma entries_perm (o : Obj.t V) : Permutation (Obj.entries o) o.
Proof.
  unfold Obj.entries, Obj.named_properties.
  induction o as [|[k v] o IH]; simpl; [reflexivity|].
  destruct (Obj.array_index k); simpl.
  - rewrite insert_index_perm. simpl. now rewrite IH.
  - rewrite <- Permutation_middle. now rewrite IH.
Qed.

Lemma keys_NoDup (o : Obj.t V) : NoDup (map fst o) -> NoDup (Obj.keys o).
Proof.
  intros H. unfold Obj.keys.
  eapply Permutation_NoDup; [|exact H].
  symmetry. apply Permutation_map, entries_perm.
Qed.

Lemma entries_In (o : Obj.t V) (q : string * V) :
  In q (Obj.entries o) <-> In q o.
Proof.
  unfold Obj.entries, Obj.named_properties.
  rewrite in_app_iff, index_properties_In, filter_In.
  destruct (Obj.array_index (fst q)); intuition congruence.
Qed.
End ObjFacts.

(** ** Order and rounding of the numbers *)

Lemma lt_rank (x y : number) :
  isNaN x = false -> isNaN y = false ->
  (Number.lt x y = true <-> rank_lt (rank x) (rank y)).
Proof.
  unfold Number.lt, SFltb.
  destruct x as [sx|sx| |sx mx ex], y as [sy|sy| |sy my ey]; simpl;
    try discriminate; intros _ _;
    try (destruct sx); try (destruct sy); simpl;
    try (split; [discriminate | lia]); try (split; [lia | reflexivity]);
    try (split; [reflexivity | lia]).
  all: change (Pos.compare_cont Eq mx my) with (Pos.compare mx my).
  all: destruct (Z.compare_spec ex ey); destruct (Pos.compare_spec mx my); simpl;
    split; intros; try reflexivity; try discriminate; try lia.
Qed.

Lemma gt_irrefl (x : number) : gt x x = false.
Proof.
  destruct (isNaN x) eqn:E.
  - now destruct x.
  - destruct (gt x x) eqn:G; [|reflexivity].
    apply (lt_rank x x E E) in G.
    destruct (rank x) as [[a b] c]. simpl in G. lia.
Qed.

Lemma gt_trans (x y z : number) :
  gt x y = true -> gt y z = true -> gt x z = true.
Proof.
  intros Hxy Hyz.
  assert (Nx : isNaN x = false) by (destruct x, y; try reflexivity; discriminate).
  assert (Ny : isNaN y = false) by (destruct y, z; try reflexivity; discriminate).
  assert (Nz : isNaN z = false) by (destruct z, y; try reflexivity; discriminate).
  unfold gt in *. fold (Number.lt y x) in Hxy. fold (Number.lt z y) in Hyz.
  fold (Number.lt z x).
  apply (lt_rank _ _ Ny Nx) in Hxy. apply (lt_rank _ _ Nz Ny) in Hyz.
  apply (lt_rank _ _ Nz Nx).
  destruct (rank x) as [[a b] c], (rank y) as [[a' b'] c'], (rank z) as [[a'' b''] c''].
  simpl in *. lia.
Qed.

Lemma gt_neg_trans (x y z : number) :
  isNaN y = false ->
  gt x y = false -> gt y z = false -> gt x z = false.
Proof.
  intros Ny Hxy Hyz.
  destruct (isNaN x) eqn:Nx; [now destruct x, z|].
  destruct (isNaN z) eqn:Nz; [now destruct z|].
  destruct (gt x z) eqn:Hxz; [|reflexivity].
  unfold gt in *. fold (Number.lt y x) in Hxy. fold (Number.lt z y) in Hyz.
  fold (Number.lt z x) in Hxz.
  apply (lt_rank _ _ Nz Nx) in Hxz.
  assert (H1 : ~ rank_lt (rank y) (rank x)).
  { intros H. apply (lt_rank _ _ Ny Nx) in H. congruence. }
  assert (H2 : ~ rank_lt (rank z) (rank y)).
  { intros H. apply (lt_rank _ _ Nz Ny) in H. congruence. }
  destruct (rank x) as [[a b] c], (rank y) as [[a' b'] c'], (rank z) as [[a'' b''] c''].
  simpl in *. lia.
Qed.

(** Rounding a nonnegative mantissa never yields [NaN]. *)
Lemma shr_1_nonneg (mrs : shr_record) : 0 <= shr_m mrs -> 0 <= shr_m (shr_1 mrs).
Proof.
  destruct mrs as [m r s]. simpl. intros H.
  destruct m as [|p|p]; simpl; try lia; destruct p; simpl; lia.
Qed.

Lemma iter_shr_1_nonneg (p : positive) (mrs : shr_record) :
  0 <= shr_m mrs -> 0 <= shr_m (iter_pos shr_1 p mrs).
Proof.
  revert mrs. induction p as [p IH|p IH|]; intros mrs H; simpl.
  - apply IH, IH. now apply shr_1_nonneg.
  - now apply IH, IH.
  - now apply shr_1_nonneg.
Qed.

Lemma shr_fexp_nonneg (m e : Z) (l : location) :
  0 <= m -> 0 <= shr_m (fst (shr_fexp prec emax m e l)).
Proof.
  intros H. unfold shr_fexp, shr.
  assert (H0 : 0 <= shr_m (shr_record_of_loc m l)).
  { destruct l as [|[]]; simpl; exact H. }
  destruct (fexp prec emax (Zdigits2 m + e) - e); simpl; try exact H0.
  now apply iter_shr_1_nonneg.
Qed.

Lemma round_nearest_even_nonneg (m : Z) (l : location) :
  0 <= m -> 0 <= round_nearest_even m l.
Proof.
  intros H. destruct l as [|[]]; simpl; try lia.
  destruct (Z.even m); lia.
Qed.

Lemma binary_round_aux_not_NaN (s : bool) (m e : Z) (l : location) :
  0 <= m -> isNaN (binary_round_aux prec emax s m e l) = false.
Proof.
  intros H. unfold binary_round_aux.
  pose proof (shr_fexp_nonneg m e l H) as H1.
  destruct (shr_fexp prec emax m e l) as [mrs' e']. simpl in H1.
  pose proof (shr_fexp_nonneg _ e' loc_Exact
                (round_nearest_even_nonneg _ (loc_of_shr_record mrs') H1)) as H2.
  destruct (shr_fexp prec emax (round_nearest_even (shr_m mrs') (loc_of_shr_record mrs')) e' loc_Exact)
    as [mrs'' e'']. simpl in H2.
  destruct (shr_m mrs'') as [|p|p]; [reflexivity | | lia].
  destruct (Z.leb _ _); reflexivity.
Qed.

Lemma binary_normalize_not_NaN (m e : Z) (szero : bool) :
  isNaN (binary_normalize prec emax m e szero) = false.
Proof.
  unfold binary_normalize, binary_round.
  destruct m as [|p|p]; [reflexivity| |].
  - destruct (shl_align p e _) as [mz ez]. now apply binary_round_aux_not_NaN.
  - destruct (shl_align p e _) as [mz ez]. now apply binary_round_aux_not_NaN.
Qed.

Lemma add_not_NaN (x p : number) :
  isNaN x = false -> isFinite p = true -> isNaN (add x p) = false.
Proof.
  destruct x as [sx|sx| |sx mx ex], p as [sp|sp| |sp mp ep]; simpl;
    try discriminate; intros _ _; try reflexivity.
  all: try (now destruct sx, sp).
  - apply binary_normalize_not_NaN.
Qed.

(** A rounded value has the sign it was given. *)
Lemma binary_round_aux_sign (s : bool) (m e : Z) (l : location) :
  signed_as s (binary_round_aux prec emax s m e l).
Proof.
  unfold binary_round_aux.
  destruct (shr_fexp prec emax m e l) as [mrs' e'].
  destruct (shr_fexp prec emax _ e' loc_Exact) as [mrs'' e''].
  destruct (shr_m mrs'') as [|p|p]; simpl; auto.
  destruct (Z.leb _ _); reflexivity.
Qed.

Lemma binary_round_sign (s : bool) (m : positive) (e : Z) :
  signed_as s (binary_round prec emax s m e).
Proof.
  unfold binary_round. destruct (shl_align m e _) as [mz ez].
  apply binary_round_aux_sign.
Qed.

Lemma lt_zero_positive_round (m : positive) (e : Z) :
  Number.lt (binary_round prec emax false m e) zero = false.
Proof.
  pose proof (binary_round_sign false m e) as H.
  destruct (binary_round prec emax false m e); simpl in H; subst; reflexivity.
Qed.

(** *** Binary digits *)
Lemma digits_bounds (p : positive) :
  2 ^ (Zpos (digits2_pos p) - 1) <= Zpos p < 2 ^ Zpos (digits2_pos p).
Proof.
  induction p as [p IH|p IH|]; simpl digits2_pos.
  - rewrite Pos2Z.inj_succ.
    replace (Z.succ (Z.pos (digits2_pos p)) - 1) with (Z.succ (Z.pos (digits2_pos p) - 1)) by lia.
    rewrite !Z.pow_succ_r by lia. lia.
  - rewrite Pos2Z.inj_succ.
    replace (Z.succ (Z.pos (digits2_pos p)) - 1) with (Z.succ (Z.pos (digits2_pos p) - 1)) by lia.
    rewrite !Z.pow_succ_r by lia. lia.
  - simpl. lia.
Qed.

Lemma Zdigits2_bounds (m : Z) :
  0 < m -> 2 ^ (Zdigits2 m - 1) <= m < 2 ^ Zdigits2 m.
Proof.
  destruct m as [|p|p]; try lia. intros _. simpl. apply digits_bounds.
Qed.

Lemma Zdigits2_pos (m : Z) : 0 < m -> 0 < Zdigits2 m.
Proof. destruct m; simpl; lia. Qed.

Lemma Zdigits2_unique (m d : Z) :
  0 < d -> 2 ^ (d - 1) <= m < 2 ^ d -> Zdigits2 m = d.
Proof.
  intros Hd [Hlo Hhi].
  assert (Hm : 0 < m).
  { pose proof (Z.pow_pos_nonneg 2 (d - 1)). lia. }
  pose proof (Zdigits2_bounds m Hm) as [Hlo' Hhi'].
  pose proof (Zdigits2_pos m Hm) as Hpos.
  destruct (Z.lt_trichotomy (Zdigits2 m) d) as [H | [H | H]]; [|exact H|].
  - assert (2 ^ Zdigits2 m <= 2 ^ (d - 1)) by (apply Z.pow_le_mono_r; lia). lia.
  - assert (2 ^ d <= 2 ^ (Zdigits2 m - 1)) by (apply Z.pow_le_mono_r; lia). lia.
Qed.

Lemma Zdigits2_div (m n : Z) :
  0 < m -> 0 <= n -> n < Zdigits2 m -> Zdigits2 (m / 2 ^ n) = Zdigits2 m - n.
Proof.
  intros Hm Hn Hlt.
  pose proof (Zdigits2_bounds m Hm) as [Hlo Hhi].
  assert (Hp : 0 < 2 ^ n) by (apply Z.pow_pos_nonneg; lia).
  apply Zdigits2_unique; [lia|]. split.
  - apply Z.div_le_lower_bound; [exact Hp|].
    rewrite <- Z.pow_add_r by lia.
    replace (n + (Zdigits2 m - n - 1)) with (Zdigits2 m - 1) by lia. exact Hlo.
  - apply Z.div_lt_upper_bound; [exact Hp|].
    rewrite <- Z.pow_add_r by lia.
    replace (n + (Zdigits2 m - n)) with (Zdigits2 m) by lia. exact Hhi.
Qed.

Lemma div_small (m n : Z) :
  0 < m -> Zdigits2 m <= n -> m / 2 ^ n = 0.
Proof.
  intros Hm Hn. pose proof (Zdigits2_bounds m Hm) as [_ Hhi].
  apply Z.div_small. split; [lia|].
  assert (2 ^ Zdigits2 m <= 2 ^ n).
  { apply Z.pow_le_mono_r; [lia|exact Hn]. }
  lia.
Qed.

Lemma Zdigits2_succ (m : Z) :
  0 <= m ->
  Zdigits2 (m + 1) = Zdigits2 m \/
  (m + 1 = 2 ^ Zdigits2 m /\ Zdigits2 (m + 1) = Zdigits2 m + 1).
Proof.
  intros Hm. destruct (Z.eq_dec m 0) as [-> | Hnz]; [right; split; reflexivity|].
  assert (Hpos : 0 < m) by lia.
  pose proof (Zdigits2_bounds m Hpos) as [Hlo Hhi].
  pose proof (Zdigits2_pos m Hpos) as Hd.
  destruct (Z.eq_dec (m + 1) (2 ^ Zdigits2 m)) as [Heq | Hne].
  - right. split; [exact Heq|].
    apply Zdigits2_unique; [lia|].
    replace (Zdigits2 m + 1 - 1) with (Zdigits2 m) by lia.
    rewrite Z.pow_add_r by lia. simpl (2 ^ 1). lia.
  - left. apply Zdigits2_unique; [lia|]. lia.
Qed.

(** *** Shifts *)
Lemma shr_1_div2 (mrs : shr_record) :
  0 <= shr_m mrs -> shr_m (shr_1 mrs) = shr_m mrs / 2.
Proof.
  destruct mrs as [m r s]. simpl. intros H.
  rewrite <- Z.div2_div.
  destruct m as [|p|p]; try lia; try reflexivity; destruct p; reflexivity.
Qed.

Lemma iter_shr_1_div (n : positive) (mrs : shr_record) :
  0 <= shr_m mrs ->
  shr_m (iter_pos shr_1 n mrs) = shr_m mrs / 2 ^ Zpos n.
Proof.
  revert mrs. induction n as [n IH|n IH|]; intros mrs H; simpl iter_pos.
  - rewrite IH by (apply iter_shr_1_nonneg; now apply shr_1_nonneg).
    rewrite IH by (now apply shr_1_nonneg).
    rewrite shr_1_div2 by exact H.
    rewrite !Z.div_div by (try apply Z.pow_pos_nonneg; lia).
    f_equal. rewrite Pos2Z.inj_xI, <- Z.pow_add_r by lia.
    replace (2 * Z.pos n + 1) with (1 + (Z.pos n + Z.pos n)) by lia.
    rewrite (Z.pow_add_r 2 1) by lia. reflexivity.
  - rewrite IH by (now apply iter_shr_1_nonneg).
    rewrite IH by exact H.
    rewrite !Z.div_div by (try apply Z.pow_pos_nonneg; lia).
    f_equal. rewrite Pos2Z.inj_xO, <- Z.pow_add_r by lia.
    f_equal. lia.
  - now rewrite shr_1_div2.
Qed.

Lemma fexp_eq (e : Z) : fexp prec emax e = fexp64 e.
Proof. reflexivity. Qed.

(** What a shift to the exponent given by [fexp] does. *)
Lemma shr_fexp_spec (m e : Z) (l : location) :
  0 <= m ->
  let n := fexp64 (Zdigits2 m + e) - e in
  let '(mrs, e') := shr_fexp prec emax m e l in
  (n <= 0 -> shr_m mrs = m /\ e' = e) /\
  (0 < n -> shr_m mrs = m / 2 ^ n /\ e' = e + n).
Proof.
  intros Hm n. unfold shr_fexp, shr. rewrite fexp_eq. fold n.
  assert (H0 : shr_m (shr_record_of_loc m l) = m) by (destruct l as [|[]]; reflexivity).
  destruct n as [|p|p] eqn:En.
  - split; [now split | lia].
  - split; [lia|]. intros _. split; [|reflexivity].
    rewrite iter_shr_1_div by (rewrite H0; exact Hm). now rewrite H0.
  - split; [now split | lia].
Qed.

Lemma round_nearest_even_cases (m : Z) (l : location) :
  round_nearest_even m l = m \/ round_nearest_even m l = m + 1.
Proof.
  destruct l as [|[]]; simpl; auto. destruct (Z.even m); auto.
Qed.

Lemma pow2_52_digits : Zdigits2 (2 ^ 52) = 53.
Proof. reflexivity. Qed.

(** After the first shift the pair is canonical. *)
Lemma first_shift_canonical (m e : Z) (l : location) :
  0 < m -> e <= fexp64 (Zdigits2 m + e) ->
  let '(mrs, e') := shr_fexp prec emax m e l in
  0 <= shr_m mrs /\ canonical (shr_m mrs) e' /\ -1074 <= e'.
Proof.
  intros Hm Hle.
  pose proof (shr_fexp_spec m e l (Z.lt_le_incl _ _ Hm)) as Hspec.
  cbv zeta in Hspec.
  destruct (shr_fexp prec emax m e l) as [mrs e'].
  destruct Hspec as [Hno Hyes].
  pose proof (Zdigits2_pos m Hm) as Hd.
  set (d := Zdigits2 m) in *.
  destruct (Z.eq_dec (fexp64 (d + e)) e) as [Heq | Hne].
  - destruct Hno as [-> ->]; [lia|].
    split; [lia|]. split; [exact Heq|]. unfold fexp64 in Heq. lia.
  - destruct Hyes as [Hmrs ->]; [lia|].
    set (n := fexp64 (d + e) - e) in *.
    assert (Hn : 0 < n) by lia.
    assert (Hp : 0 < 2 ^ n) by (apply Z.pow_pos_nonneg; lia).
    split; [rewrite Hmrs; apply Z.div_pos; lia|].
    split; [|unfold n, fexp64; lia].
    unfold canonical. rewrite Hmrs.
    destruct (Z_lt_le_dec n d) as [Hlt | Hge].
    + rewrite Zdigits2_div by lia. fold d.
      replace (d - n + (e + n)) with (d + e) by lia. unfold n. lia.
    + rewrite div_small by (fold d; lia). simpl Zdigits2.
      unfold n, fexp64 in *. lia.
Qed.

Lemma binary_round_aux_valid (s : bool) (m e : Z) :
  0 < m -> e <= fexp64 (Zdigits2 m + e) ->
  valid_binary prec emax (binary_round_aux prec emax s m e loc_Exact) = true.
Proof.
  intros Hm Hle. unfold binary_round_aux.
  pose proof (first_shift_canonical m e loc_Exact Hm Hle) as H1.
  destruct (shr_fexp prec emax m e loc_Exact) as [mrs' e'].
  destruct H1 as (Hnn & Hcan & Hemin).
  set (m1 := shr_m mrs') in *.
  set (m2 := round_nearest_even m1 (loc_of_shr_record mrs')).
  assert (Hm2 : 0 <= m2) by (now apply round_nearest_even_nonneg).
  pose proof (shr_fexp_spec m2 e' loc_Exact Hm2) as Hspec. cbv zeta in Hspec.
  destruct (shr_fexp prec emax m2 e' loc_Exact) as [mrs'' e''].
  destruct Hspec as [Hno Hyes].
  assert (Hfinal : 0 <= shr_m mrs'' /\ canonical (shr_m mrs'') e'' ).
  { unfold canonical in Hcan.
    destruct (round_nearest_even_cases m1 (loc_of_shr_record mrs')) as [Hr | Hr];
      fold m2 in Hr.
    - rewrite Hr in *. destruct Hno as [-> ->]; [lia|]. now split.
    - rewrite Hr in *.
      destruct (Zdigits2_succ m1 Hnn) as [Hsame | [Hpow Hinc]].
      + rewrite Hsame in *. destruct Hno as [-> ->]; [lia|].
        split; [lia|]. unfold canonical. now rewrite Hsame.
      + rewrite Hinc in *.
        assert (Hd1 : 0 <= Zdigits2 m1) by (destruct m1; simpl; lia).
        destruct (Z.eq_dec (Zdigits2 m1) 53) as [H53 | Hn53].
        * destruct Hyes as [-> ->]; [unfold fexp64 in *; lia|].
          replace (fexp64 (Zdigits2 m1 + 1 + e') - e') with 1
            by (unfold fexp64 in *; lia).
          rewrite Hpow, H53. change (2 ^ 53 / 2 ^ 1) with (2 ^ 52).
          split; [lia|]. unfold canonical. rewrite pow2_52_digits.
          unfold fexp64 in *. lia.
        * destruct Hno as [-> ->]; [unfold fexp64 in *; lia|].
          split; [lia|]. unfold canonical. rewrite Hinc.
          unfold fexp64 in *. lia. }
  destruct Hfinal as [Hnn'' Hcan''].
  destruct (shr_m mrs'') as [|p|p] eqn:Em; [reflexivity| |lia].
  destruct (Z.leb e'' (emax - prec)) eqn:Eb; [|reflexivity].
  simpl. unfold bounded, canonical_mantissa. rewrite Eb, andb_true_r.
  apply Z.eqb_eq. exact Hcan''.
Qed.

Lemma iter_xO_pow (m d : positive) :
  Zpos (Pos.iter xO m d) = Zpos m * 2 ^ Zpos d.
Proof.
  induction d as [|d IH] using Pos.peano_ind.
  - simpl. lia.
  - rewrite Pos.iter_succ, Pos2Z.inj_xO, IH, Pos2Z.inj_succ, Z.pow_succ_r by lia. lia.
Qed.

Lemma shl_align_spec (m : positive) (e e' : Z) :
  let '(mz, ez) := shl_align m e e' in
  (e' < e -> Zpos mz = Zpos m * 2 ^ (e - e') /\ ez = e') /\
  (e <= e' -> mz = m /\ ez = e).
Proof.
  unfold shl_align. destruct (e' - e) as [|d|d] eqn:E.
  - split; [lia | now split].
  - split; [lia | now split].
  - split; [|lia]. intros _. split; [|reflexivity].
    replace (e - e') with (Zpos d) by lia. apply iter_xO_pow.
Qed.

Lemma Zdigits2_mul_pow (m n : Z) :
  0 < m -> 0 <= n -> Zdigits2 (m * 2 ^ n) = Zdigits2 m + n.
Proof.
  intros Hm Hn. pose proof (Zdigits2_bounds m Hm) as [Hlo Hhi].
  pose proof (Zdigits2_pos m Hm) as Hd.
  assert (Hp : 0 < 2 ^ n) by (apply Z.pow_pos_nonneg; lia).
  apply Zdigits2_unique; [lia|]. split.
  - replace (Zdigits2 m + n - 1) with (Zdigits2 m - 1 + n) by lia.
    rewrite Z.pow_add_r by lia. nia.
  - rewrite Z.pow_add_r by lia. nia.
Qed.

Lemma binary_round_valid (s : bool) (m : positive) (e : Z) :
  valid_binary prec emax (binary_round prec emax s m e) = true.
Proof.
  unfold binary_round. rewrite fexp_eq.
  pose proof (shl_align_spec m e (fexp64 (Zpos (digits2_pos m) + e))) as Hal.
  destruct (shl_align m e (fexp64 (Zpos (digits2_pos m) + e))) as [mz ez].
  destruct Hal as [Hshift Hkeep].
  apply binary_round_aux_valid; [lia|].
  change (Zpos (digits2_pos m)) with (Zdigits2 (Zpos m)) in *.
  destruct (Z_lt_le_dec (fexp64 (Zdigits2 (Zpos m) + e)) e) as [Hlt | Hge].
  - destruct (Hshift Hlt) as [Hmz ->]. rewrite Hmz.
    rewrite Zdigits2_mul_pow by lia.
    replace (Zdigits2 (Z.pos m) + (e - fexp64 (Zdigits2 (Z.pos m) + e)) +
             fexp64 (Zdigits2 (Z.pos m) + e)) with (Zdigits2 (Z.pos m) + e) by lia.
    unfold fexp64. lia.
  - destruct (Hkeep Hge) as [-> ->]. exact Hge.
Qed.

Lemma binary_normalize_valid (m e : Z) (szero : bool) :
  valid_binary prec emax (binary_normalize prec emax m e szero) = true.
Proof.
  destruct m; simpl; [reflexivity | apply binary_round_valid | apply binary_round_valid].
Qed.

Lemma add_valid (x y : number) : valid x = true -> valid y = true -> valid (add x y) = true.
Proof.
  intros Hx Hy.
  destruct x as [sx|sx| |sx mx ex], y as [sy|sy| |sy my ey];
    try reflexivity; try exact Hx; try exact Hy;
    try (now destruct sx, sy).
  apply binary_normalize_valid.
Qed.

Lemma of_decimal_valid (neg : bool) (m e : Z) : valid (of_decimal neg m e) = true.
Proof.
  unfold of_decimal, of_ratio.
  destruct (m =? 0); [reflexivity|].
  destruct (0 <=? e); apply binary_normalize_valid.
Qed.

Lemma parseFloat_valid (s : string) : valid (parseFloat s) = true.
Proof.
  unfold parseFloat.
  destruct (trim_start s) as [|c u]; simpl.
  - reflexivity.
  - repeat match goal with
           | |- context [match ?x with _ => _ end] => destruct x
           | |- context [if ?x then _ else _] => destruct x
           end; try reflexivity; try apply of_decimal_valid.
Qed.

Lemma first_shift_positive (m e : Z) (l : location) :
  0 < m -> e <= fexp64 (Zdigits2 m + e) -> -1074 <= e ->
  0 < shr_m (fst (shr_fexp prec emax m e l)).
Proof.
  intros Hm Hle Hemin.
  pose proof (shr_fexp_spec m e l (Z.lt_le_incl _ _ Hm)) as Hspec.
  cbv zeta in Hspec.
  destruct (shr_fexp prec emax m e l) as [mrs e']. simpl.
  destruct Hspec as [Hno Hyes].
  pose proof (Zdigits2_pos m Hm) as Hd.
  destruct (Z.eq_dec (fexp64 (Zdigits2 m + e)) e) as [Heq | Hne].
  - destruct Hno as [-> _]; lia.
  - destruct Hyes as [-> _]; [lia|].
    set (n := fexp64 (Zdigits2 m + e) - e).
    assert (Hn : 0 < n < Zdigits2 m) by (unfold n, fexp64 in *; lia).
    pose proof (Zdigits2_div m n Hm ltac:(lia) ltac:(lia)) as Hdiv.
    destruct (m / 2 ^ n) as [|q|q] eqn:E; [simpl in Hdiv; lia | lia |].
    assert (0 <= m / 2 ^ n) by (apply Z.div_pos; [lia | apply Z.pow_pos_nonneg; lia]).
    lia.
Qed.

Lemma binary_round_aux_nonzero (s : bool) (m e : Z) :
  0 < m -> e <= fexp64 (Zdigits2 m + e) -> -1074 <= e ->
  nonzero_signed s (binary_round_aux prec emax s m e loc_Exact).
Proof.
  intros Hm Hle Hemin. unfold binary_round_aux.
  pose proof (first_shift_canonical m e loc_Exact Hm Hle) as H1.
  pose proof (first_shift_positive m e loc_Exact Hm Hle Hemin) as Hpos.
  destruct (shr_fexp prec emax m e loc_Exact) as [mrs' e'].
  destruct H1 as (Hnn & Hcan & Hemin'). simpl in Hpos.
  set (m1 := shr_m mrs') in *.
  set (m2 := round_nearest_even m1 (loc_of_shr_record mrs')).
  assert (Hm2 : 0 < m2).
  { destruct (round_nearest_even_cases m1 (loc_of_shr_record mrs')) as [Hr | Hr];
      fold m2 in Hr; lia. }
  assert (Hle2 : e' <= fexp64 (Zdigits2 m2 + e')).
  { unfold canonical in Hcan.
    destruct (round_nearest_even_cases m1 (loc_of_shr_record mrs')) as [Hr | Hr];
      fold m2 in Hr; rewrite Hr.
    - lia.
    - destruct (Zdigits2_succ m1 Hnn) as [Hsame | [_ Hinc]].
      + rewrite Hsame. lia.
      + rewrite Hinc. unfold fexp64 in *. lia. }
  pose proof (first_shift_positive m2 e' loc_Exact Hm2 Hle2 Hemin') as Hpos2.
  destruct (shr_fexp prec emax m2 e' loc_Exact) as [mrs'' e'']. simpl in Hpos2.
  destruct (shr_m mrs'') as [|p|p]; try lia.
  destruct (Z.leb e'' (emax - prec)); reflexivity.
Qed.

Lemma binary_round_nonzero (s : bool) (m : positive) (e : Z) :
  -1074 <= e -> nonzero_signed s (binary_round prec emax s m e).
Proof.
  intros Hemin. unfold binary_round. rewrite fexp_eq.
  pose proof (shl_align_spec m e (fexp64 (Zpos (digits2_pos m) + e))) as Hal.
  destruct (shl_align m e (fexp64 (Zpos (digits2_pos m) + e))) as [mz ez].
  destruct Hal as [Hshift Hkeep].
  change (Zpos (digits2_pos m)) with (Zdigits2 (Zpos m)) in *.
  destruct (Z_lt_le_dec (fexp64 (Zdigits2 (Zpos m) + e)) e) as [Hlt | Hge].
  - destruct (Hshift Hlt) as [Hmz ->].
    apply binary_round_aux_nonzero; [lia | | unfold fexp64; lia].
    rewrite Hmz, Zdigits2_mul_pow by lia.
    replace (Zdigits2 (Z.pos m) + (e - fexp64 (Zdigits2 (Z.pos m) + e)) +
             fexp64 (Zdigits2 (Z.pos m) + e)) with (Zdigits2 (Z.pos m) + e) by lia.
    lia.
  - destruct (Hkeep Hge) as [-> ->].
    apply binary_round_aux_nonzero; [lia | exact Hge | exact Hemin].
Qed.

Lemma normalize_negative (M e : Z) :
  -1074 <= e ->
  Number.lt (binary_normalize prec emax M e false) zero = (M <? 0).
Proof.
  intros Hemin. destruct M as [|p|p]; simpl binary_normalize.
  - reflexivity.
  - apply lt_zero_positive_round.
  - pose proof (binary_round_nonzero true p e Hemin) as H.
    destruct (binary_round prec emax true p e); simpl in H; try contradiction;
      subst; reflexivity.
Qed.

(** *** Exact comparison of canonical numbers *)
Lemma valid_canonical (s : bool) (m : positive) (e : Z) :
  valid (S754_finite s m e) = true -> fexp64 (Zdigits2 (Zpos m) + e) = e.
Proof.
  unfold valid. simpl. unfold bounded, canonical_mantissa.
  rewrite andb_true_iff, Z.eqb_eq. now intros [H _].
Qed.

Lemma aligned_value (m : positive) (e ez : Z) :
  ez <= e -> Zpos (fst (shl_align m e ez)) = Zpos m * 2 ^ (e - ez).
Proof.
  intros Hle. pose proof (shl_align_spec m e ez) as H.
  destruct (shl_align m e ez) as [mz ez']. simpl. destruct H as [Hshift Hkeep].
  destruct (Z_lt_le_dec ez e) as [Hlt | Hge].
  - now destruct (Hshift Hlt).
  - destruct (Hkeep Hge) as [-> _]. replace (e - ez) with 0 by lia. simpl. lia.
Qed.

Lemma canonical_lower_exponent (mx my : positive) (ex ey : Z) :
  fexp64 (Zdigits2 (Zpos mx) + ex) = ex ->
  fexp64 (Zdigits2 (Zpos my) + ey) = ey ->
  ex < ey ->
  Zpos mx < Zpos my * 2 ^ (ey - ex).
Proof.
  intros Hx Hy Hlt.
  pose proof (Zdigits2_bounds (Zpos mx) ltac:(lia)) as [_ Hxhi].
  pose proof (Zdigits2_bounds (Zpos my) ltac:(lia)) as [Hylo _].
  assert (Hdx : Zdigits2 (Zpos mx) <= 53) by (unfold fexp64 in Hx; lia).
  assert (Hdy : Zdigits2 (Zpos my) = 53) by (unfold fexp64 in Hx, Hy; lia).
  rewrite Hdy in Hylo.
  assert (H1 : 2 ^ Zdigits2 (Zpos mx) <= 2 ^ 53) by (apply Z.pow_le_mono_r; lia).
  assert (H2 : 2 ^ 1 <= 2 ^ (ey - ex)) by (apply Z.pow_le_mono_r; lia).
  change (2 ^ 53) with (2 ^ (53 - 1) * 2 ^ 1) in H1.
  assert (0 < 2 ^ (53 - 1)) by reflexivity.
  nia.
Qed.

Lemma lt_exact (sx sy : bool) (mx my : positive) (ex ey : Z) :
  valid (S754_finite sx mx ex) = true ->
  valid (S754_finite sy my ey) = true ->
  let ez := Z.min ex ey in
  Number.lt (S754_finite sx mx ex) (S754_finite sy my ey) =
  (cond_Zopp sx (Zpos (fst (shl_align mx ex ez))) <?
   cond_Zopp sy (Zpos (fst (shl_align my ey ez)))).
Proof.
  intros Hx Hy ez.
  apply valid_canonical in Hx, Hy.
  rewrite !aligned_value by (unfold ez; lia).
  unfold Number.lt, SFltb, SFcompare.
  change (Pos.compare_cont Eq mx my) with (Pos.compare mx my).
  assert (Px : 0 < 2 ^ (ex - ez)) by (apply Z.pow_pos_nonneg; unfold ez; lia).
  assert (Py : 0 < 2 ^ (ey - ez)) by (apply Z.pow_pos_nonneg; unfold ez; lia).
  symmetry.
  destruct (Z.compare_spec ex ey) as [Heq | Hlt | Hgt].
  - subst ey. replace (ex - ez) with 0 in * by (unfold ez; lia).
    rewrite !Z.pow_0_r, !Z.mul_1_r.
    destruct (Pos.compare_spec mx my); destruct sx, sy;
      unfold cond_Zopp, CompOpp; cbv iota beta;
      first [apply Z.ltb_lt; lia | apply Z.ltb_ge; lia].
  - replace ez with ex in * by (unfold ez; lia).
    replace (ex - ex) with 0 in * by lia. rewrite Z.pow_0_r, Z.mul_1_r.
    pose proof (canonical_lower_exponent mx my ex ey Hx Hy Hlt).
    destruct sx, sy; unfold cond_Zopp; cbv iota beta;
      first [apply Z.ltb_lt; lia | apply Z.ltb_ge; lia].
  - replace ez with ey in * by (unfold ez; lia).
    replace (ey - ey) with 0 in * by lia. rewrite Z.pow_0_r, Z.mul_1_r.
    pose proof (canonical_lower_exponent my mx ey ex Hy Hx ltac:(lia)).
    destruct sx, sy; unfold cond_Zopp; cbv iota beta;
      first [apply Z.ltb_lt; lia | apply Z.ltb_ge; lia].
Qed.

Lemma valid_exponent (s : bool) (m : positive) (e : Z) :
  valid (S754_finite s m e) = true -> -1074 <= e.
Proof. intros H. apply valid_canonical in H. unfold fexp64 in H. lia. Qed.

(** The sign of a difference tells the order. *)
Lemma sub_negative (x y : number) :
  valid x = true -> valid y = true ->
  Number.lt (sub x y) zero = Number.lt x y.
Proof.
  intros Hx Hy.
  destruct x as [sx|sx| |sx mx ex], y as [sy|sy| |sy my ey];
    try reflexivity; try (now destruct sx, sy); try (now destruct sx);
    try (now destruct sy).
  rewrite (lt_exact sx sy mx my ex ey Hx Hy). cbv zeta.
  unfold sub, SFsub.
  rewrite normalize_negative.
  - set (X := cond_Zopp sx _). set (Y := cond_Zopp sy _).
    destruct (Z.ltb_spec (X - Y) 0); symmetry; [apply Z.ltb_lt | apply Z.ltb_ge]; lia.
  - apply valid_exponent in Hx, Hy. lia.
Qed.

Lemma normalize_not_negative_zero (M e : Z) :
  -1074 <= e -> binary_normalize prec emax M e false <> S754_zero true.
Proof.
  intros He. destruct M as [|p|p]; simpl binary_normalize.
  - congruence.
  - pose proof (binary_round_nonzero false p e He) as H.
    destruct (binary_round prec emax false p e); simpl in H;
      try contradiction; congruence.
  - pose proof (binary_round_nonzero true p e He) as H.
    destruct (binary_round prec emax true p e); simpl in H;
      try contradiction; congruence.
Qed.

(** A sum that starts away from [-0] stays away from it. *)
Lemma add_not_negative_zero (x p : number) :
  valid x = true -> valid p = true ->
  x <> S754_zero true -> isFinite p = true ->
  add x p <> S754_zero true.
Proof.
  intros Vx Vp Hx Hp.
  destruct x as [sx|sx| |sx mx ex], p as [sp|sp| |sp mp ep];
    try discriminate; try congruence.
  - destruct sx, sp; simpl; congruence.
  - unfold add, SFadd. apply normalize_not_negative_zero.
    apply valid_exponent in Vx, Vp. lia.
Qed.

(** ** Revenue per key *)

Section Aggregation.
Variable key : Order -> string.

Lemma get_fold (data : list Order) (o : Obj.t number) (k : string) :
  Obj.get
    (fold_left
       (fun acc item =>
          Obj.set acc (key item)
                  (add (or_zero (Obj.get acc (key item))) (parsed_total item)))
       data o) k =
  fold_left (step_for key k) data (Obj.get o k).
Proof.
  revert o. induction data as [|item data IH]; intros o; simpl; [reflexivity|].
  rewrite IH, get_set. f_equal. unfold step_for.
  destruct (String.eqb (key item) k) eqn:E; [|reflexivity].
  apply String.eqb_eq in E. now rewrite E.
Qed.

Lemma fold_NoDup (data : list Order) (o : Obj.t number) :
  NoDup (map fst o) ->
  NoDup (map fst
    (fold_left
       (fun acc item =>
          Obj.set acc (key item)
                  (add (or_zero (Obj.get acc (key item))) (parsed_total item)))
       data o)).
Proof.
  revert o. induction data as [|item data IH]; intros o Hnd; simpl; [exact Hnd|].
  apply IH. now apply set_NoDup.
Qed.

Lemma aggregate_NoDup (data : list Order) : NoDup (map fst (aggregate key data)).
Proof. apply fold_NoDup. constructor. Qed.

Lemma get_aggregate (data : list Order) (k : string) :
  Obj.get (aggregate key data) k = fold_left (step_for key k) data None.
Proof. unfold aggregate. now rewrite get_fold. Qed.

Lemma step_for_present (data : list Order) (k : string) (v : option number) :
  (v <> None \/ exists item, In item data /\ key item = k) <->
  fold_left (step_for key k) data v <> None.
Proof.
  revert v. induction data as [|item data IH]; intros v; simpl.
  - split; [intros [H | (? & [] & _)]; exact H | now left].
  - rewrite <- IH. unfold step_for.
    destruct (String.eqb (key item) k) eqn:E.
    + apply String.eqb_eq in E. split.
      * intros _. left. discriminate.
      * intros _. right. exists item. auto.
    + apply String.eqb_neq in E. split.
      * intros [H | (it & [<- | Hin] & Hk)]; [now left | contradiction | right; eauto].
      * intros [H | (it & Hin & Hk)]; [now left | right; eauto].
Qed.

Lemma or_zero_tracked (x s : number) :
  tracks (Some x) s -> or_zero (Some x) = x.
Proof.
  intros (_ & _ & Hnan & Hnz). simpl.
  destruct x as [[|]| | |]; try reflexivity; try discriminate.
  now contradiction Hnz.
Qed.

Lemma step_tracks (v : option number) (s p : number) :
  tracks v s -> valid p = true -> isFinite p = true ->
  tracks (Some (add (or_zero v) p)) (add s p).
Proof.
  intros Hv Vp Hp.
  assert (H : or_zero v = s /\ valid s = true /\ isNaN s = false /\ s <> S754_zero true).
  { destruct v as [x|].
    - rewrite (or_zero_tracked x s Hv). destruct Hv as (<- & ? & ? & ?). auto.
    - simpl in Hv. subst s. repeat split. discriminate. }
  destruct H as (-> & Vs & Ns & Zs). repeat split.
  - now apply add_valid.
  - now apply add_not_NaN.
  - now apply add_not_negative_zero.
Qed.

Lemma step_for_tracks (data : list Order) (k : string) (v : option number) (s : number) :
  finite_totals data -> tracks v s ->
  tracks (fold_left (step_for key k) data v)
         (fold_left add
                    (map parsed_total
                         (filter (fun item => String.eqb (key item) k) data)) s).
Proof.
  revert v s. induction data as [|item data IH]; intros v s Hfin Hv; simpl.
  - exact Hv.
  - inversion Hfin as [|? ? Hp Hfin']; subst.
    unfold step_for at 2. destruct (String.eqb (key item) k); simpl.
    + apply IH; [exact Hfin'|].
      apply step_tracks; [exact Hv | apply parseFloat_valid | exact Hp].
    + now apply IH.
Qed.

(** Under the invariant of the record model, the property of a key holds
    the summed revenue of that key, and it is a number. *)
Lemma aggregate_value (data : list Order) (k : string) (v : number) :
  finite_totals data ->
  Obj.get (aggregate key data) k = Some v ->
  v = revenue_of key data k /\ isNaN v = false.
Proof.
  intros Hfin Hget. rewrite get_aggregate in Hget.
  pose proof (step_for_tracks data k None zero Hfin eq_refl) as H.
  rewrite Hget in H. destruct H as (H1 & _ & H2 & _). now split.
Qed.

Lemma aggregate_keys (data : list Order) (k : string) :
  In k (Obj.keys (aggregate key data)) <-> exists item, In item data /\ key item = k.
Proof.
  unfold Obj.keys. rewrite in_map_iff. split.
  - intros ([k' v] & <- & Hin). simpl.
    apply (proj1 (entries_In _ _)) in Hin.
    apply In_get in Hin; [|apply aggregate_NoDup].
    rewrite get_aggregate in Hin.
    assert (H : fold_left (step_for key k') data None <> None) by congruence.
    apply step_for_present in H. destruct H as [H | H]; [congruence | exact H].
  - intros Hex.
    assert (H : fold_left (step_for key k) data None <> None).
    { apply step_for_present. now right. }
    rewrite <- get_aggregate in H.
    destruct (Obj.get (aggregate key data) k) as [v|] eqn:G; [|congruence].
    exists (k, v). split; [reflexivity|].
    apply (proj2 (entries_In _ _)). now apply get_In.
Qed.

Lemma keys_get (data : list Order) (k : string) :
  In k (Obj.keys (aggregate key data)) <-> Obj.get (aggregate key data) k <> None.
Proof.
  rewrite aggregate_keys, get_aggregate, <- step_for_present.
  split; [now right | intros [H | H]; [congruence | exact H]].
Qed.
End Aggregation.

(** *** Validity of the aggregated values *)
Lemma or_zero_valid (v : option number) :
  (forall x, v = Some x -> valid x = true) -> valid (or_zero v) = true.
Proof.
  intros H. destruct v as [x|]; simpl; [|reflexivity].
  destruct (truthy x); [now apply H | reflexivity].
Qed.

Lemma set_values {V : Type} (P : V -> Prop) (o : Obj.t V) (k : string) (v : V) :
  Forall (fun p => P (snd p)) o -> P v ->
  Forall (fun p => P (snd p)) (Obj.set o k v).
Proof.
  intros Ho Hv. induction Ho as [|[k0 v0] o H0 Ho IH]; simpl.
  - now repeat constructor.
  - destruct (String.eqb k0 k); constructor; auto.
Qed.

Lemma fold_valid (key : Order -> string) (data : list Order) (o : Obj.t number) :
  Forall (fun p => valid (snd p) = true) o ->
  Forall (fun p => valid (snd p) = true)
         (fold_left
            (fun acc item =>
               Obj.set acc (key item)
                       (add (or_zero (Obj.get acc (key item))) (parsed_total item)))
            data o).
Proof.
  revert o. induction data as [|item data IH]; intros o Ho; simpl; [exact Ho|].
  apply IH. apply (set_values (fun v => valid v = true)); [exact Ho|].
  apply add_valid; [|apply parseFloat_valid].
  apply or_zero_valid. intros x Hx.
  apply get_In in Hx. rewrite Forall_forall in Ho. now apply (Ho _ Hx).
Qed.

Lemma aggregate_valid (key : Order -> string) (data : list Order) :
  Forall (fun p => valid (snd p) = true) (aggregate key data).
Proof. apply fold_valid. constructor. Qed.

(** The comparison function of the ranking orders by revenue. *)
Lemma by_revenue_order (a b : string * number) :
  valid (snd a) = true -> valid (snd b) = true ->
  ArraySort.precedes by_revenue_descending a b = gt (snd a) (snd b).
Proof.
  intros Ha Hb. unfold ArraySort.precedes, by_revenue_descending.
  now rewrite sub_negative.
Qed.


Lemma gt_asym (x y : number) : gt x y = true -> gt y x = false.
Proof.
  intros H. destruct (gt y x) eqn:E; [|reflexivity].
  pose proof (gt_trans _ _ _ H E) as Hxx. now rewrite gt_irrefl in Hxx.
Qed.

(** ** The reduction to the top key *)

Section TopFold.
Variable g : string -> number.

Lemma top_fold (l : list string) (a0 : string) :
  (forall k, In k l -> isNaN (g k) = false) ->
  let r := fold_left (pick g) l a0 in
  (r = a0 /\ forall k, In k l -> gt (g a0) (g k) = true) \/
  (exists l1 l2,
      l = (l1 ++ r :: l2)%list /\
      (forall k, In k l1 -> gt (g k) (g r) = false) /\
      (forall k, In k l2 -> gt (g r) (g k) = true) /\
      gt (g a0) (g r) = false).
Proof.
  induction l as [|b l IH] using rev_ind; intros Hnan; simpl.
  - left. split; [reflexivity | contradiction].
  - rewrite fold_left_app. simpl.
    assert (Hnan' : forall k, In k l -> isNaN (g k) = false).
    { intros k Hk. apply Hnan, in_or_app. now left. }
    assert (Nb : isNaN (g b) = false).
    { apply Hnan, in_or_app. right. now left. }
    specialize (IH Hnan'). cbv zeta in IH.
    set (r' := fold_left (pick g) l a0) in *.
    replace (pick g r' b) with (if gt (g r') (g b) then r' else b) by reflexivity.
    destruct (gt (g r') (g b)) eqn:Hrb.
    + destruct IH as [[Hr Hall] | (l1 & l2 & Hl & H1 & H2 & H0)].
      * left. split; [exact Hr|].
        intros k Hk. apply in_app_or in Hk. destruct Hk as [Hk | [<- | []]].
        -- now apply Hall.
        -- now rewrite <- Hr.
      * right. exists l1, (l2 ++ [b])%list. repeat split.
        -- rewrite Hl, <- app_assoc. reflexivity.
        -- exact H1.
        -- intros k Hk. apply in_app_or in Hk. destruct Hk as [Hk | [<- | []]];
             [now apply H2 | exact Hrb].
        -- exact H0.
    + right. exists l, []. repeat split.
      * intros k Hk.
        destruct IH as [[Hr Hall] | (l1 & l2 & Hl & H1 & H2 & H0)].
        -- destruct (gt (g k) (g b)) eqn:Hkb; [|reflexivity].
           rewrite Hr in Hrb.
           now rewrite (gt_trans _ _ _ (Hall k Hk) Hkb) in Hrb.
        -- assert (Nr : isNaN (g r') = false).
           { apply Hnan'. rewrite Hl. apply in_or_app. right. now left. }
           rewrite Hl in Hk. apply in_app_or in Hk.
           destruct Hk as [Hk | [<- | Hk]].
           ++ now apply (gt_neg_trans _ (g r') _ Nr (H1 k Hk)).
           ++ exact Hrb.
           ++ destruct (gt (g k) (g b)) eqn:Hkb; [|reflexivity].
              now rewrite (gt_trans _ _ _ (H2 k Hk) Hkb) in Hrb.
      * intros k [].
      * destruct IH as [[Hr Hall] | (l1 & l2 & Hl & H1 & H2 & H0)].
        -- now rewrite <- Hr.
        -- assert (Nr : isNaN (g r') = false).
           { apply Hnan'. rewrite Hl. apply in_or_app. right. now left. }
           now apply (gt_neg_trans _ (g r') _ Nr H0).
Qed.
End TopFold.

(** ** The sort *)

Section SortPermutation.
Context {A : Type} (comparefn : A -> A -> number).

Lemma insert_perm (x : A) (placed : list A) :
  Permutation (ArraySort.insert comparefn x placed) (x :: placed).
Proof.
  induction placed as [|p rest IH]; simpl; [reflexivity|].
  destruct (ArraySort.precedes comparefn x p); [|reflexivity].
  rewrite IH. apply perm_swap.
Qed.

Lemma sort_perm (l : list A) : Permutation (ArraySort.sort comparefn l) l.
Proof.
  unfold ArraySort.sort. rewrite <- Permutation_rev.
  assert (H : forall placed,
             Permutation (fold_left (fun placed x => ArraySort.insert comparefn x placed) l placed)
                         (l ++ placed)).
  { induction l as [|x l IH]; intros placed; simpl; [reflexivity|].
    rewrite IH, insert_perm. symmetry. apply Permutation_middle. }
  rewrite H. now rewrite app_nil_r.
Qed.
End SortPermutation.

Lemma StronglySorted_snoc {A : Type} (R : A -> A -> Prop) (l : list A) (x : A) :
  StronglySorted R l -> Forall (fun y => R y x) l -> StronglySorted R (l ++ [x]).
Proof.
  induction 1 as [|a l Hl IH Ha]; intros Hx; simpl.
  - repeat constructor.
  - inversion Hx as [|? ? Hax Hlx]; subst. constructor.
    + now apply IH.
    + apply Forall_app. split; [exact Ha | now constructor].
Qed.

Lemma StronglySorted_rev {A : Type} (R : A -> A -> Prop) (l : list A) :
  StronglySorted (fun x y => R y x) l -> StronglySorted R (rev l).
Proof.
  induction 1 as [|a l Hl IH Ha]; simpl; [constructor|].
  apply StronglySorted_snoc; [exact IH|].
  apply Forall_rev. exact Ha.
Qed.

Lemma StronglySorted_firstn {A : Type} (R : A -> A -> Prop) (n : nat) (l : list A) :
  StronglySorted R l -> StronglySorted R (firstn n l).
Proof.
  intros H. revert n. induction H as [|a l Hl IH Ha]; intros [|n]; simpl;
    try constructor.
  - apply IH.
  - rewrite Forall_forall in *. intros y Hy. apply Ha.
    rewrite <- (firstn_skipn n l). apply in_or_app. now left.
Qed.

Section SortOrder.
Context {A : Type} (comparefn : A -> A -> number) (val : A -> number).
Variable good : A -> Prop.
Hypothesis compare_val :
  forall a b, good a -> good b ->
              ArraySort.precedes comparefn a b = gt (val a) (val b).
Hypothesis good_number : forall a, good a -> isNaN (val a) = false.

Lemma insert_sorted (x : A) (placed : list A) :
  good x -> Forall good placed ->
  StronglySorted (fun later earlier => gt (val later) (val earlier) = false) placed ->
  StronglySorted (fun later earlier => gt (val later) (val earlier) = false)
                 (ArraySort.insert comparefn x placed).
Proof.
  intros Hx Hgood Hsorted.
  induction Hsorted as [|p rest Hrest IH Hp]; simpl.
  - repeat constructor.
  - inversion Hgood as [|? ? Hgp Hgrest]; subst.
    rewrite (compare_val x p Hx Hgp).
    destruct (gt (val x) (val p)) eqn:E.
    + constructor; [now apply IH|].
      rewrite Forall_forall in *. intros y Hy.
      apply (Permutation_in _ (insert_perm comparefn x rest)) in Hy.
      destruct Hy as [<- | Hy]; [now apply gt_asym | now apply Hp].
    + constructor; [now constructor|].
      constructor; [exact E|].
      rewrite Forall_forall in *. intros y Hy.
      apply (gt_neg_trans _ (val p)); [now apply good_number | exact E | now apply Hp].
Qed.

Lemma sort_sorted (l : list A) :
  Forall good l ->
  StronglySorted (fun x y => gt (val y) (val x) = false) (ArraySort.sort comparefn l).
Proof.
  intros Hgood. unfold ArraySort.sort. apply StronglySorted_rev.
  assert (H : forall placed,
             Forall good placed ->
             StronglySorted (fun later earlier => gt (val later) (val earlier) = false) placed ->
             Forall good (fold_left (fun placed x => ArraySort.insert comparefn x placed) l placed) /\
             StronglySorted (fun later earlier => gt (val later) (val earlier) = false)
               (fold_left (fun placed x => ArraySort.insert comparefn x placed) l placed)).
  { induction l as [|x l IH]; intros placed Hp Hs; simpl; [now split|].
    inversion Hgood as [|? ? Hx Hl]; subst.
    apply IH; [exact Hl | | now apply insert_sorted].
    rewrite Forall_forall in *. intros y Hy.
    apply (Permutation_in _ (insert_perm comparefn x placed)) in Hy.
    destruct Hy as [<- | Hy]; [exact Hx | now apply Hp]. }
  apply H; constructor.
Qed.
End SortOrder.


(** ** The top category *)

Lemma or_default_nonempty (v : option string) (d : string) :
  d <> "" -> or_default v d <> "".
Proof.
  intros Hd. destruct v as [[|c s]|]; simpl; try exact Hd. discriminate.
Qed.

Lemma or_default_some (s d : string) : s <> "" -> or_default (Some s) d = s.
Proof. destruct s; simpl; [congruence | reflexivity]. Qed.

Lemma category_value (data : list Order) (k : string) :
  finite_totals data ->
  In k (Obj.keys (revenueByCategory data)) ->
  to_number (Obj.get (revenueByCategory data) k) = revenue_of category_key data k /\
  isNaN (revenue_of category_key data k) = false.
Proof.
  intros Hfin Hin.
  change (revenueByCategory data) with (aggregate category_key data) in *.
  apply keys_get in Hin.
  destruct (Obj.get (aggregate category_key data) k) as [v|] eqn:G; [|congruence].
  destruct (aggregate_value category_key data k v Hfin G) as [Hv Hn].
  simpl. now rewrite <- Hv.
Qed.

Lemma topCategory_position (data : list Order) :
  finite_totals data -> data <> [] ->
  exists before after,
    Obj.keys (revenueByCategory data) = (before ++ topCategory data :: after)%list /\
    (forall k, In k before ->
               gt (revenue_of category_key data k)
                  (revenue_of category_key data (topCategory data)) = false) /\
    (forall k, In k after ->
               gt (revenue_of category_key data (topCategory data))
                  (revenue_of category_key data k) = true).
Proof.
  intros Hfin Hdata.
  set (g := fun k => to_number (Obj.get (revenueByCategory data) k)).
  assert (Hval : forall k, In k (Obj.keys (revenueByCategory data)) ->
                           g k = revenue_of category_key data k).
  { intros k Hk. now apply category_value. }
  assert (Hnan : forall k, In k (Obj.keys (revenueByCategory data)) ->
                           isNaN (g k) = false).
  { intros k Hk. rewrite (Hval k Hk). now apply category_value. }
  pose proof (top_fold g (Obj.keys (revenueByCategory data)) "None" Hnan) as Htop.
  cbv zeta in Htop.
  change (fold_left (pick g) (Obj.keys (revenueByCategory data)) "None")
    with (topCategory data) in Htop.
  destruct Htop as [[Hnone Hall] | (l1 & l2 & Hkeys & H1 & H2 & _)].
  - exfalso.
    destruct data as [|first rest]; [congruence|].
    assert (Hfirst : In (category_key first) (Obj.keys (revenueByCategory (first :: rest)))).
    { apply (aggregate_keys category_key). exists first. split; [now left | reflexivity]. }
    pose proof (Hall _ Hfirst) as Hgt.
    assert (Hin : In "None" (Obj.keys (revenueByCategory (first :: rest)))).
    { apply (keys_get category_key). unfold g in Hgt.
      change (aggregate category_key (first :: rest))
        with (revenueByCategory (first :: rest)).
      destruct (Obj.get (revenueByCategory (first :: rest)) "None"); [discriminate|].
      simpl in Hgt. now destruct (to_number _). }
    pose proof (Hall _ Hin) as Hself. now rewrite gt_irrefl in Hself.
  - assert (Htopin : In (topCategory data) (Obj.keys (revenueByCategory data))).
    { rewrite Hkeys. apply in_or_app. right. now left. }
    exists l1, l2. split; [exact Hkeys|]. split.
    + intros k Hk.
      assert (Hkin : In k (Obj.keys (revenueByCategory data))).
      { rewrite Hkeys. apply in_or_app. now left. }
      rewrite <- (Hval k Hkin), <- (Hval _ Htopin). now apply H1.
    + intros k Hk.
      assert (Hkin : In k (Obj.keys (revenueByCategory data))).
      { rewrite Hkeys. apply in_or_app. right. now right. }
      rewrite <- (Hval k Hkin), <- (Hval _ Htopin). now apply H2.
Qed.

(** The names the script files the records under are the names spelled
    out above. *)
Lemma category_key_name (item : Order) : category_key item = category_name item.
Proof.
  unfold category_key, category_name, or_default.
  destruct (categories item) as [[|c s]|]; reflexivity.
Qed.

Lemma product_key_name (item : Order) : product_key item = product_name item.
Proof.
  unfold product_key, product_name, or_default.
  destruct (product_names item) as [[|c s]|]; reflexivity.
Qed.

Lemma revenue_of_ext (key key' : Order -> string) (data : list Order) (k : string) :
  (forall item, key item = key' item) ->
  revenue_of key data k = revenue_of key' data k.
Proof.
  intros H. unfold revenue_of. f_equal. f_equal.
  apply filter_ext. intros item. now rewrite H.
Qed.

(** The top category, in terms of the script's own keys. *)
Lemma top_category_by_key (data : list Order) (w : World) :
  finite_totals data ->
  (data = [] -> top_category (updateKeyMetrics data w) = "None") /\
  (data <> [] ->
   let top := top_category (updateKeyMetrics data w) in
   let revenue := revenue_of category_key data in
   (exists item, In item data /\ category_key item = top) /\
   (forall item, In item data -> gt (revenue (category_key item)) (revenue top) = false) /\
   exists before after,
     Obj.keys (revenueByCategory data) = (before ++ top :: after)%list /\
     forall k, In k after -> gt (revenue top) (revenue k) = true).
Proof.
  intros Hfin. split.
  - intros ->. reflexivity.
  - intros Hdata.
    destruct (topCategory_position data Hfin Hdata)
      as (before & after & Hkeys & Hbefore & Hafter).
    assert (Htopin : In (topCategory data) (Obj.keys (revenueByCategory data))).
    { rewrite Hkeys. apply in_or_app. right. now left. }
    apply (aggregate_keys category_key) in Htopin.
    destruct Htopin as (witness & Hwin & Hwkey).
    assert (Hshown : top_category (updateKeyMetrics data w) = topCategory data).
    { simpl. apply or_default_some. rewrite <- Hwkey.
      now apply or_default_nonempty. }
    cbv zeta. rewrite Hshown. split; [|split].
    + now exists witness.
    + intros item Hitem.
      assert (Hin : In (category_key item) (Obj.keys (revenueByCategory data))).
      { apply (aggregate_keys category_key). now exists item. }
      rewrite Hkeys in Hin. apply in_app_or in Hin.
      destruct Hin as [Hin | [<- | Hin]].
      * now apply Hbefore.
      * apply gt_irrefl.
      * apply gt_asym. now apply Hafter.
    + now exists before, after.
Qed.

(** C3, as amended: for every collection whose totals parse to finite
    numbers and in which no category is named like a member of
    [Object.prototype], the top category written by the metrics update is
    "None" when the collection is empty; otherwise it is a category of the
    collection (an absent or empty category counting as "Uncategorized")
    whose summed revenue no other category exceeds, and among categories of
    equal maximal summed revenue it is the last one in the iteration order
    of the revenue object's keys: every key after it has a strictly smaller
    summed revenue. *)
Theorem top_category_last_maximal (data : list Order) (w : World) :
  finite_totals data ->
  plain_names category_name data ->
  (data = [] -> top_category (updateKeyMetrics data w) = "None") /\
  (data <> [] ->
   let top := top_category (updateKeyMetrics data w) in
   let revenue := revenue_of category_name data in
   (exists item, In item data /\ category_name item = top) /\
   (forall item, In item data -> gt (revenue (category_name item)) (revenue top) = false) /\
   exists before after,
     Obj.keys (revenueByCategory data) = (before ++ top :: after)%list /\
     forall k, In k after -> gt (revenue top) (revenue k) = true).
Proof.
  intros Hfin _.
  destruct (top_category_by_key data w Hfin) as [Hempty Hsome].
  split; [exact Hempty|].
  intros Hdata. specialize (Hsome Hdata). cbv zeta in *.
  destruct Hsome as ((item & Hitem & Hkey) & Hmax & before & after & Hkeys & Hafter).
  split; [|split].
  - exists item. split; [exact Hitem|]. now rewrite <- category_key_name.
  - intros item' Hitem'.
    rewrite <- category_key_name,
      <- !(revenue_of_ext category_key category_name data _ category_key_name).
    now apply Hmax.
  - exists before, after. split; [exact Hkeys|].
    intros k Hk.
    rewrite <- !(revenue_of_ext category_key category_name data _ category_key_name).
    now apply Hafter.
Qed.

(** ** The top products *)

Lemma firstn_at_most {A : Type} (n : nat) (l : list A) :
  (List.length (firstn n l) <= n)%nat.
Proof. rewrite length_firstn. lia. Qed.

Lemma In_firstn {A : Type} (n : nat) (l : list A) (x : A) :
  In x (firstn n l) -> In x l.
Proof.
  intros H. rewrite <- (firstn_skipn n l). apply in_or_app. now left.
Qed.

Lemma productRevenue_entries_good (data : list Order) :
  finite_totals data ->
  Forall (fun p => valid (snd p) = true /\ isNaN (snd p) = false)
         (Obj.entries (productRevenue data)).
Proof.
  intros Hfin. apply Forall_forall. intros [name v] Hin.
  apply (proj1 (entries_In _ _)) in Hin. simpl. split.
  - pose proof (aggregate_valid product_key data) as Hvalid.
    rewrite Forall_forall in Hvalid. now apply (Hvalid (name, v)).
  - apply In_get in Hin; [|apply (aggregate_NoDup product_key)].
    exact (proj2 (aggregate_value product_key data name v Hfin Hin)).
Qed.

(** C4, as amended: the top-products list never has more than ten entries;
    and for every collection whose totals parse to finite numbers and in
    which no product is named like a member of [Object.prototype], it is
    the first ten entries of a ranking that has exactly one entry per
    product name of the collection (an absent or empty name counting as
    "Unknown Product"), in which the value of an entry is the sum of the
    parsed totals of all the records of that product, and which is in
    descending order of these sums: no entry has a greater revenue than an
    entry before it. *)
Theorem topProducts_spec (data : list Order) :
  (List.length (topProducts data) <= 10)%nat /\
  (finite_totals data ->
   plain_names product_name data ->
   exists ranked,
     topProducts data = firstn 10 ranked /\
     NoDup (map fst ranked) /\
     (forall name,
         In name (map fst ranked) <->
         exists item, In item data /\ product_name item = name) /\
     (forall name v,
         In (name, v) ranked -> v = revenue_of product_name data name) /\
     Descending ranked).
Proof.
  split; [apply firstn_at_most|].
  intros Hfin _.
  set (ranked := ArraySort.sort by_revenue_descending
                                (Obj.entries (productRevenue data))).
  assert (Hperm : Permutation ranked (Obj.entries (productRevenue data)))
    by apply sort_perm.
  exists ranked. split; [reflexivity|]. split; [|split; [|split]].
  - eapply Permutation_NoDup.
    + symmetry. apply Permutation_map, Hperm.
    + apply keys_NoDup, (aggregate_NoDup product_key).
  - intros name.
    transitivity (In name (Obj.keys (productRevenue data))).
    + unfold Obj.keys. split; apply Permutation_in, Permutation_map;
        [exact Hperm | symmetry; exact Hperm].
    + rewrite (aggregate_keys product_key data name).
      split; intros (item & Hitem & Hname); exists item;
        (split; [exact Hitem|]); now rewrite product_key_name in *.
  - intros name v Hin.
    apply (Permutation_in _ Hperm) in Hin.
    apply (proj1 (entries_In _ _)) in Hin.
    apply In_get in Hin; [|apply (aggregate_NoDup product_key)].
    rewrite <- (revenue_of_ext product_key product_name data name product_key_name).
    exact (proj1 (aggregate_value product_key data name v Hfin Hin)).
  - apply (sort_sorted by_revenue_descending snd
                       (fun p => valid (snd p) = true /\ isNaN (snd p) = false)).
    + intros x y [Hx _] [Hy _]. now apply by_revenue_order.
    + now intros x [_ Hx].
    + now apply productRevenue_entries_good.
Qed.

(** ** Order dates *)

Lemma all_valid_spec (dates : list time_value) (l : list Z) :
  all_valid dates = Some l <-> dates = map Some l.
Proof.
  revert l. induction dates as [|[t|] dates IH]; intros l; simpl.
  - split; [intros [= <-]; reflexivity | destruct l; [reflexivity | discriminate]].
  - destruct (all_valid dates) as [l'|] eqn:E; simpl.
    + split.
      * intros [= <-]. simpl. f_equal. now apply IH.
      * destruct l as [|x l]; [discriminate|]. simpl. intros [= -> H].
        apply IH in H. congruence.
    + split; [discriminate|].
      destruct l as [|x l]; [discriminate|]. simpl. intros [= -> H].
      apply IH in H. discriminate.
  - split; [discriminate | destruct l; discriminate].
Qed.

Lemma all_valid_invalid (dates : list time_value) :
  In None dates -> all_valid dates = None.
Proof.
  intros H. destruct (all_valid dates) as [l|] eqn:E; [|reflexivity].
  apply all_valid_spec in E. subst. apply in_map_iff in H.
  destruct H as (x & Hx & _). discriminate.
Qed.

Lemma all_valid_total (dates : list time_value) :
  (forall d, In d dates -> d <> None) -> exists l, all_valid dates = Some l.
Proof.
  induction dates as [|[t|] dates IH]; intros H; simpl.
  - now exists [].
  - destruct IH as [l ->]; [intros d Hd; apply H; now right|].
    now exists (t :: l).
  - exfalso. now apply (H None); [left|].
Qed.

Lemma fold_min_spec (ts : list Z) (t : Z) :
  In (fold_left Z.min ts t) (t :: ts) /\
  forall x, In x (t :: ts) -> fold_left Z.min ts t <= x.
Proof.
  revert t. induction ts as [|a ts IH]; intros t; simpl.
  - split; [now left | intros x [<- | []]; lia].
  - destruct (IH (Z.min t a)) as [Hin Hle]. split.
    + destruct Hin as [H | H]; [|now right; right].
      rewrite <- H. destruct (Z.min_spec t a) as [[_ ->] | [_ ->]]; auto.
    + intros x [<- | [<- | Hx]].
      * specialize (Hle (Z.min t a) (or_introl eq_refl)). lia.
      * specialize (Hle (Z.min t a) (or_introl eq_refl)). lia.
      * apply Hle. now right.
Qed.

Lemma fold_max_spec (ts : list Z) (t : Z) :
  In (fold_left Z.max ts t) (t :: ts) /\
  forall x, In x (t :: ts) -> x <= fold_left Z.max ts t.
Proof.
  revert t. induction ts as [|a ts IH]; intros t; simpl.
  - split; [now left | intros x [<- | []]; lia].
  - destruct (IH (Z.max t a)) as [Hin Hle]. split.
    + destruct Hin as [H | H]; [|now right; right].
      rewrite <- H. destruct (Z.max_spec t a) as [[_ ->] | [_ ->]]; auto.
    + intros x [<- | [<- | Hx]].
      * specialize (Hle (Z.max t a) (or_introl eq_refl)). lia.
      * specialize (Hle (Z.max t a) (or_introl eq_refl)). lia.
      * apply Hle. now right.
Qed.

Lemma TimeClip_Some (t t' : Z) : TimeClip t = Some t' -> t' = t.
Proof. unfold TimeClip. destruct (Z.abs t <=? _); congruence. Qed.

Lemma TimeClip_in_range (t : Z) : Z.abs t <= maxTime -> TimeClip t = Some t.
Proof.
  unfold TimeClip, maxTime. intros H.
  now replace (Z.abs t <=? 8640000000000000) with true by (symmetry; apply Z.leb_le; exact H).
Qed.

Lemma Date_of_min_spec (dates : list time_value) (t : Z) :
  Date_of_min dates = Some t ->
  In (Some t) dates /\
  forall d, In d dates -> exists x, d = Some x /\ t <= x.
Proof.
  unfold Date_of_min. destruct (all_valid dates) as [[|t0 ts]|] eqn:E; try discriminate.
  intros H. apply TimeClip_Some in H. subst t.
  apply all_valid_spec in E. subst dates.
  destruct (fold_min_spec ts t0) as [Hin Hle]. split.
  - now apply (in_map Some) in Hin.
  - intros d Hd. apply in_map_iff in Hd. destruct Hd as (x & <- & Hx).
    exists x. split; [reflexivity | now apply Hle].
Qed.

Lemma Date_of_max_spec (dates : list time_value) (t : Z) :
  Date_of_max dates = Some t ->
  In (Some t) dates /\
  forall d, In d dates -> exists x, d = Some x /\ x <= t.
Proof.
  unfold Date_of_max. destruct (all_valid dates) as [[|t0 ts]|] eqn:E; try discriminate.
  intros H. apply TimeClip_Some in H. subst t.
  apply all_valid_spec in E. subst dates.
  destruct (fold_max_spec ts t0) as [Hin Hle]. split.
  - now apply (in_map Some) in Hin.
  - intros d Hd. apply in_map_iff in Hd. destruct Hd as (x & <- & Hx).
    exists x. split; [reflexivity | now apply Hle].
Qed.

Lemma Date_of_min_invalid (dates : list time_value) :
  In None dates -> Date_of_min dates = None.
Proof. intros H. unfold Date_of_min. now rewrite all_valid_invalid. Qed.

(** Valid dates, at least one of them: both bounds are dates. *)
Lemma Date_bounds_valid (dates : list time_value) :
  dates <> [] ->
  (forall d, In d dates -> exists t, d = Some t /\ Z.abs t <= maxTime) ->
  exists tmin tmax, Date_of_min dates = Some tmin /\ Date_of_max dates = Some tmax.
Proof.
  intros Hne Hall.
  destruct (all_valid_total dates) as [l Hl].
  { intros d Hd. destruct (Hall d Hd) as (t & -> & _). discriminate. }
  pose proof (proj1 (all_valid_spec dates l) Hl) as Hmap.
  destruct l as [|t0 ts]; [subst dates; now contradiction Hne|].
  assert (Hrange : forall x, In x (t0 :: ts) -> Z.abs x <= maxTime).
  { intros x Hx. destruct (Hall (Some x)) as (t & [= <-] & Ht); [|exact Ht].
    rewrite Hmap. now apply in_map. }
  exists (fold_left Z.min ts t0), (fold_left Z.max ts t0).
  unfold Date_of_min, Date_of_max. rewrite Hl. split; apply TimeClip_in_range.
  - apply Hrange. apply fold_min_spec.
  - apply Hrange. apply fold_max_spec.
Qed.

Lemma filter_all {A : Type} (f : A -> bool) (l : list A) :
  (forall x, In x l -> f x = true) -> filter f l = l.
Proof.
  induction l as [|x l IH]; simpl; intros H; [reflexivity|].
  rewrite (H x (or_introl eq_refl)). f_equal. apply IH. intros y Hy. apply H. now right.
Qed.

Lemma filter_length_lt {A : Type} (f : A -> bool) (l : list A) (x : A) :
  In x l -> f x = false -> (List.length (filter f l) < List.length l)%nat.
Proof.
  induction l as [|a l IH]; simpl; [contradiction|].
  intros [-> | Hin] Hx.
  - rewrite Hx. pose proof (filter_length_le f l). lia.
  - specialize (IH Hin Hx). destruct (f a); simpl; lia.
Qed.

Section DateProperties.

Variable Date_parse : string -> time_value.
Variable flatpickr_parseDate : string -> option Z.

(** X1: an order date written day/month/year (three fields without a
    slash) is handed to the date parser as year-month-day: the fields are
    reversed and joined with dashes, whatever they contain. *)
Theorem itemDate_reverses_day_month_year (item : Order) (d m y : string) :
  order_date item = d ++ "/" ++ m ++ "/" ++ y ->
  contains "/" d = false -> contains "/" m = false -> contains "/" y = false ->
  itemDate Date_parse item = Date_parse (y ++ "-" ++ m ++ "-" ++ d).
Proof.
  intros Hdate Hd Hm Hy. unfold itemDate. rewrite Hdate.
  change (d ++ "/" ++ m ++ "/" ++ y)
    with (d ++ String "/" (m ++ String "/" y)).
  rewrite (split_first _ _ _ Hd), (split_first _ _ _ Hm), (split_without _ _ Hy).
  simpl. destruct m, d; reflexivity.
Qed.

(** The bounds [setupFilters] computes are order dates of the collection
    and enclose all of them. *)
Lemma item_dates_bounded (data : list Order) (tmin tmax : Z) :
  Date_of_min (map (itemDate Date_parse) data) = Some tmin ->
  Date_of_max (map (itemDate Date_parse) data) = Some tmax ->
  (exists item, In item data /\ itemDate Date_parse item = Some tmin) /\
  (exists item, In item data /\ itemDate Date_parse item = Some tmax) /\
  (forall item, In item data ->
                exists t, itemDate Date_parse item = Some t /\ tmin <= t <= tmax).
Proof.
  intros Hmin Hmax.
  destruct (Date_of_min_spec _ _ Hmin) as [Hin1 Hlo].
  destruct (Date_of_max_spec _ _ Hmax) as [Hin2 Hhi].
  split; [|split].
  - apply in_map_iff in Hin1. destruct Hin1 as (item & H & Hi). now exists item.
  - apply in_map_iff in Hin2. destruct Hin2 as (item & H & Hi). now exists item.
  - intros item Hitem.
    destruct (Hlo _ (in_map (itemDate Date_parse) _ _ Hitem)) as (x & Hx & Hle).
    destruct (Hhi _ (in_map (itemDate Date_parse) _ _ Hitem)) as (x' & Hx' & Hge).
    exists x. split; [exact Hx|]. rewrite Hx in Hx'. injection Hx' as <-. lia.
Qed.

Lemma full_range_keeps_all (data : list Order) (tmin tmax s e : Z) :
  Date_of_min (map (itemDate Date_parse) data) = Some tmin ->
  Date_of_max (map (itemDate Date_parse) data) = Some tmax ->
  s <= tmin -> tmax <= e ->
  filteredData Date_parse (Some s) (Some e) "all" data = data.
Proof.
  intros Hmin Hmax Hs He.
  destruct (item_dates_bounded data tmin tmax Hmin Hmax) as (_ & _ & Hall).
  unfold filteredData. apply filter_all.
  intros item Hitem. destruct (Hall item Hitem) as (t & -> & Ht). simpl.
  rewrite andb_true_r. apply andb_true_iff. split; apply Z.leb_le; lia.
Qed.

(** X2: [setupFilters] on a collection that has at least one record and
    only valid order dates returns, with both pickers created: their
    default dates are the first ten characters of the ISO form of the
    earliest and of the latest order date, both change handlers and the
    drop-down's (when there is a drop-down) re-render the whole collection,
    and nothing is rendered yet.  On an empty collection, or when some
    order date is invalid, it throws the RangeError of [toISOString] before
    anything is written. *)
Theorem setupFilters_outcome (data : list Order) (w : World) :
  (data <> [] ->
   (forall item, In item data ->
                 exists t, itemDate Date_parse item = Some t /\ Z.abs t <= maxTime) ->
   exists tmin tmax w',
     setupFilters Date_parse flatpickr_parseDate data w = (Returned tt, w') /\
     (exists item, In item data /\ itemDate Date_parse item = Some tmin) /\
     (exists item, In item data /\ itemDate Date_parse item = Some tmax) /\
     (forall item, In item data ->
                   exists t, itemDate Date_parse item = Some t /\ tmin <= t <= tmax) /\
     start_date w' =
     Some (flatpickr flatpickr_parseDate (slice0 10 (iso_string tmin)) (Some data)) /\
     end_date w' =
     Some (flatpickr flatpickr_parseDate (slice0 10 (iso_string tmax)) (Some data)) /\
     category_filter w' =
     option_map (fun categoryFilter =>
                   {| select_options := select_options categoryFilter;
                      select_onchange := Some data |})
                (category_filter w) /\
     rendered_state w' = rendered_state w) /\
  (data = [] \/ (exists item, In item data /\ itemDate Date_parse item = None) ->
   setupFilters Date_parse flatpickr_parseDate data w =
   (Thrown (RangeError "Invalid time value"), w)).
Proof.
  split.
  - intros Hne Hvalid.
    destruct (Date_bounds_valid (map (itemDate Date_parse) data))
      as (tmin & tmax & Hmin & Hmax).
    { destruct data; [congruence | discriminate]. }
    { intros d Hd. apply in_map_iff in Hd. destruct Hd as (item & <- & Hitem).
      now apply Hvalid. }
    exists tmin, tmax. eexists.
    split; [apply (setupFilters_run Date_parse flatpickr_parseDate data w tmin tmax Hmin Hmax)|].
    destruct (item_dates_bounded data tmin tmax Hmin Hmax) as (Hlo & Hhi & Hall).
    split; [exact Hlo|]. split; [exact Hhi|]. split; [exact Hall|].
    cbv zeta. destruct (category_filter w) as [cf|] eqn:Hcf; repeat split; simpl;
      now rewrite ?Hcf.
  - intros Hbad.
    assert (Hmin : Date_of_min (map (itemDate Date_parse) data) = None).
    { destruct Hbad as [-> | (item & Hin & Hnone)]; [reflexivity|].
      apply Date_of_min_invalid. rewrite <- Hnone. now apply in_map. }
    unfold setupFilters, bind, toISOString, throw. now rewrite Hmin.
Qed.

End DateProperties.

(** ** The render pass *)

Lemma set_length {V : Type} (o : Obj.t V) (k : string) (v : V) :
  (List.length (Obj.set o k v) <= S (List.length o))%nat.
Proof.
  induction o as [|[k0 v0] o IH]; simpl; [lia|].
  destruct (String.eqb k0 k); simpl; lia.
Qed.

Lemma aggregate_length (key : Order -> string) (data : list Order) :
  (List.length (aggregate key data) <= List.length data)%nat.
Proof.
  unfold aggregate.
  assert (H : forall o,
             (List.length
                (fold_left
                   (fun acc item =>
                      Obj.set acc (key item)
                              (add (or_zero (Obj.get acc (key item))) (parsed_total item)))
                   data o) <= List.length o + List.length data)%nat).
  { induction data as [|item data IH]; intros o; simpl; [lia|].
    specialize (IH (Obj.set o (key item)
                            (add (or_zero (Obj.get o (key item))) (parsed_total item)))).
    pose proof (set_length o (key item)
                           (add (or_zero (Obj.get o (key item))) (parsed_total item))).
    lia. }
  apply (H []).
Qed.

Lemma first_seen_length (l : list (option string)) :
  (List.length (first_seen l) <= List.length l)%nat.
Proof.
  induction l as [|x l IH]; simpl; [lia|].
  pose proof (filter_length_le (fun y => negb (option_string_eqb x y)) (first_seen l)).
  lia.
Qed.

(** What [drawChart] leaves alone: the metric slots, the filter controls,
    the message container and the console. *)
Lemma drawChart_metrics (data : list Order) (elementId chartType : string) (w : World) :
  total_revenue (drawChart data elementId chartType w) = total_revenue w /\
  total_orders (drawChart data elementId chartType w) = total_orders w /\
  average_order_value (drawChart data elementId chartType w) = average_order_value w /\
  top_category (drawChart data elementId chartType w) = top_category w.
Proof.
  unfold drawChart, destroy_previous.
  destruct (String.eqb chartType "revenueOverTime"),
           (String.eqb chartType "revenueByCategory"),
           (String.eqb chartType "topProducts"),
           (chartInstance w); simpl; auto.
Qed.

Lemma drawChart_controls (data : list Order) (elementId chartType : string) (w : World) :
  start_date (drawChart data elementId chartType w) = start_date w /\
  end_date (drawChart data elementId chartType w) = end_date w /\
  category_filter (drawChart data elementId chartType w) = category_filter w /\
  chart_type_selector (drawChart data elementId chartType w) = chart_type_selector w.
Proof.
  unfold drawChart, destroy_previous.
  destruct (String.eqb chartType "revenueOverTime"),
           (String.eqb chartType "revenueByCategory"),
           (String.eqb chartType "topProducts"),
           (chartInstance w); simpl; auto.
Qed.

Lemma drawChart_messages (data : list Order) (elementId chartType : string) (w : World) :
  app_innerHTML (drawChart data elementId chartType w) = app_innerHTML w /\
  console_errors (drawChart data elementId chartType w) = console_errors w.
Proof.
  unfold drawChart, destroy_previous.
  destruct (String.eqb chartType "revenueOverTime"),
           (String.eqb chartType "revenueByCategory"),
           (String.eqb chartType "topProducts"),
           (chartInstance w); simpl; auto.
Qed.

(** The chart a recognized mode constructs. *)
Lemma drawChart_constructs (data : list Order) (elementId chartType : string) (w : World) :
  recognized chartType = true ->
  exists c,
    drawChart data elementId chartType w = new_Chart c (destroy_previous w) /\
    chart_canvas c = elementId /\
    List.length (chart_labels c) = List.length (dataset_data c) /\
    (List.length (dataset_data c) <= List.length data)%nat /\
    (chartType = "revenueOverTime" -> List.length (dataset_data c) = List.length data).
Proof.
  unfold recognized, drawChart. intros H.
  destruct (String.eqb chartType "revenueOverTime") eqn:E1.
  { eexists. split; [reflexivity|]. simpl. rewrite !length_map. repeat split; lia. }
  destruct (String.eqb chartType "revenueByCategory") eqn:E2.
  { eexists. split; [reflexivity|]. simpl. rewrite !length_map.
    unfold chart_categories. rewrite of_list_first_seen.
    pose proof (first_seen_length (map categories data)) as Hl.
    rewrite length_map in Hl. repeat split; try lia.
    intros ->. discriminate. }
  destruct (String.eqb chartType "topProducts") eqn:E3; [|discriminate].
  eexists. split; [reflexivity|]. simpl. rewrite !length_map.
  repeat split; try lia.
  - unfold topProducts. rewrite length_firstn.
    rewrite (Permutation_length (sort_perm by_revenue_descending _)).
    rewrite (Permutation_length (entries_perm _)).
    pose proof (aggregate_length product_key data).
    change (productRevenue data) with (aggregate product_key data). lia.
  - intros ->. discriminate.
Qed.

(** Drawing the same chart again, on the page the first drawing left. *)
Lemma drawChart_twice (data : list Order) (elementId chartType : string) (w0 w : World) :
  chart_discipline w0 ->
  chartInstance w = chartInstance (drawChart data elementId chartType w0) ->
  live_charts w = live_charts (drawChart data elementId chartType w0) ->
  map snd (live_charts (drawChart data elementId chartType w)) =
  map snd (live_charts (drawChart data elementId chartType w0)).
Proof.
  intros Hd Hh Hl.
  assert (Hw : chart_discipline w).
  { destruct (drawChart_discipline data elementId chartType w0 Hd)
      as [Hnil | (id & c & Hlive & Hhandle)].
    - left. congruence.
    - right. exists id, c. split; congruence. }
  pose proof (destroy_previous_clears w Hw) as C1.
  pose proof (destroy_previous_clears w0 Hd) as C0.
  unfold drawChart.
  destruct (String.eqb chartType "revenueOverTime");
    [simpl; now rewrite C1, C0|].
  destruct (String.eqb chartType "revenueByCategory");
    [simpl; now rewrite C1, C0|].
  destruct (String.eqb chartType "topProducts");
    [simpl; now rewrite C1, C0|].
  now rewrite C1, C0.
Qed.

Lemma discipline_same_charts (w w' : World) :
  same_charts w w' -> chart_discipline w -> chart_discipline w'.
Proof.
  intros (H1 & H2 & H3) [Hnil | (id & c & Hl & Hh)].
  - left. congruence.
  - right. exists id, c. split; congruence.
Qed.

Lemma on_failure_charts (error : JsError) (w : World) :
  same_charts w (on_failure error w).
Proof. unfold on_failure, show_message. simpl. destruct (app_innerHTML w); repeat split. Qed.

Lemma on_failure_rendered (error : JsError) (w : World) :
  rendered_state (on_failure error w) = rendered_state w.
Proof. unfold on_failure, show_message. simpl. now destruct (app_innerHTML w). Qed.

Lemma populateCategoryFilter_charts (data : list Order) (w : World) :
  same_charts w (snd (populateCategoryFilter data w)).
Proof.
  unfold populateCategoryFilter. destruct (category_filter w); repeat split.
Qed.

Section RenderProperties.

Variable Date_parse : string -> time_value.

(** X3: a render pass either runs to its end or does nothing.  When both
    pickers and the drop-down are there it returns; when one of them is
    missing it throws a TypeError before the first write, so that the
    metrics, the chart and the table are as they were. *)
Theorem render_all_or_nothing (data : list Order) (w : World) :
  (start_date w <> None /\ end_date w <> None /\ category_filter w <> None ->
   exists w', filterAndRenderData Date_parse data w = (Returned tt, w')) /\
  (start_date w = None \/ end_date w = None \/ category_filter w = None ->
   exists error,
     filterAndRenderData Date_parse data w = (Thrown error, w) /\
     error_name error = "TypeError").
Proof.
  split.
  - intros (Hs & He & Hc).
    destruct (start_date w) as [sp|] eqn:Es; [|congruence].
    destruct (end_date w) as [ep|] eqn:Ee; [|congruence].
    destruct (category_filter w) as [cf|] eqn:Ec; [|congruence].
    rewrite (filterAndRenderData_run Date_parse data w sp ep cf Es Ee Ec). eauto.
  - intros H. unfold filterAndRenderData, bind, gets, first_selected, ret, throw.
    destruct (start_date w) as [sp|] eqn:Es; [|eexists; split; reflexivity].
    destruct (end_date w) as [ep|] eqn:Ee; [|eexists; split; reflexivity].
    destruct (category_filter w) as [cf|] eqn:Ec; [|eexists; split; reflexivity].
    destruct H as [H | [H | H]]; discriminate.
Qed.

(** X4: after a render pass the three views agree.  The table has one row
    per filtered record (never more than the collection has), the order
    count is the number of rows, and with a recognized chart mode the
    handle refers to a new live chart on the canvas whose labels and
    values have the same length, with at most one point per row, and
    exactly one per row in the revenue-over-time mode. *)
Theorem render_consistent (data : list Order) (w : World)
        (startPicker endPicker : Picker) (categoryFilter : SelectElement) :
  start_date w = Some startPicker ->
  end_date w = Some endPicker ->
  category_filter w = Some categoryFilter ->
  exists w' rows,
    filterAndRenderData Date_parse data w = (Returned tt, w') /\
    data_table w' = Some rows /\
    (List.length rows <= List.length data)%nat /\
    total_orders w' = string_of_nat (List.length rows) /\
    (recognized (chart_type_selector w) = true ->
     exists c,
       chartInstance w' = Some (next_chart w) /\
       In (next_chart w, c) (live_charts w') /\
       chart_canvas c = "chart-canvas" /\
       List.length (chart_labels c) = List.length (dataset_data c) /\
       (List.length (dataset_data c) <= List.length rows)%nat /\
       (chart_type_selector w = "revenueOverTime" ->
        List.length (dataset_data c) = List.length rows)).
Proof.
  intros Hs He Hc.
  rewrite (filterAndRenderData_run Date_parse data w _ _ _ Hs He Hc).
  cbv zeta.
  set (filtered := filteredData Date_parse (hd_error (selectedDates startPicker))
                                (hd_error (selectedDates endPicker))
                                (select_value categoryFilter) data).
  do 2 eexists. split; [reflexivity|].
  split; [reflexivity|]. rewrite length_map.
  split; [apply filter_length_le|].
  split.
  - change (total_orders (drawChart filtered "chart-canvas" (chart_type_selector w)
                                     (updateKeyMetrics filtered w))
            = string_of_nat (List.length filtered)).
    now rewrite (proj1 (proj2 (drawChart_metrics _ _ _ _))).
  - intros Hrec.
    destruct (drawChart_constructs filtered "chart-canvas" (chart_type_selector w)
                                   (updateKeyMetrics filtered w) Hrec)
      as (c & -> & Hcanvas & Hal & Hle & Heq).
    exists c. simpl.
    assert (Hnext : next_chart (destroy_previous (updateKeyMetrics filtered w)) = next_chart w).
    { now rewrite destroy_previous_next. }
    rewrite Hnext. repeat split; auto.
    apply in_or_app. right. now left.
Qed.

(** X5: when no record of the collection passes the filter (an empty
    range, a category without records, ...), the render pass shows
    "$0.00", "0", "$0.00" and "None", an empty table, and, in a recognized
    mode, a chart without labels and without values. *)
Theorem nothing_selected_resets (data : list Order) (w : World)
        (startPicker endPicker : Picker) (categoryFilter : SelectElement) :
  start_date w = Some startPicker ->
  end_date w = Some endPicker ->
  category_filter w = Some categoryFilter ->
  (forall item, In item data ->
                ~ included Date_parse (hd_error (selectedDates startPicker))
                  (hd_error (selectedDates endPicker))
                  (select_value categoryFilter) item) ->
  exists w',
    filterAndRenderData Date_parse data w = (Returned tt, w') /\
    total_revenue w' = "$0.00" /\
    total_orders w' = "0" /\
    average_order_value w' = "$0.00" /\
    top_category w' = "None" /\
    data_table w' = Some [] /\
    (recognized (chart_type_selector w) = true ->
     exists c, In (next_chart w, c) (live_charts w') /\
               chart_labels c = [] /\ dataset_data c = []).
Proof.
  intros Hs He Hc Hnone.
  rewrite (filterAndRenderData_run Date_parse data w _ _ _ Hs He Hc). cbv zeta.
  assert (Hempty : filteredData Date_parse (hd_error (selectedDates startPicker))
                                (hd_error (selectedDates endPicker))
                                (select_value categoryFilter) data = []).
  { unfold filteredData.
    destruct (filter _ data) as [|item rest] eqn:E; [reflexivity|].
    assert (Hin : In item (filter
      (fun item0 =>
       DateValue.ge (itemDate Date_parse item0) (hd_error (selectedDates startPicker)) &&
       DateValue.le (itemDate Date_parse item0) (hd_error (selectedDates endPicker)) &&
       (String.eqb (select_value categoryFilter) "all" ||
        option_string_eqb (categories item0) (Some (select_value categoryFilter)))) data))
      by (rewrite E; now left).
    apply filter_In in Hin. destruct Hin as [Hin Hcond].
    apply (filter_condition_spec Date_parse) in Hcond. now apply Hnone in Hcond. }
  rewrite Hempty. eexists. split; [reflexivity|].
  destruct (drawChart_metrics [] "chart-canvas" (chart_type_selector w)
                              (updateKeyMetrics [] w)) as (M1 & M2 & M3 & M4).
  split; [exact M1|]. split; [exact M2|]. split; [exact M3|]. split; [exact M4|].
  split; [reflexivity|].
  intros Hrec.
  destruct (drawChart_constructs [] "chart-canvas" (chart_type_selector w)
                                 (updateKeyMetrics [] w) Hrec)
    as (c & Hdraw & _ & Hal & Hle & _).
  exists c. rewrite Hdraw. simpl. rewrite destroy_previous_next. simpl.
  split; [apply in_or_app; right; now left|].
  simpl in Hle. destruct (dataset_data c); [|simpl in Hle; lia].
  destruct (chart_labels c); [|discriminate]. now split.
Qed.

(** X6: a render pass reads the filter controls and the chart mode without
    changing them, so that a second pass on the page the first one left
    (one chart live at most before the first) returns too and shows the
    same metrics, the same table and a chart with the same configuration;
    only the chart object is a new one. *)
Theorem render_idempotent (data : list Order) (w : World)
        (startPicker endPicker : Picker) (categoryFilter : SelectElement) :
  start_date w = Some startPicker ->
  end_date w = Some endPicker ->
  category_filter w = Some categoryFilter ->
  chart_discipline w ->
  exists w1 w2,
    filterAndRenderData Date_parse data w = (Returned tt, w1) /\
    filterAndRenderData Date_parse data w1 = (Returned tt, w2) /\
    (start_date w1 = start_date w /\ end_date w1 = end_date w /\
     category_filter w1 = category_filter w /\
     chart_type_selector w1 = chart_type_selector w) /\
    total_revenue w2 = total_revenue w1 /\
    total_orders w2 = total_orders w1 /\
    average_order_value w2 = average_order_value w1 /\
    top_category w2 = top_category w1 /\
    data_table w2 = data_table w1 /\
    map snd (live_charts w2) = map snd (live_charts w1).
Proof.
  intros Hs He Hc Hd.
  rewrite (filterAndRenderData_run Date_parse data w _ _ _ Hs He Hc).
  cbv zeta.
  set (filtered := filteredData Date_parse (hd_error (selectedDates startPicker))
                                (hd_error (selectedDates endPicker))
                                (select_value categoryFilter) data).
  set (w0 := updateKeyMetrics filtered w).
  destruct (drawChart_controls filtered "chart-canvas" (chart_type_selector w) w0)
    as (K1 & K2 & K3 & K4).
  set (wa := populateDataTable filtered
               (drawChart filtered "chart-canvas" (chart_type_selector w) w0)).
  assert (Hs1 : start_date wa = Some startPicker)
    by (unfold wa; simpl; rewrite K1; exact Hs).
  assert (He1 : end_date wa = Some endPicker)
    by (unfold wa; simpl; rewrite K2; exact He).
  assert (Hc1 : category_filter wa = Some categoryFilter)
    by (unfold wa; simpl; rewrite K3; exact Hc).
  assert (Ht1 : chart_type_selector wa = chart_type_selector w)
    by (unfold wa; simpl; rewrite K4; reflexivity).
  exists wa. eexists. split; [reflexivity|].
  split; [rewrite (filterAndRenderData_run Date_parse data wa _ _ _ Hs1 He1 Hc1);
          reflexivity|].
  cbv zeta. fold filtered. rewrite Ht1.
  split; [repeat split; congruence|].
  destruct (drawChart_metrics filtered "chart-canvas" (chart_type_selector w)
                              (updateKeyMetrics filtered wa)) as (M1 & M2 & M3 & M4).
  destruct (drawChart_metrics filtered "chart-canvas" (chart_type_selector w) w0)
    as (N1 & N2 & N3 & N4).
  split; [simpl; rewrite M1; unfold wa; simpl; now rewrite N1|].
  split; [simpl; rewrite M2; unfold wa; simpl; now rewrite N2|].
  split; [simpl; rewrite M3; unfold wa; simpl; now rewrite N3|].
  split; [simpl; rewrite M4; unfold wa; simpl; now rewrite N4|].
  split; [reflexivity|].
  change (map snd (live_charts (drawChart filtered "chart-canvas" (chart_type_selector w)
                                          (updateKeyMetrics filtered wa))) =
          map snd (live_charts (drawChart filtered "chart-canvas" (chart_type_selector w) w0))).
  apply drawChart_twice.
  - destruct Hd as [Hnil | (id & c & Hl & Hh)]; [now left | right; now exists id, c].
  - reflexivity.
  - reflexivity.
Qed.

(** X7: the category chart of a filtered subset has one bar per category
    value occurring in the subset, without duplicates; every bar's label
    is the label of an option the drop-down was given for the whole
    collection; and when a category other than "all" is selected the chart
    has one bar at most. *)
Theorem chart_categories_among_options
        (startDate endDate : time_value) (selectedCategory : string)
        (data : list Order) :
  let filtered := filteredData Date_parse startDate endDate selectedCategory data in
  let labels := chart_labels (revenueByCategoryChart "chart-canvas" filtered) in
  NoDup labels /\
  (forall label, In label labels <-> exists item, In item filtered /\ categories item = label) /\
  (forall label, In label labels ->
                 In (new_Option label label false false) (category_options data)) /\
  (selectedCategory <> "all" -> (List.length labels <= 1)%nat).
Proof.
  cbv zeta.
  assert (Hlabels : forall l, chart_labels (revenueByCategoryChart "chart-canvas" l)
                              = first_seen (map categories l)).
  { intros l. unfold revenueByCategoryChart. simpl. rewrite map_map. simpl.
    rewrite map_id. unfold chart_categories. apply of_list_first_seen. }
  rewrite Hlabels. split; [apply first_seen_NoDup|]. split; [|split].
  - intros label. rewrite first_seen_In, in_map_iff.
    split; intros (item & H1 & H2); exists item; auto.
  - intros label Hin. apply (proj1 (first_seen_In _ _)) in Hin. apply in_map_iff in Hin.
    destruct Hin as (item & Hc & Hitem).
    unfold filteredData in Hitem. apply filter_In in Hitem. destruct Hitem as [Hitem _].
    right. apply (in_map (fun c => new_Option c c false false)). apply first_seen_In.
    rewrite <- Hc. now apply in_map.
  - intros Hsel.
    assert (Hall : forall label,
               In label (first_seen (map categories
                  (filteredData Date_parse startDate endDate selectedCategory data))) ->
               label = Some selectedCategory).
    { intros label Hin. apply (proj1 (first_seen_In _ _)) in Hin. apply in_map_iff in Hin.
      destruct Hin as (item & Hc & Hitem).
      unfold filteredData in Hitem. apply filter_In in Hitem. destruct Hitem as [_ Hcond].
      apply andb_true_iff in Hcond. destruct Hcond as [_ Hcat].
      apply orb_true_iff in Hcat. destruct Hcat as [Hcat | Hcat].
      - apply String.eqb_eq in Hcat. congruence.
      - rewrite Hc in Hcat. now apply option_string_eqb_eq in Hcat. }
    pose proof (first_seen_NoDup (map categories
                  (filteredData Date_parse startDate endDate selectedCategory data))) as Hnd.
    destruct (first_seen _) as [|a [|b rest]]; simpl; try lia.
    exfalso. rewrite (Hall a), (Hall b) in Hnd by (simpl; auto).
    inversion Hnd; subst. apply H1. now left.
Qed.

Lemma filterAndRenderData_charts (data : list Order) (w : World) :
  chart_discipline w ->
  chart_discipline (snd (filterAndRenderData Date_parse data w)).
Proof.
  intros Hw.
  destruct (start_date w) as [sp|] eqn:Hs;
    [destruct (end_date w) as [ep|] eqn:He;
     [destruct (category_filter w) as [cf|] eqn:Hc|]|].
  - rewrite (filterAndRenderData_run Date_parse data w sp ep cf Hs He Hc). simpl.
    match goal with
    | |- chart_discipline (populateDataTable ?f (drawChart ?f ?el ?m ?w1)) =>
        apply (discipline_same_charts (drawChart f el m w1));
          [repeat split | apply drawChart_discipline;
                          apply (discipline_same_charts w); [repeat split | exact Hw]]
    end.
  - unfold filterAndRenderData, bind, gets, first_selected, ret, throw.
    rewrite Hs, He, Hc. exact Hw.
  - unfold filterAndRenderData, bind, gets, first_selected, ret, throw.
    rewrite Hs, He. exact Hw.
  - unfold filterAndRenderData, bind, gets, first_selected, ret, throw.
    rewrite Hs. exact Hw.
Qed.

End RenderProperties.

(** ** The whole start-up, and the session after it *)

Section SessionProperties.

Variable Date_parse : string -> time_value.
Variable flatpickr_parseDate : string -> option Z.

Lemma selected_default (defaultDate : string) (onChange : Handler) :
  hd_error (selectedDates (flatpickr flatpickr_parseDate defaultDate onChange)) =
  flatpickr_parseDate defaultDate.
Proof. unfold flatpickr. simpl. now destruct (flatpickr_parseDate defaultDate). Qed.

(** Start-up on a non-empty collection with valid dates, on a page with
    the drop-down. *)
Lemma startup_run (w : World) (records : list Order) (tmin tmax : Z)
      (categoryFilter : SelectElement) :
  Date_of_min (map (itemDate Date_parse) records) = Some tmin ->
  Date_of_max (map (itemDate Date_parse) records) = Some tmax ->
  category_filter w = Some categoryFilter ->
  let startDate := flatpickr_parseDate (slice0 10 (iso_string tmin)) in
  let endDate := flatpickr_parseDate (slice0 10 (iso_string tmax)) in
  let filtered := filteredData Date_parse startDate endDate "all" records in
  DOMContentLoaded Date_parse flatpickr_parseDate (Resolved (JsonArray records)) w =
  set_chart_type_onchange (Some records)
    (populateDataTable filtered
       (drawChart filtered "chart-canvas" (chart_type_selector w)
          (updateKeyMetrics filtered
             (set_category_filter
                (Some {| select_options := category_options records;
                         select_onchange := Some records |})
                (set_end_date
                   (Some (flatpickr flatpickr_parseDate (slice0 10 (iso_string tmax))
                                    (Some records)))
                   (set_start_date
                      (Some (flatpickr flatpickr_parseDate (slice0 10 (iso_string tmin))
                                       (Some records)))
                      w)))))).
Proof.
  intros Hmin Hmax Hcf. cbv zeta.
  destruct records as [|first rest]; [discriminate|].
  unfold DOMContentLoaded, on_response. unfold bind at 1.
  rewrite (setupFilters_run Date_parse flatpickr_parseDate (first :: rest) w tmin tmax Hmin Hmax), Hcf.
  cbv zeta. unfold initializeDashboard, bind.
  erewrite populateCategoryFilter_run by reflexivity.
  erewrite filterAndRenderData_run by reflexivity.
  cbv zeta. unfold modify.
  rewrite <- !selected_default with (onChange := Some (first :: rest)).
  reflexivity.
Qed.

(** Start-up on the same collection, on a page without the drop-down. *)
Lemma startup_without_filter (w : World) (records : list Order) (tmin tmax : Z) :
  Date_of_min (map (itemDate Date_parse) records) = Some tmin ->
  Date_of_max (map (itemDate Date_parse) records) = Some tmax ->
  category_filter w = None ->
  DOMContentLoaded Date_parse flatpickr_parseDate (Resolved (JsonArray records)) w =
  on_failure (TypeError "Cannot set properties of null (setting 'innerHTML')")
    (set_end_date
       (Some (flatpickr flatpickr_parseDate (slice0 10 (iso_string tmax)) (Some records)))
       (set_start_date
          (Some (flatpickr flatpickr_parseDate (slice0 10 (iso_string tmin)) (Some records)))
          w)).
Proof.
  intros Hmin Hmax Hcf.
  destruct records as [|first rest]; [discriminate|].
  unfold DOMContentLoaded, on_response. unfold bind at 1.
  rewrite (setupFilters_run Date_parse flatpickr_parseDate (first :: rest) w tmin tmax Hmin Hmax), Hcf.
  cbv zeta. unfold initializeDashboard, bind, populateCategoryFilter. simpl.
  now rewrite Hcf.
Qed.

Lemma rendered_rows (filtered : list Order) (chartType : string)
      (records : option (list Order)) (w w0 : World) :
  data_table
    (set_chart_type_onchange records
       (populateDataTable filtered
          (drawChart filtered "chart-canvas" chartType (updateKeyMetrics filtered w)))) =
  data_table (populateDataTable filtered w0) /\
  total_orders
    (set_chart_type_onchange records
       (populateDataTable filtered
          (drawChart filtered "chart-canvas" chartType (updateKeyMetrics filtered w)))) =
  string_of_nat (List.length filtered).
Proof.
  split; [reflexivity|]. simpl.
  now rewrite (proj1 (proj2 (drawChart_metrics _ _ _ _))).
Qed.

(** X8: a collection in which some order date is invalid does not start
    the dashboard: the [toISOString] of the earliest date throws, the
    RangeError is logged on the console, the container gets the "failed to
    fetch" message, and nothing else is written (no picker, no option, no
    metric, no chart, no table). *)
Theorem startup_invalid_date (w : World) (html : string)
        (records : list Order) (item : Order) :
  app_innerHTML w = Some html ->
  In item records ->
  itemDate Date_parse item = None ->
  DOMContentLoaded Date_parse flatpickr_parseDate (Resolved (JsonArray records)) w =
  set_app (Some "<p>Failed to fetch data.</p>")
          (set_console_errors
             (console_errors w ++
              [("Error fetching data:", RangeError "Invalid time value")])%list w).
Proof.
  intros Happ Hin Hnone.
  assert (Hmin : Date_of_min (map (itemDate Date_parse) records) = None).
  { apply Date_of_min_invalid. rewrite <- Hnone. now apply in_map. }
  destruct records as [|first rest]; [contradiction|].
  unfold DOMContentLoaded, on_response, bind, setupFilters, bind, toISOString.
  rewrite Hmin. simpl. unfold on_failure, show_message. simpl. now rewrite Happ.
Qed.

(** X9: on a page without the category drop-down, a collection with valid
    dates gets both date pickers, then [populateCategoryFilter] throws on
    the missing element: the TypeError is logged, the container gets the
    "failed to fetch" message although the fetch succeeded, and no render
    pass runs. *)
Theorem startup_without_dropdown (w : World) (html : string)
        (records : list Order) (tmin tmax : Z) :
  app_innerHTML w = Some html ->
  category_filter w = None ->
  Date_of_min (map (itemDate Date_parse) records) = Some tmin ->
  Date_of_max (map (itemDate Date_parse) records) = Some tmax ->
  DOMContentLoaded Date_parse flatpickr_parseDate (Resolved (JsonArray records)) w =
  set_app (Some "<p>Failed to fetch data.</p>")
    (set_console_errors
       (console_errors w ++
        [("Error fetching data:",
          TypeError "Cannot set properties of null (setting 'innerHTML')")])%list
       (set_end_date
          (Some (flatpickr flatpickr_parseDate (slice0 10 (iso_string tmax))
                           (Some records)))
          (set_start_date
             (Some (flatpickr flatpickr_parseDate (slice0 10 (iso_string tmin))
                              (Some records)))
             w))).
Proof.
  intros Happ Hcf Hmin Hmax.
  rewrite (startup_without_filter w records tmin tmax Hmin Hmax Hcf).
  unfold on_failure, show_message. simpl. now rewrite Happ.
Qed.

(** The start-up ends in one of the three ways. *)
Lemma startup_cases (result : FetchResult) (w : World) (html : string) :
  app_innerHTML w = Some html ->
  let w' := DOMContentLoaded Date_parse flatpickr_parseDate result w in
  startup_failed w w' \/ startup_no_data w w' \/ startup_started result w w'.
Proof.
  intros Happ. cbv zeta. unfold startup_failed, startup_no_data, startup_started.
  assert (Hfail : forall error w0,
             app_innerHTML w0 = Some html ->
             console_errors w0 = console_errors w ->
             rendered_state w0 = rendered_state w ->
             chart_type_onchange w0 = chart_type_onchange w ->
             app_innerHTML (on_failure error w0) = Some "<p>Failed to fetch data.</p>" /\
             (exists error',
                 console_errors (on_failure error w0) =
                 (console_errors w ++ [("Error fetching data:", error')])%list) /\
             rendered_state (on_failure error w0) = rendered_state w /\
             chart_type_onchange (on_failure error w0) = chart_type_onchange w).
  { intros error w0 H1 H2 H3 H4. rewrite on_failure_rendered.
    unfold on_failure, show_message. simpl. rewrite H1. simpl.
    split; [reflexivity|]. split; [exists error; now rewrite H2|]. now split. }
  destruct result as [error | [ | [|first rest] | ]].
  - left. simpl. now apply Hfail.
  - right. left. simpl. unfold modify, show_message. now rewrite Happ.
  - right. left. simpl. unfold modify, show_message. now rewrite Happ.
  - destruct (Date_of_min (map (itemDate Date_parse) (first :: rest))) as [tmin|] eqn:Hmin.
    2:{ left. unfold DOMContentLoaded, on_response, bind at 1.
        unfold setupFilters, bind, toISOString, throw. rewrite Hmin.
        now apply Hfail. }
    destruct (Date_of_max (map (itemDate Date_parse) (first :: rest))) as [tmax|] eqn:Hmax.
    2:{ left. unfold DOMContentLoaded, on_response, bind at 1.
        unfold setupFilters, bind, toISOString, throw, ret, modify.
        rewrite Hmin, Hmax. now apply Hfail. }
    destruct (category_filter w) as [cf|] eqn:Hcf.
    + right. right.
      rewrite (startup_run w (first :: rest) tmin tmax cf Hmin Hmax Hcf).
      cbv zeta.
      match goal with
      | |- context [drawChart ?f ?el ?ty ?w0] =>
          destruct (drawChart_messages f el ty w0) as [A1 A2]
      end.
      split; [exact A1|].
      split; [exact A2|].
      exists (first :: rest). eexists.
      split; [reflexivity|]. split; [discriminate|]. split; reflexivity.
    + left.
      rewrite (startup_without_filter w (first :: rest) tmin tmax Hmin Hmax Hcf).
      now apply Hfail.
  - left. simpl. now apply Hfail.
Qed.

(** X10: whatever the fetch gives, the listener ends in one of three
    ways.  Either the container shows "failed to fetch", exactly one error
    was logged, and no metric, chart, table or chart-mode handler was
    written; or the container shows "no data" and nothing else changed; or
    the container and the console are untouched, the response was a
    non-empty collection, the table holds rows and the chart-mode handler
    re-renders that collection.  The failure never coincides with one of
    the other two ways; and the other two coincide only on a page that
    already showed the "no data" message when the listener ran. *)
Theorem startup_outcomes (result : FetchResult) (w : World) (html : string) :
  app_innerHTML w = Some html ->
  let w' := DOMContentLoaded Date_parse flatpickr_parseDate result w in
  (startup_failed w w' \/ startup_no_data w w' \/ startup_started result w w') /\
  ~ (startup_failed w w' /\ startup_no_data w w') /\
  ~ (startup_failed w w' /\ startup_started result w w') /\
  (html <> "<p>No data available.</p>" ->
   ~ (startup_no_data w w' /\ startup_started result w w')).
Proof.
  intros Happ. cbv zeta.
  assert (Hgrow : forall (l : list (string * JsError)) x, l <> (l ++ [x])%list).
  { intros l x H. apply (f_equal (@List.length _)) in H.
    rewrite length_app in H. simpl in H. lia. }
  split; [exact (startup_cases result w html Happ)|]. split; [|split].
  - intros [(_ & (error & Hlog) & _) Hnone].
    unfold startup_no_data in Hnone. rewrite Hnone in Hlog. simpl in Hlog.
    now apply Hgrow in Hlog.
  - intros [(_ & (error & Hlog) & _) (_ & Hsame & _)].
    rewrite Hsame in Hlog. now apply Hgrow in Hlog.
  - intros Hhtml [Hnone (Hsame & _)].
    unfold startup_no_data in Hnone. rewrite Hnone, Happ in Hsame. simpl in Hsame.
    congruence.
Qed.

(** X11: the first render shows the whole collection exactly when the
    pickers read their default dates as instants that enclose the order
    dates: a start at or before the earliest order date and an end at or
    after the latest one.  When a picker reads its default date as a later
    start, or as an earlier end, or selects no date at all, the first
    table has fewer rows than the collection has records (the records of
    the first or of the last day are left out), and the order count
    follows the table. *)
Theorem initial_render_range (w : World) (records : list Order) (tmin tmax : Z)
        (categoryFilter : SelectElement) :
  Date_of_min (map (itemDate Date_parse) records) = Some tmin ->
  Date_of_max (map (itemDate Date_parse) records) = Some tmax ->
  category_filter w = Some categoryFilter ->
  let startDate := flatpickr_parseDate (slice0 10 (iso_string tmin)) in
  let endDate := flatpickr_parseDate (slice0 10 (iso_string tmax)) in
  let w' := DOMContentLoaded Date_parse flatpickr_parseDate
                             (Resolved (JsonArray records)) w in
  ((exists s e, startDate = Some s /\ endDate = Some e /\ s <= tmin /\ tmax <= e) ->
   data_table w' = data_table (populateDataTable records w) /\
   total_orders w' = string_of_nat (List.length records)) /\
  (startDate = None \/ endDate = None \/
   (exists s, startDate = Some s /\ tmin < s) \/
   (exists e, endDate = Some e /\ e < tmax) ->
   exists rows,
     data_table w' = Some rows /\
     (List.length rows < List.length records)%nat /\
     total_orders w' = string_of_nat (List.length rows)).
Proof.
  intros Hmin Hmax Hcf. cbv zeta.
  rewrite (startup_run w records tmin tmax categoryFilter Hmin Hmax Hcf).
  cbv zeta.
  match goal with
  | |- context [updateKeyMetrics _ ?w0] => set (w1 := w0)
  end.
  destruct (item_dates_bounded Date_parse records tmin tmax Hmin Hmax)
    as ((lo & Hlo & Dlo) & (hi & Hhi & Dhi) & _).
  split.
  - intros (s & e & -> & -> & Hs & He).
    rewrite (full_range_keeps_all Date_parse records tmin tmax s e Hmin Hmax Hs He).
    apply rendered_rows.
  - intros Hout.
    destruct (rendered_rows
                (filteredData Date_parse
                              (flatpickr_parseDate (slice0 10 (iso_string tmin)))
                              (flatpickr_parseDate (slice0 10 (iso_string tmax)))
                              "all" records)
                (chart_type_selector w) (Some records) w1 w) as [Ht Ho].
    rewrite Ht, Ho. eexists. split; [reflexivity|].
    rewrite length_map. split; [|reflexivity].
    unfold filteredData.
    destruct Hout as [Hn | [Hn | [(s & Hs & Hlt) | (e & He & Hlt)]]].
    + apply (filter_length_lt _ _ lo Hlo). rewrite Hn, Dlo. reflexivity.
    + apply (filter_length_lt _ _ lo Hlo). rewrite Hn, Dlo. simpl.
      now rewrite andb_false_r.
    + apply (filter_length_lt _ _ lo Hlo). rewrite Hs, Dlo. simpl.
      replace (s <=? tmin) with false by (symmetry; apply Z.leb_gt; lia).
      reflexivity.
    + apply (filter_length_lt _ _ hi Hhi). rewrite He, Dhi. simpl.
      replace (tmax <=? e) with false by (symmetry; apply Z.leb_gt; lia).
      now rewrite andb_false_r.
Qed.

Lemma setupFilters_charts (data : list Order) (w : World) :
  same_charts w (snd (setupFilters Date_parse flatpickr_parseDate data w)).
Proof.
  unfold setupFilters, bind, toISOString, modify, ret, throw.
  destruct (Date_of_min _); [|repeat split].
  destruct (Date_of_max _); simpl; [|repeat split].
  destruct (category_filter w); repeat split.
Qed.

Lemma startup_charts (result : FetchResult) (w : World) :
  chart_discipline w ->
  chart_discipline (DOMContentLoaded Date_parse flatpickr_parseDate result w).
Proof.
  intros Hw. destruct result as [error | [ | [|first rest] | ]]; simpl.
  - apply (discipline_same_charts w); [apply on_failure_charts | exact Hw].
  - unfold show_message. destruct (app_innerHTML w); exact Hw.
  - unfold show_message. destruct (app_innerHTML w); exact Hw.
  - unfold bind.
    pose proof (setupFilters_charts (first :: rest) w) as H1.
    destruct (setupFilters Date_parse flatpickr_parseDate (first :: rest) w)
      as [[[]|e1] w1]; simpl in H1.
    + assert (Hw1 : chart_discipline w1) by (now apply (discipline_same_charts w)).
      unfold initializeDashboard, bind.
      pose proof (populateCategoryFilter_charts (first :: rest) w1) as H2.
      destruct (populateCategoryFilter (first :: rest) w1) as [[[]|e2] w2]; simpl in H2.
      * assert (Hw2 : chart_discipline w2) by (now apply (discipline_same_charts w1)).
        pose proof (filterAndRenderData_charts Date_parse (first :: rest) w2 Hw2) as H3.
        destruct (filterAndRenderData Date_parse (first :: rest) w2) as [[[]|e3] w3];
          simpl in H3.
        -- unfold modify. apply (discipline_same_charts w3); [repeat split | exact H3].
        -- apply (discipline_same_charts w3); [apply on_failure_charts | exact H3].
      * apply (discipline_same_charts w2); [apply on_failure_charts|].
        now apply (discipline_same_charts w1).
    + apply (discipline_same_charts w1); [apply on_failure_charts|].
      now apply (discipline_same_charts w).
  - apply (discipline_same_charts w); [apply on_failure_charts | exact Hw].
Qed.

(** X12: on every page of a session (the listener run on a page without
    charts, then any sequence of input changes and of render passes, on
    any collections, completed or thrown), no chart is live or exactly one
    is and the script's handle refers to it. *)
Theorem session_single_chart (w : World) :
  Session Date_parse flatpickr_parseDate w ->
  chart_discipline w /\ (List.length (live_charts w) <= 1)%nat.
Proof.
  intros H.
  assert (Hd : chart_discipline w).
  { induction H as [w0 result Hh Hl | w w' _ IH Hsame | w data _ IH].
    - apply startup_charts. now left.
    - now apply (discipline_same_charts w).
    - now apply filterAndRenderData_charts. }
  split; [exact Hd | now apply discipline_at_most_one].
Qed.

End SessionProperties.

(** ** Sums of totals, across the views *)

Lemma sum_not_NaN (l : list number) (acc : number) :
  isNaN acc = false ->
  Forall (fun x => isFinite x = true) l ->
  isNaN (fold_left add l acc) = false.
Proof.
  revert acc. induction l as [|x l IH]; intros acc Hacc Hl; simpl; [exact Hacc|].
  inversion Hl; subst. apply IH; [now apply add_not_NaN | assumption].
Qed.

Lemma fold_add_map {A : Type} (f : A -> number) (l : list A) (acc : number) :
  fold_left (fun a x => add a (f x)) l acc = fold_left add (map f l) acc.
Proof. revert acc. induction l as [|x l IH]; intros acc; simpl; [reflexivity | apply IH]. Qed.

Lemma fold_left_last_two {A B : Type} (f : A -> B -> A) (l : list B) (x y : B) (a : A) :
  fold_left f (l ++ [x; y])%list a = f (f (fold_left f l a) x) y.
Proof. now rewrite fold_left_app. Qed.

Lemma div_core_nonneg (m1 m2 : positive) (e1 e2 : Z) :
  0 <= fst (fst (SFdiv_core_binary prec emax (Zpos m1) e1 (Zpos m2) e2)).
Proof.
  unfold SFdiv_core_binary.
  set (s := e1 - e2 - _).
  set (m' := match s with Z0 => Zpos m1 | Zpos _ => Z.shiftl (Zpos m1) s | Zneg _ => 0 end).
  assert (Hm' : 0 <= m').
  { unfold m'. destruct s; try lia. apply Z.shiftl_nonneg. lia. }
  pose proof (Z_div_mod m' (Zpos m2) ltac:(lia)) as H.
  destruct (Z.div_eucl m' (Zpos m2)) as [q r]. simpl.
  destruct H as [Heq Hr]. nia.
Qed.

Lemma div_not_NaN (x y : number) :
  isFinite x = true -> nonzero_signed false y -> isNaN (div x y) = false.
Proof.
  destruct x as [sx|sx| |sx mx ex], y as [sy|sy| |sy my ey]; simpl;
    try discriminate; try contradiction; intros _ _; try reflexivity.
  unfold div, SFdiv.
  pose proof (div_core_nonneg mx my ex ey) as H.
  destruct (SFdiv_core_binary prec emax (Zpos mx) ex (Zpos my) ey) as [[mz ez] lz].
  simpl in H. now apply binary_round_aux_not_NaN.
Qed.

Lemma of_nat_positive (n : nat) : (0 < n)%nat -> nonzero_signed false (of_nat n).
Proof.
  intros H. unfold of_nat, of_Z, binary_normalize.
  destruct (Z.of_nat n) as [|p|p] eqn:E; try lia.
  apply binary_round_nonzero. lia.
Qed.

(** X13: the converse of the propagation of unparsable totals.  When every
    total of the collection parses to a finite number, the revenue sum is
    a number, so is every bar of the category chart, and, as long as the
    sum has not overflowed, so is the average order value. *)
Theorem finite_totals_no_NaN (data : list Order) :
  finite_totals data ->
  isNaN (totalRevenue data) = false /\
  (forall category, isNaN (chart_category_revenue data category) = false) /\
  (isFinite (totalRevenue data) = true -> isNaN (averageOrderValue data) = false).
Proof.
  intros Hfin.
  assert (Hsum : forall l : list Order,
             Forall (fun item => isFinite (parsed_total item) = true) l ->
             isNaN (fold_left (fun acc item => add acc (parseFloat (total item))) l zero)
             = false).
  { intros l Hl. rewrite fold_add_map. apply sum_not_NaN; [reflexivity|].
    apply Forall_map. exact Hl. }
  split; [|split].
  - apply Hsum. exact Hfin.
  - intros category. apply Hsum. unfold finite_totals in Hfin.
    rewrite Forall_forall in *. intros item Hin. apply filter_In in Hin. now apply Hfin.
  - intros Hf. unfold averageOrderValue, totalOrders.
    destruct (0 <? List.length data)%nat eqn:E; [|reflexivity].
    apply div_not_NaN; [exact Hf|]. apply of_nat_positive. now apply Nat.ltb_lt.
Qed.

(** X14: the per-category sum of the metrics starts again after an
    unparsable total.  When a record with such a total is followed by a
    record of the same category, and the category is not named like a
    member of [Object.prototype], the [|| 0] of the reducer reads the
    not-a-number sum as zero: the category's revenue is the last record's
    total alone, whatever came before, while the bar of the category chart
    and the revenue total stay not-a-number. *)
Theorem category_revenue_restarts_after_NaN (data : list Order) (bad good : Order) :
  isNaN (parseFloat (total bad)) = true ->
  categories bad = categories good ->
  inherited_key (category_name good) = false ->
  let records := (data ++ [bad; good])%list in
  Obj.get (revenueByCategory records) (category_name good) =
  Some (add zero (parseFloat (total good))) /\
  chart_category_revenue records (categories good) = NaN /\
  totalRevenue records = NaN.
Proof.
  intros Hbad Hcat _ records. unfold records.
  apply isNaN_eq in Hbad.
  rewrite <- category_key_name.
  assert (Hkey : category_key bad = category_key good)
    by (unfold category_key; now rewrite Hcat).
  split; [|split].
  - unfold revenueByCategory. rewrite fold_left_last_two. cbv zeta.
    rewrite get_set, String.eqb_refl.
    rewrite get_set, Hkey, String.eqb_refl.
    rewrite Hbad, add_NaN_r. reflexivity.
  - unfold chart_category_revenue. rewrite filter_app. simpl.
    rewrite Hcat, !option_string_eqb_refl.
    rewrite fold_left_app. simpl. rewrite Hbad, add_NaN_r.
    now destruct (parseFloat _).
  - unfold totalRevenue. rewrite fold_left_last_two, Hbad, add_NaN_r.
    now destruct (parseFloat _).
Qed.

(** X15: when every record carries a non-empty category and every total is
    finite, the metrics and the category chart agree on every category
    that is not named like a member of [Object.prototype]: such a category
    of the collection has a bar, and the revenue the metrics hold for it is
    the value of that bar. *)
Theorem category_chart_agrees_with_metrics (data : list Order) (category : string) :
  finite_totals data ->
  labelled data ->
  inherited_key category = false ->
  In (Some category) (map categories data) ->
  Obj.get (revenueByCategory data) category =
  Some (chart_category_revenue data (Some category)) /\
  In (Some category) (chart_labels (revenueByCategoryChart "chart-canvas" data)).
Proof.
  intros Hfin Hlab _ Hin. split.
  - change (revenueByCategory data) with (aggregate category_key data).
    assert (Hkey : In category (Obj.keys (aggregate category_key data))).
    { apply aggregate_keys. apply in_map_iff in Hin. destruct Hin as (item & Hc & Hitem).
      exists item. split; [exact Hitem|].
      unfold labelled in Hlab. rewrite Forall_forall in Hlab.
      destruct (Hlab item Hitem) as (c & Hc' & Hne).
      unfold category_key. rewrite Hc. simpl.
      rewrite Hc in Hc'. injection Hc' as ->.
      destruct c; [congruence | reflexivity]. }
    apply keys_get in Hkey.
    destruct (Obj.get (aggregate category_key data) category) as [v|] eqn:Ev; [|congruence].
    destruct (aggregate_value category_key data category v Hfin Ev) as [-> _].
    f_equal. unfold revenue_of, chart_category_revenue, sum_numbers.
    rewrite (fold_add_map (fun item => parseFloat (total item))).
    change (fun item => parseFloat (total item)) with parsed_total.
    f_equal. f_equal. apply filter_ext_in. intros item Hitem.
    unfold labelled in Hlab. rewrite Forall_forall in Hlab.
    destruct (Hlab item Hitem) as (c & Hc & Hne).
    unfold category_key. rewrite Hc. simpl.
    destruct c; [congruence | reflexivity].
  - unfold revenueByCategoryChart. simpl. rewrite map_map. simpl. rewrite map_id.
    unfold chart_categories. rewrite of_list_first_seen. now apply first_seen_In.
Qed.

(** ** The properties at concrete inputs *)

(** The two-record scenario: full range, category "all". *)
Example two_orders_dashboard :
  let w := DOMContentLoaded Date_parse_strict flatpickr_parseDate_utc
                            (Resolved (JsonArray two_orders)) blank_page in
  total_revenue w = "$200.00" /\
  total_orders w = "2" /\
  average_order_value w = "$100.00" /\
  top_category w = "B" /\
  option_map (map option_value) (option_map select_options (category_filter w)) =
  Some ["all"; "A"; "B"] /\
  option_map (@List.length _) (data_table w) = Some 2%nat /\
  List.length (live_charts w) = 1%nat.
Proof. vm_compute. repeat split. Qed.

(** Nothing left after filtering. *)
Example empty_metrics :
  total_revenue (updateKeyMetrics [] blank_page) = "$0.00" /\
  total_orders (updateKeyMetrics [] blank_page) = "0" /\
  average_order_value (updateKeyMetrics [] blank_page) = "$0.00" /\
  top_category (updateKeyMetrics [] blank_page) = "None".
Proof. vm_compute. repeat split. Qed.

(** C1 at the two-record collection, with the range from 1 to 10 January
    2024 and all categories: the record of 1 January is kept, the one of
    15 January is not. *)
Lemma filteredData_spec_witness :
  (forall item, In item two_orders ->
                exists d m y, day_month_year (order_date item) d m y) /\
  filteredData Date_parse_strict (Date_parse_strict "2024-01-01")
               (Date_parse_strict "2024-01-10") "all" two_orders =
  [order "01/01/2024" "50" (Some "A") (Some "Widget")] /\
  Kept (spec_included Date_parse_strict (Date_parse_strict "2024-01-01")
                      (Date_parse_strict "2024-01-10") "all")
       two_orders
       (filteredData Date_parse_strict (Date_parse_strict "2024-01-01")
                     (Date_parse_strict "2024-01-10") "all" two_orders).
Proof.
  assert (Hall : forall item, In item two_orders ->
                   exists d m y, day_month_year (order_date item) d m y).
  { intros item [<- | [<- | []]];
      [exists "01", "01", "2024" | exists "15", "01", "2024"]; repeat split. }
  split; [exact Hall|]. split; [vm_compute; reflexivity|].
  exact (proj2 (proj2 (proj2 (proj2
           (filteredData_spec Date_parse_strict (Date_parse_strict "2024-01-01")
                              (Date_parse_strict "2024-01-10") "all" two_orders))))
           Hall).
Defined.

(** C3, counterexample to the tie rule as first stated: "A" and "B" have
    equal summed revenue and "A" comes first in iteration order, so the
    stated rule names "A"; the script writes "B". *)
Lemma top_category_tie_counterexample :
  Obj.keys (revenueByCategory tie_orders) = ["A"; "B"] /\
  strict_eq (revenue_of category_key tie_orders "A")
            (revenue_of category_key tie_orders "B") = true /\
  spec_topCategory tie_orders = "A" /\
  top_category (updateKeyMetrics tie_orders blank_page) = "B" /\
  top_category (updateKeyMetrics tie_orders blank_page) <> spec_topCategory tie_orders.
Proof. vm_compute. repeat split. discriminate. Qed.

(** Why the amended statement asks for finite totals: a total that does not
    parse makes every comparison with its category false, and the category
    met last wins although "A" has more revenue. *)
Remark top_category_after_unparsable_total :
  topCategory unparsable_orders = "C" /\
  gt (revenue_of category_key unparsable_orders "A")
     (revenue_of category_key unparsable_orders "C") = true.
Proof. vm_compute. split; reflexivity. Qed.

Lemma tie_orders_finite : finite_totals tie_orders.
Proof. repeat constructor. Qed.

Lemma tie_orders_plain : plain_names category_name tie_orders.
Proof. repeat constructor. Qed.

(** C3, as amended, at the collection with a tie. *)
Lemma top_category_last_maximal_witness :
  finite_totals tie_orders /\
  plain_names category_name tie_orders /\
  exists before after,
    Obj.keys (revenueByCategory tie_orders) =
    (before ++ top_category (updateKeyMetrics tie_orders blank_page) :: after)%list /\
    forall k, In k after ->
              gt (revenue_of category_name tie_orders
                             (top_category (updateKeyMetrics tie_orders blank_page)))
                 (revenue_of category_name tie_orders k) = true.
Proof.
  split; [exact tie_orders_finite|]. split; [exact tie_orders_plain|].
  apply (top_category_last_maximal tie_orders blank_page
                                   tie_orders_finite tie_orders_plain).
  discriminate.
Defined.

Lemma repeat_orders_finite : finite_totals repeat_orders.
Proof. repeat constructor. Qed.

(** The product ordered for 30 and for 70 ranks first, with 100. *)
Example repeat_orders_ranking :
  topProducts repeat_orders = [("Widget", of_Z 100); ("Gadget", of_Z 50)] /\
  map (fun entry => toFixed (snd entry) 2) (topProducts repeat_orders) =
  ["100.00"; "50.00"].
Proof. vm_compute. split; reflexivity. Qed.

Lemma repeat_orders_plain : plain_names product_name repeat_orders.
Proof. repeat constructor. Qed.

(** C4, as amended, at the collection with a repeated product. *)
Lemma topProducts_spec_witness :
  finite_totals repeat_orders /\
  plain_names product_name repeat_orders /\
  (List.length (topProducts repeat_orders) <= 10)%nat /\
  exists ranked,
    topProducts repeat_orders = firstn 10 ranked /\
    (forall name v,
        In (name, v) ranked -> v = revenue_of product_name repeat_orders name) /\
    Descending ranked.
Proof.
  split; [exact repeat_orders_finite|]. split; [exact repeat_orders_plain|].
  destruct (topProducts_spec repeat_orders) as [Hlen Hranked].
  split; [exact Hlen|].
  destruct (Hranked repeat_orders_finite repeat_orders_plain)
    as (ranked & Htop & _ & _ & Hvalues & Hsorted).
  exists ranked. now repeat split.
Defined.

(** C4, counterexample to the claim as first stated, which is made for
    every collection: the product "P" has the totals 100, "n/a" and 50; the
    sum over all its records is not a number, but the list ranks it with
    50, the reducer having started the sum again after the unparsable
    total. *)
Lemma top_products_unparsable_counterexample :
  map product_name repeated_product = ["P"; "P"; "P"] /\
  map parsed_total repeated_product = [of_Z 100; NaN; of_Z 50] /\
  revenue_of product_name repeated_product "P" = NaN /\
  topProducts repeated_product = [("P", of_Z 50)] /\
  strict_eq (of_Z 50) (revenue_of product_name repeated_product "P") = false.
Proof. vm_compute. repeat split. Qed.

(** C5 on the blank page, with the two-record collection. *)
Lemma populateCategoryFilter_spec_witness :
  category_filter blank_page =
  Some {| select_options := []; select_onchange := None |} /\
  exists filled,
    populateCategoryFilter two_orders blank_page =
    (Returned tt, set_category_filter (Some filled) blank_page) /\
    select_options filled =
    new_Option (Some "All Categories") (Some "all") true true ::
    map (fun c => new_Option c c false false)
        (first_seen (map categories two_orders)) /\
    select_value filled = "all" /\
    NoDup (first_seen (map categories two_orders)) /\
    (forall c, In c (first_seen (map categories two_orders)) <->
               exists item, In item two_orders /\ categories item = c) /\
    populateCategoryFilter two_orders (set_category_filter (Some filled) blank_page) =
    (Returned tt, set_category_filter (Some filled) blank_page).
Proof.
  split; [reflexivity|].
  exact (populateCategoryFilter_spec two_orders blank_page _ eq_refl).
Defined.

(** C6 on the blank page. *)
Lemma startup_three_way_witness :
  app_innerHTML blank_page = Some "" /\
  (forall data,
      data = JsonFalsy \/ data = JsonArray [] ->
      DOMContentLoaded Date_parse_strict flatpickr_parseDate_utc (Resolved data) blank_page =
      set_app (Some "<p>No data available.</p>") blank_page) /\
  (forall error,
      DOMContentLoaded Date_parse_strict flatpickr_parseDate_utc (Rejected error) blank_page =
      set_app (Some "<p>Failed to fetch data.</p>")
              (set_console_errors
                 (console_errors blank_page ++ [("Error fetching data:", error)])%list
                 blank_page)) /\
  (forall result,
      dashboard_state
        (DOMContentLoaded Date_parse_strict flatpickr_parseDate_utc result blank_page)
      <> dashboard_state blank_page ->
      exists first rest, result = Resolved (JsonArray (first :: rest))).
Proof.
  split; [reflexivity|].
  pose proof (startup_three_way Date_parse_strict flatpickr_parseDate_utc
                                blank_page "" eq_refl) as (Hempty & Hfail & Honly & _).
  exact (conj Hempty (conj Hfail Honly)).
Defined.

(** C7 from the blank page, through a call with an unknown mode. *)
Lemma single_live_chart_witness :
  chartInstance blank_page = None /\
  live_charts blank_page = [] /\
  (List.length
     (live_charts
        (draw_calls [(two_orders, "chart-canvas", "topProducts");
                     (two_orders, "chart-canvas", "pie");
                     (tie_orders, "chart-canvas", "revenueByCategory")]
                    blank_page)) <= 1)%nat.
Proof.
  split; [reflexivity | split; [reflexivity|]].
  apply (single_live_chart
           blank_page
           [(two_orders, "chart-canvas", "topProducts");
            (two_orders, "chart-canvas", "pie");
            (tie_orders, "chart-canvas", "revenueByCategory")]
           eq_refl eq_refl).
Defined.

(** C9 at a collection with one total that is not a number. *)
Lemma unparsable_total_propagates_witness :
  (exists item, In item unparsable_orders /\ isNaN (parseFloat (total item)) = true) /\
  totalRevenue unparsable_orders = NaN /\
  averageOrderValue unparsable_orders = NaN /\
  total_revenue (updateKeyMetrics unparsable_orders blank_page) = "$NaN" /\
  average_order_value (updateKeyMetrics unparsable_orders blank_page) = "$NaN" /\
  total_orders (updateKeyMetrics unparsable_orders blank_page) = string_of_nat 3 /\
  app_innerHTML (updateKeyMetrics unparsable_orders blank_page) = app_innerHTML blank_page /\
  console_errors (updateKeyMetrics unparsable_orders blank_page) = console_errors blank_page.
Proof.
  assert (H : exists item, In item unparsable_orders /\
                           isNaN (parseFloat (total item)) = true).
  { exists (order "02/01/2024" "n/a" (Some "B") (Some "Gadget")).
    split; [right; left; reflexivity | reflexivity]. }
  split; [exact H|].
  exact (unparsable_total_propagates unparsable_orders blank_page H).
Defined.

(** C10 at a record dated the 31st of February. *)
Lemma invalid_date_excluded_witness :
  itemDate Date_parse_strict misdated = None /\
  forall startDate endDate selectedCategory data,
    DateValue.ge (itemDate Date_parse_strict misdated) startDate = false /\
    DateValue.le (itemDate Date_parse_strict misdated) endDate = false /\
    ~ In misdated (filteredData Date_parse_strict startDate endDate selectedCategory data).
Proof.
  split; [reflexivity|].
  exact (invalid_date_excluded Date_parse_strict misdated eq_refl).
Defined.

(** C8, at a record without a category: the metrics file it under
    "Uncategorized", but filtering by "Uncategorized" leaves it out (and
    keeps the record that carries the label), the drop-down gives it an
    entry with empty text and value, and the category chart labels it with
    the absent value. *)
Theorem absent_category_divergence :
  let t := Some (days_from_civil 2024 1 1 * msPerDay) in
  category_key no_category = "Uncategorized" /\
  top_category (updateKeyMetrics [no_category; filed_uncategorized] blank_page) =
  "Uncategorized" /\
  revenueByCategory [no_category; filed_uncategorized] =
  [("Uncategorized", of_Z 100)] /\
  filteredData Date_parse_strict t t "all" [no_category; filed_uncategorized] =
  [no_category; filed_uncategorized] /\
  filteredData Date_parse_strict t t "Uncategorized" [no_category; filed_uncategorized] =
  [filed_uncategorized] /\
  map (fun o => (option_text o, option_value o))
      (category_options [no_category; filed_uncategorized]) =
  [("All Categories", "all"); ("", ""); ("Uncategorized", "Uncategorized")] /\
  chart_labels (revenueByCategoryChart "chart-canvas" [no_category; filed_uncategorized]) =
  [None; Some "Uncategorized"].
Proof. vm_compute. repeat split. Qed.

(** ** Further properties at concrete inputs *)

Lemma two_orders_finite : finite_totals two_orders.
Proof. repeat constructor. Qed.

Lemma two_orders_labelled : labelled two_orders.
Proof.
  repeat constructor; eexists; (split; [reflexivity | discriminate]).
Qed.

Lemma loaded_page_discipline : chart_discipline loaded_page.
Proof. right. do 2 eexists. split; vm_compute; reflexivity. Qed.

(** X1 at the second record of the two-record collection. *)
Lemma itemDate_reverses_day_month_year_witness :
  order_date (order "15/01/2024" "150" (Some "B") (Some "Gadget")) =
  "15" ++ "/" ++ "01" ++ "/" ++ "2024" /\
  itemDate Date_parse_strict (order "15/01/2024" "150" (Some "B") (Some "Gadget")) =
  Date_parse_strict "2024-01-15".
Proof.
  split; [reflexivity|].
  exact (itemDate_reverses_day_month_year
           Date_parse_strict (order "15/01/2024" "150" (Some "B") (Some "Gadget"))
           "15" "01" "2024" eq_refl eq_refl eq_refl eq_refl).
Defined.

(** X2 on the blank page: the two-record collection sets the pickers up,
    the misdated record does not. *)
Lemma setupFilters_outcome_witness :
  (exists w',
      setupFilters Date_parse_strict flatpickr_parseDate_utc two_orders blank_page =
      (Returned tt, w') /\
      rendered_state w' = rendered_state blank_page) /\
  setupFilters Date_parse_strict flatpickr_parseDate_utc [misdated] blank_page =
  (Thrown (RangeError "Invalid time value"), blank_page).
Proof.
  split.
  - destruct (setupFilters_outcome Date_parse_strict flatpickr_parseDate_utc
                                   two_orders blank_page) as [Hok _].
    destruct Hok as (tmin & tmax & w' & Hrun & _ & _ & _ & _ & _ & _ & Hsame).
    + discriminate.
    + intros item [<- | [<- | []]]; eexists; (split; [vm_compute; reflexivity|]);
        vm_compute; discriminate.
    + exists w'. now split.
  - apply (setupFilters_outcome Date_parse_strict flatpickr_parseDate_utc
                                [misdated] blank_page).
    right. exists misdated. split; [now left | reflexivity].
Defined.

(** X4 on the loaded page. *)
Lemma render_consistent_witness :
  start_date loaded_page =
  Some (flatpickr flatpickr_parseDate_utc "2024-01-01" (Some two_orders)) /\
  end_date loaded_page =
  Some (flatpickr flatpickr_parseDate_utc "2024-01-15" (Some two_orders)) /\
  category_filter loaded_page =
  Some {| select_options := category_options two_orders;
          select_onchange := Some two_orders |} /\
  exists w' rows,
    filterAndRenderData Date_parse_strict two_orders loaded_page = (Returned tt, w') /\
    data_table w' = Some rows /\
    total_orders w' = string_of_nat (List.length rows).
Proof.
  assert (Hs : start_date loaded_page =
               Some (flatpickr flatpickr_parseDate_utc "2024-01-01" (Some two_orders)))
    by (vm_compute; reflexivity).
  assert (He : end_date loaded_page =
               Some (flatpickr flatpickr_parseDate_utc "2024-01-15" (Some two_orders)))
    by (vm_compute; reflexivity).
  assert (Hc : category_filter loaded_page =
               Some {| select_options := category_options two_orders;
                       select_onchange := Some two_orders |})
    by (vm_compute; reflexivity).
  split; [exact Hs|]. split; [exact He|]. split; [exact Hc|].
  destruct (render_consistent Date_parse_strict two_orders loaded_page _ _ _ Hs He Hc)
    as (w' & rows & Hrun & Htable & _ & Hcount & _).
  exists w', rows. now repeat split.
Defined.

(** X5 on the page whose range is February 2024: none of the two January
    records is in it. *)
Lemma nothing_selected_resets_witness :
  (forall item, In item two_orders ->
                ~ included Date_parse_strict
                  (flatpickr_parseDate_utc "2024-02-01")
                  (flatpickr_parseDate_utc "2024-02-29") "all" item) /\
  exists w',
    filterAndRenderData Date_parse_strict two_orders february_page = (Returned tt, w') /\
    total_revenue w' = "$0.00" /\
    total_orders w' = "0" /\
    top_category w' = "None" /\
    data_table w' = Some [].
Proof.
  assert (Hnone : forall item, In item two_orders ->
                    ~ included Date_parse_strict
                      (flatpickr_parseDate_utc "2024-02-01")
                      (flatpickr_parseDate_utc "2024-02-29") "all" item).
  { intros item [<- | [<- | []]] [(t & s & e & Ht & Hs & He & H1 & H2) _];
      vm_compute in Ht, Hs; injection Ht as <-; injection Hs as <-; lia. }
  split; [exact Hnone|].
  destruct (nothing_selected_resets
              Date_parse_strict two_orders february_page
              (flatpickr flatpickr_parseDate_utc "2024-02-01" (Some two_orders))
              (flatpickr flatpickr_parseDate_utc "2024-02-29" (Some two_orders))
              {| select_options := category_options two_orders;
                 select_onchange := Some two_orders |})
    as (w' & Hrun & H1 & H2 & _ & H4 & H5 & _).
  - reflexivity.
  - reflexivity.
  - vm_compute. reflexivity.
  - exact Hnone.
  - exists w'. now repeat split.
Defined.

(** X6 on the loaded page. *)
Lemma render_idempotent_witness :
  chart_discipline loaded_page /\
  exists w1 w2,
    filterAndRenderData Date_parse_strict two_orders loaded_page = (Returned tt, w1) /\
    filterAndRenderData Date_parse_strict two_orders w1 = (Returned tt, w2) /\
    data_table w2 = data_table w1 /\
    map snd (live_charts w2) = map snd (live_charts w1).
Proof.
  split; [exact loaded_page_discipline|].
  destruct (render_idempotent
              Date_parse_strict two_orders loaded_page
              (flatpickr flatpickr_parseDate_utc "2024-01-01" (Some two_orders))
              (flatpickr flatpickr_parseDate_utc "2024-01-15" (Some two_orders))
              {| select_options := category_options two_orders;
                 select_onchange := Some two_orders |})
    as (w1 & w2 & H1 & H2 & _ & _ & _ & _ & _ & H3 & H4).
  - vm_compute. reflexivity.
  - vm_compute. reflexivity.
  - vm_compute. reflexivity.
  - exact loaded_page_discipline.
  - exists w1, w2. now repeat split.
Defined.

(** X8: the two records followed by the misdated one. *)
Lemma startup_invalid_date_witness :
  app_innerHTML blank_page = Some "" /\
  In misdated (two_orders ++ [misdated])%list /\
  itemDate Date_parse_strict misdated = None /\
  DOMContentLoaded Date_parse_strict flatpickr_parseDate_utc
                   (Resolved (JsonArray (two_orders ++ [misdated])%list)) blank_page =
  set_app (Some "<p>Failed to fetch data.</p>")
          (set_console_errors
             [("Error fetching data:", RangeError "Invalid time value")] blank_page).
Proof.
  assert (Hin : In misdated (two_orders ++ [misdated])%list)
    by (apply in_or_app; right; now left).
  split; [reflexivity|]. split; [exact Hin|]. split; [reflexivity|].
  exact (startup_invalid_date Date_parse_strict flatpickr_parseDate_utc
                              blank_page "" (two_orders ++ [misdated])%list misdated
                              eq_refl Hin eq_refl).
Defined.

(** X9 on the page without the drop-down. *)
Lemma startup_without_dropdown_witness :
  category_filter page_without_filter = None /\
  app_innerHTML
    (DOMContentLoaded Date_parse_strict flatpickr_parseDate_utc
                      (Resolved (JsonArray two_orders)) page_without_filter) =
  Some "<p>Failed to fetch data.</p>" /\
  data_table
    (DOMContentLoaded Date_parse_strict flatpickr_parseDate_utc
                      (Resolved (JsonArray two_orders)) page_without_filter) = None.
Proof.
  split; [reflexivity|].
  rewrite (startup_without_dropdown
             Date_parse_strict flatpickr_parseDate_utc page_without_filter ""
             two_orders (days_from_civil 2024 1 1 * msPerDay)
             (days_from_civil 2024 1 15 * msPerDay)
             eq_refl eq_refl
             ltac:(vm_compute; reflexivity) ltac:(vm_compute; reflexivity)).
  split; reflexivity.
Defined.

(** X10 on the blank page, at the two-record collection. *)
Lemma startup_outcomes_witness :
  app_innerHTML blank_page = Some "" /\
  (startup_failed blank_page loaded_page \/
   startup_no_data blank_page loaded_page \/
   startup_started (Resolved (JsonArray two_orders)) blank_page loaded_page) /\
  ~ (startup_failed blank_page loaded_page /\
     startup_started (Resolved (JsonArray two_orders)) blank_page loaded_page) /\
  ~ (startup_no_data blank_page loaded_page /\
     startup_started (Resolved (JsonArray two_orders)) blank_page loaded_page).
Proof.
  split; [reflexivity|].
  destruct (startup_outcomes Date_parse_strict flatpickr_parseDate_utc
                             (Resolved (JsonArray two_orders)) blank_page "" eq_refl)
    as (Hcases & _ & Hfs & Hns).
  split; [exact Hcases|]. split; [exact Hfs|].
  apply Hns. discriminate.
Defined.

(** X11: in a UTC browser the first table holds both records; five hours
    west of it, the record of the first day is missing. *)
Lemma initial_render_range_witness :
  data_table loaded_page = data_table (populateDataTable two_orders blank_page) /\
  exists rows,
    data_table
      (DOMContentLoaded Date_parse_strict flatpickr_parseDate_west
                        (Resolved (JsonArray two_orders)) blank_page) = Some rows /\
    (List.length rows < List.length two_orders)%nat.
Proof.
  assert (Hmin : Date_of_min (map (itemDate Date_parse_strict) two_orders) =
                 Some (days_from_civil 2024 1 1 * msPerDay))
    by (vm_compute; reflexivity).
  assert (Hmax : Date_of_max (map (itemDate Date_parse_strict) two_orders) =
                 Some (days_from_civil 2024 1 15 * msPerDay))
    by (vm_compute; reflexivity).
  split.
  - apply (initial_render_range Date_parse_strict flatpickr_parseDate_utc
                                blank_page two_orders _ _ _ Hmin Hmax eq_refl).
    exists (days_from_civil 2024 1 1 * msPerDay), (days_from_civil 2024 1 15 * msPerDay).
    repeat split; vm_compute; congruence.
  - destruct (initial_render_range Date_parse_strict flatpickr_parseDate_west
                                   blank_page two_orders _ _ _ Hmin Hmax eq_refl)
      as [_ Hfewer].
    destruct Hfewer as (rows & Htable & Hlt & _).
    + right. right. left.
      exists (days_from_civil 2024 1 1 * msPerDay + 5 * 3600000).
      split; vm_compute; reflexivity.
    + exists rows. now split.
Defined.

(** X12 after a start-up and a render pass. *)
Lemma session_single_chart_witness :
  Session Date_parse_strict flatpickr_parseDate_utc
          (snd (filterAndRenderData Date_parse_strict tie_orders loaded_page)) /\
  (List.length
     (live_charts (snd (filterAndRenderData Date_parse_strict tie_orders loaded_page)))
   <= 1)%nat.
Proof.
  assert (H : Session Date_parse_strict flatpickr_parseDate_utc
                      (snd (filterAndRenderData Date_parse_strict tie_orders loaded_page))).
  { apply Session_render.
    exact (Session_start Date_parse_strict flatpickr_parseDate_utc blank_page
                         (Resolved (JsonArray two_orders)) eq_refl eq_refl). }
  split; [exact H|].
  exact (proj2 (session_single_chart Date_parse_strict flatpickr_parseDate_utc _ H)).
Defined.

(** X13 at the two-record collection. *)
Lemma finite_totals_no_NaN_witness :
  finite_totals two_orders /\
  isNaN (totalRevenue two_orders) = false /\
  isNaN (averageOrderValue two_orders) = false.
Proof.
  split; [exact two_orders_finite|].
  destruct (finite_totals_no_NaN two_orders two_orders_finite) as (H1 & _ & H3).
  split; [exact H1 | apply H3; reflexivity].
Defined.

(** X14: totals 100, "n/a" and 50 in one category. *)
Lemma category_revenue_restarts_after_NaN_witness :
  isNaN (parseFloat "n/a") = true /\
  inherited_key "A" = false /\
  Obj.get (revenueByCategory reset_orders) "A" = Some (add zero (parseFloat "50")) /\
  totalRevenue reset_orders = NaN.
Proof.
  split; [reflexivity|]. split; [reflexivity|].
  destruct (category_revenue_restarts_after_NaN
              [order "01/01/2024" "100" (Some "A") (Some "Widget")]
              (order "02/01/2024" "n/a" (Some "A") (Some "Gadget"))
              (order "03/01/2024" "50" (Some "A") (Some "Gizmo"))
              eq_refl eq_refl eq_refl) as (H1 & _ & H3).
  split; [exact H1 | exact H3].
Defined.

(** X15 at category "A" of the two-record collection. *)
Lemma category_chart_agrees_with_metrics_witness :
  finite_totals two_orders /\ labelled two_orders /\
  inherited_key "A" = false /\
  In (Some "A") (map categories two_orders) /\
  Obj.get (revenueByCategory two_orders) "A" =
  Some (chart_category_revenue two_orders (Some "A")).
Proof.
  assert (Hin : In (Some "A") (map categories two_orders)) by (now left).
  split; [exact two_orders_finite|]. split; [exact two_orders_labelled|].
  split; [reflexivity|]. split; [exact Hin|].
  exact (proj1 (category_chart_agrees_with_metrics
                  two_orders "A" two_orders_finite two_orders_labelled eq_refl Hin)).
Defined.
